(** * packer-plugin-vergeio: the VM provisioning pipeline

    A shallow embedding of the builder steps of the VergeIO Packer plugin
    (builder/vergeio and client) and the properties of its lifecycle:
    resource creation and rollback, the disk-import waiter, power-on and
    static address extraction, guest-agent address discovery and the
    shutdown step.

    Conventions.
    - Go strings are [string]; Go [int]/[int64] are [Z], with the 64-bit
      wrap-around written out where the code multiplies.
    - [multistep.StateBag] is a [gmap string Value]: [state.Put] is insert,
      [state.GetOk] is lookup. An unchecked type assertion [x.(T)] on a
      missing or differently typed entry panics; this is the [Panicked]
      outcome.
    - Every call to the remote API, to the communicator, and every
      [time.Sleep] appends an [Event] to a trace. What the remote side
      answers is an input of the model: an [Env] record, indexed by call
      number where a call is repeated, and for a [select] loop the list of
      answers of the ticks that are delivered before the deadline wins.
    - [ui.Say]/[ui.Message]/[ui.Error] and [log.Printf] only write to the
      operator's console and are left out. *)

From Stdlib Require Import ZArith List Bool Ascii String Lia.
From stdpp Require Import base option list gmap strings fin_maps.
Import ListNotations.
Local Open Scope string_scope.
Local Open Scope Z_scope.
Local Open Scope list_scope.

(** ** Go values *)

(** An [error] value. [fmt.Errorf format args] is kept unformatted, so that
    the arguments an error carries can be read back; [%w] and [%v] of an
    error both hold the wrapped error. [Remote] is an error produced
    outside this repository (transport, JSON decoding, the API fault
    raised by [Client.Do]). *)
Inductive GoError : Type :=
| Errorf (format : string) (args : list FmtArg)
| ErrorsNew (msg : string)
| Remote (msg : string)
with FmtArg : Type :=
| AStr (s : string)
| AInt (n : Z)
| ADuration (nanoseconds : Z)
| AErr (e : GoError).

(** A Go [(T, error)] result. *)
Inductive Result (A : Type) : Type :=
| Ok (a : A)
| Err (e : GoError).
Arguments Ok {A} a.
Arguments Err {A} e.

(** What a function that may panic hands back. *)
Inductive Outcome (A : Type) : Type :=
| Returned (a : A)
| Panicked.
Arguments Returned {A} a.
Arguments Panicked {A}.

(** [int64] arithmetic wraps around. *)
Definition wrap64 (z : Z) : Z := (z + 2 ^ 63) mod 2 ^ 64 - 2 ^ 63.

Definition second : Z := 1000000000.
Definition minute : Z := 60 * second.

(** ** client: the REST layer *)

Module Client.

(** The fields of [VMDiskResourceModel] that the builder looks at; the other
    fields are copied from the configuration into the request body and never
    read again. *)
Record VMDiskResourceModel : Type := {
  Machine : Z;
  Name : string;
  Media : string;
  DiskSize : Z
}.

Record VMNicResourceModel : Type := {
  NicMachine : Z;
  NicName : string
}.

(** What [Client.Do] gives back for a request whose body the caller ignores:
    an error, or a response with its status code ([Do] never returns a nil
    response with a nil error, so the callers' nil checks are dead). *)
Inductive HttpAnswer : Type :=
| HttpFail (err : GoError)
| HttpStatus (code : Z).

Inductive Event : Type :=
| EvSleep (nanoseconds : Z)
| EvCreateVM (name : string)                     (* POST api/v4/vms, then GET *)
| EvCreateDisk (d : VMDiskResourceModel)         (* POST api/v4/machine_drives *)
| EvCreateNic (n : VMNicResourceModel)           (* POST api/v4/machine_nics *)
| EvDeleteVM (key : string)                      (* DELETE api/v4/vms/key *)
| EvDiskStatus (key : string)                    (* GET api/v4/machine_drives/key, status *)
| EvReadDisk (key : string)                      (* GET api/v4/machine_drives/key *)
| EvUpdateDisk (key : string) (disksize : Z)     (* PUT api/v4/machine_drives/key *)
| EvPowerAction (key : string) (action : string) (* POST api/v4/vm_actions *)
| EvIsVMRunning (key : string)                   (* GET api/v4/vms/key, powerstate *)
| EvGuestAgentIPs (key : string)                 (* GET api/v4/vms/key, dashboard *)
| EvCommStart (command : string)                 (* comm.Start *)
| EvCommWait.                                    (* cmd.Wait *)

(** How the shutdown command ends within the shutdown timeout. *)
Inductive WaitOutcome : Type :=
| WaitTimedOut
| WaitExited (status : Z).

(** What the [select] of the settle loop of [StepWaitForIP] receives: the
    settle deadline, or a tick of the 5 s ticker with the answer to the
    guest-agent query made on it. *)
Inductive SettleEvent : Type :=
| SettleDeadline
| SettleTick (answer : Result (list string)).

(** The answers of everything outside the process, for one build. *)
Record Env : Type := {
  (* [CreateVM]: [apiData.Id] and [apiData.Machine] as they stand after the
     POST and the follow-up [readVM], or the error of either *)
  env_CreateVM : Result (string * Z);
  env_CreateVMDiskWithKey : nat -> Result string;     (* i-th disk of the spec *)
  env_CreateVMNic : nat -> option GoError;            (* i-th NIC of the spec *)
  env_DeleteVM : HttpAnswer;
  env_CheckDiskImportStatus : nat -> Result string;   (* n-th status request *)
  env_ReadDisk : nat -> Result VMDiskResourceModel;   (* n-th disk read *)
  env_UpdateDisk : nat -> HttpAnswer;                 (* n-th disk update *)
  env_PowerOn : HttpAnswer;
  env_PowerOff : HttpAnswer;
  (* the ticks of the power-on poll that come before its deadline *)
  env_RunningPolls : list (Result (option bool));
  (* the running-state read of the shutdown verification *)
  env_RunningAfterShutdown : Result (option bool);
  env_CommStart : option GoError;
  env_CommWait : WaitOutcome;
  (* whether the build is cancelled during the 30 s wait after the command *)
  env_CancelledInDrain : bool;
  (* [GetGuestAgentIPs]: the check made before the discovery loop, the ticks
     of the discovery loop that come before its deadline, and what the
     settle loop receives (the settle deadline fires once the list is used
     up) *)
  env_GuestAgentFirst : Result (list string);
  env_GuestAgentTicks : list (Result (list string));
  env_SettleEvents : list SettleEvent
}.

(** [VMApi.DeleteVM] *)
Definition DeleteVM (env : Env) (vmId : string) : option GoError * list Event :=
  let ev := [EvDeleteVM vmId] in
  match env_DeleteVM env with
  | HttpFail err => (Some (Errorf "error deleting VM %s: %w" [AStr vmId; AErr err]), ev)
  | HttpStatus code =>
      if negb (code =? 200) && negb (code =? 204)
      then (Some (Errorf "failed to delete VM %s, status code: %d" [AStr vmId; AInt code]), ev)
      else (None, ev)
  end.

(** [VMApi.changeVMPowerState] *)
Definition changeVMPowerState (ans : HttpAnswer) (vmKey desiredState : string)
  : option GoError * list Event :=
  let ev := [EvPowerAction vmKey desiredState] in
  match ans with
  | HttpFail err => (Some err, ev)
  | HttpStatus code =>
      if negb (code =? 201)
      then (Some (Errorf "failed to change the VM power state: status code %v" [AInt code]), ev)
      else (None, ev)
  end.

(** [VMApi.PowerOnVM] *)
Definition PowerOnVM (env : Env) (vmKey : string) : option GoError * list Event :=
  match changeVMPowerState (env_PowerOn env) vmKey "poweron" with
  | (Some err, tr) => (Some err, tr)
  | (None, tr) => (None, tr ++ [EvSleep (10 * second)])
  end.

(** [VMApi.PowerOffVM] *)
Definition PowerOffVM (env : Env) (vmKey : string) : option GoError * list Event :=
  match changeVMPowerState (env_PowerOff env) vmKey "kill" with
  | (Some err, tr) => (Some err, tr)
  | (None, tr) => (None, tr ++ [EvSleep (5 * second)])
  end.

(** [DriveApi.UpdateDiskSize]: the request carries the size in bytes,
    computed in [int64]. *)
Definition GB_to_bytes (requestedSizeGB : Z) : Z :=
  wrap64 (wrap64 (wrap64 (requestedSizeGB * 1024) * 1024) * 1024).

Definition UpdateDiskSize (ans : HttpAnswer) (diskKey : string) (requestedSizeGB : Z)
  : option GoError * list Event :=
  let ev := [EvUpdateDisk diskKey (GB_to_bytes requestedSizeGB)] in
  match ans with
  | HttpFail err => (Some (Errorf "failed to update disk size: %w" [AErr err]), ev)
  | HttpStatus code =>
      if negb (code =? 200)
      then (Some (Errorf "VergeIO API returned status code %d for disk update" [AInt code]), ev)
      else (None, ev)
  end.

Section DiskImport.

(** Go's [strings.ToLower]. *)
Variable ToLower : string -> string.

(** The [for retries < maxRetries] loop of [WaitForDiskImportCompletion] for
    one disk. [remaining] is [maxRetries - retries]; [n] counts the status
    requests made so far. *)
Fixpoint wait_one_disk (env : Env) (diskKey : string) (maxRetries : Z)
    (remaining : nat) (n : nat) : option GoError * nat * list Event :=
  match remaining with
  | O => (None, n, [])
  | S remaining' =>
      match env_CheckDiskImportStatus env n with
      | Err err =>
          (Some (Errorf "failed to check disk import status: %w" [AErr err]),
           S n, [EvDiskStatus diskKey])
      | Ok status =>
          if negb (String.eqb (ToLower status) "importing")
          then (None, S n, [EvDiskStatus diskKey])
          else
            match remaining' with
            | O =>
                (Some (Errorf "disk %s failed to complete import after %d retries, last status: %s"
                         [AStr diskKey; AInt maxRetries; AStr status]),
                 S n, [EvDiskStatus diskKey])
            | S _ =>
                let '(r, n', tr) := wait_one_disk env diskKey maxRetries remaining' (S n) in
                (r, n', EvDiskStatus diskKey :: EvSleep (5 * second) :: tr)
            end
      end
  end.

(** [for _, diskKey := range diskKeys] *)
Fixpoint wait_disks (env : Env) (diskKeys : list string) (maxRetries : Z) (n : nat)
  : option GoError * list Event :=
  match diskKeys with
  | [] => (None, [])
  | diskKey :: rest =>
      match wait_one_disk env diskKey maxRetries (Z.to_nat maxRetries) n with
      | (Some err, _, tr) => (Some err, tr)
      | (None, n', tr) =>
          let '(r, tr') := wait_disks env rest maxRetries n' in (r, tr ++ tr')
      end
  end.

(** [DriveApi.WaitForDiskImportCompletion] *)
Definition WaitForDiskImportCompletion (env : Env) (diskKeys : list string) (maxRetries : Z)
  : option GoError * list Event :=
  match diskKeys with
  | [] => (None, [])
  | _ =>
      let '(r, tr) := wait_disks env diskKeys maxRetries 0%nat in
      (r, EvSleep (5 * second) :: tr)
  end.

End DiskImport.

(** The loop of [CheckAndResizeImportedDisks]: [i] is the index of [diskKey]
    in [diskKeys], [nr] and [nu] count the disk reads and updates made so
    far. A key with no configuration at its index is passed over. *)
Fixpoint resize_loop (env : Env) (diskConfigs : list VMDiskResourceModel)
    (diskKeys : list string) (i nr nu : nat) : option GoError * list Event :=
  match diskKeys with
  | [] => (None, [])
  | diskKey :: rest =>
      match diskConfigs !! i with
      | None => resize_loop env diskConfigs rest (S i) nr nu
      | Some config =>
          let requestedSizeGB := DiskSize config in
          match env_ReadDisk env nr with
          | Err err =>
              (Some (Errorf "failed to read disk %s after import: %w" [AStr (Name config); AErr err]),
               [EvReadDisk diskKey])
          | Ok currentDisk =>
              let currentSizeGB := Z.quot (DiskSize currentDisk) (1024 * 1024 * 1024) in
              if negb (currentSizeGB =? requestedSizeGB) then
                match UpdateDiskSize (env_UpdateDisk env nu) diskKey requestedSizeGB with
                | (Some err, tr) =>
                    (Some (Errorf "failed to resize disk %s: %w" [AStr (Name config); AErr err]),
                     EvReadDisk diskKey :: tr)
                | (None, tr) =>
                    let '(r, tr') := resize_loop env diskConfigs rest (S i) (S nr) (S nu) in
                    (r, EvReadDisk diskKey :: tr ++ tr')
                end
              else
                let '(r, tr') := resize_loop env diskConfigs rest (S i) (S nr) nu in
                (r, EvReadDisk diskKey :: tr')
          end
      end
  end.

(** [DriveApi.CheckAndResizeImportedDisks]. The [diskSizeMap] the function
    fills first is never read and is left out. *)
Definition CheckAndResizeImportedDisks (env : Env)
    (diskConfigs : list VMDiskResourceModel) (diskKeys : list string)
  : option GoError * list Event :=
  if (Nat.eqb (length diskConfigs) 0 || Nat.eqb (length diskKeys) 0)%bool then (None, [])
  else resize_loop env diskConfigs diskKeys 0 0 0.

End Client.

(** ** regexp: the pattern of [extractIPFromCloudInit]

    Go's [regexp] finds the leftmost match and, among the matches that start
    there, the one a backtracking search finds first. The matcher below
    lists, for the constructs the pattern uses, the ways a prefix of the
    input can be consumed, the preferred way first. The pattern has ASCII
    literals and classes only, so matching bytes and matching runes
    agree. *)

Module Regexp.

(** [\d] *)
Definition is_digit (c : ascii) : bool :=
  (48 <=? nat_of_ascii c)%nat && (nat_of_ascii c <=? 57)%nat.

(** [\s]: tab, newline, form feed, carriage return, space. *)
Definition is_space (c : ascii) : bool :=
  let n := nat_of_ascii c in
  Nat.eqb n 9 || Nat.eqb n 10 || Nat.eqb n 12 || Nat.eqb n 13 || Nat.eqb n 32.

Inductive re : Type :=
| BeginText                                    (* ^ *)
| Lit (c : ascii)                              (* a literal character *)
| Repeat (p : ascii -> bool) (min max : nat)   (* greedy class{min,max} *)
| Plus (p : ascii -> bool)                     (* greedy class+ *)
| Alt (r1 r2 : re)                             (* r1|r2, r1 preferred *)
| Cat (r1 r2 : re).

(** What is left of [s] after [class{min,max}], longest run first. *)
Fixpoint repeat_class (p : ascii -> bool) (min max : nat) (s : list ascii)
  : list (list ascii) :=
  match max with
  | O => match min with O => [s] | S _ => [] end
  | S max' =>
      match s with
      | c :: s' => if p c then repeat_class p (Nat.pred min) max' s' else []
      | [] => []
      end ++ match min with O => [s] | S _ => [] end
  end.

Fixpoint star_class (p : ascii -> bool) (s : list ascii) : list (list ascii) :=
  match s with
  | c :: s' => if p c then star_class p s' else []
  | [] => []
  end ++ [s].

Definition plus_class (p : ascii -> bool) (s : list ascii) : list (list ascii) :=
  match s with
  | c :: s' => if p c then star_class p s' else []
  | [] => []
  end.

(** The ways [r] matches at the head of [s]: whether the position reached is
    still the beginning of the text, and the rest of the input. *)
Fixpoint run (r : re) (at_begin : bool) (s : list ascii) : list (bool * list ascii) :=
  match r with
  | BeginText => if at_begin then [(true, s)] else []
  | Lit c =>
      match s with
      | c' :: s' => if Ascii.eqb c c' then [(false, s')] else []
      | [] => []
      end
  | Repeat p min max =>
      map (fun s' => (at_begin && Nat.eqb (length s') (length s), s')) (repeat_class p min max s)
  | Plus p => map (fun s' => (false, s')) (plus_class p s)
  | Alt r1 r2 => run r1 at_begin s ++ run r2 at_begin s
  | Cat r1 r2 => flat_map (fun bs => run r2 (fst bs) (snd bs)) (run r1 at_begin s)
  end.

(** [(?:^|\s+)(\d{1,3}\.\d{1,3}\.\d{1,3}\.\d{1,3})\/\d{1,2}], in its three
    parts: what comes before the group, the group, what comes after. *)
Definition dot : ascii := "."%char.
Definition slash : ascii := "/"%char.
Definition octet : re := Repeat is_digit 1 3.
Definition ip_before : re := Alt BeginText (Plus is_space).
Definition ip_group : re :=
  Cat octet (Cat (Lit dot) (Cat octet (Cat (Lit dot) (Cat octet (Cat (Lit dot) octet))))).
Definition ip_after : re := Cat (Lit slash) (Repeat is_digit 1 2).

(** The text of group 1 for every way the whole pattern matches at the head
    of [s], the preferred way first. *)
Definition submatches_at (at_begin : bool) (s : list ascii) : list (list ascii) :=
  flat_map (fun bs1 =>
    flat_map (fun bs2 =>
      map (fun _ => take (length (snd bs1) - length (snd bs2)) (snd bs1))
          (run ip_after (fst bs2) (snd bs2)))
      (run ip_group (fst bs1) (snd bs1)))
    (run ip_before at_begin s).

(** The search moves the start of the match to the right until the pattern
    matches. *)
Fixpoint find_submatch (at_begin : bool) (s : list ascii) : option (list ascii) :=
  match head (submatches_at at_begin s) with
  | Some g => Some g
  | None =>
      match s with
      | [] => None
      | _ :: s' => find_submatch false s'
      end
  end.

(** [matches := ipRegex.FindStringSubmatch(contents)], then [matches[1]]
    when [len(matches) >= 2]: the result is nil without a match and has
    two entries with one. *)
Definition FindStringSubmatch_1 (contents : string) : option string :=
  string_of_list_ascii <$> find_submatch true (list_ascii_of_string contents).

End Regexp.

(** ** step_wait_for_ip.go: the address-set comparison *)

Module IPCompare.

(** [aMap := make(map[string]bool); for _, ip := range a { aMap[ip] = true }] *)
Definition make_ip_map (l : list string) : gmap string bool :=
  foldl (fun m ip => <[ip := true]> m) ∅ l.

(** Go's [m[k]] on a [map[string]bool]: the zero value [false] when the key
    is absent. *)
Definition map_index (m : gmap string bool) (k : string) : bool :=
  default false (m !! k).

(** [for ip := range m { if !other[ip] { return false } }]: the loop leaves
    with [false] at the first key that fails, so whatever order Go picks for
    the iteration, it falls through exactly when every key passes. *)
Definition all_keys_in (m other : gmap string bool) : bool :=
  forallb (fun kv => map_index other (fst kv)) (map_to_list m).

Definition ipSlicesEqual (a b : list string) : bool :=
  if negb (Nat.eqb (length a) (length b)) then false
  else
    let aMap := make_ip_map a in
    let bMap := make_ip_map b in
    if negb (all_keys_in aMap bMap) then false
    else if negb (all_keys_in bMap aMap) then false
    else true.

End IPCompare.

(** ** builder/vergeio: configuration and build state *)

Module Builder.
Import Client.

Record ClusterConfig : Type := {
  Username : string;
  Password : string;
  Insecure : bool;
  Endpoint : string;
  Port : Z
}.

(** [Files] is emptied by [processCloudInitFiles] before the build starts. *)
Record CloudInitFile : Type := {
  FileName : string;
  Contents : string
}.

(** Of the disk and NIC configuration, the fields the steps branch on or
    report; the rest is copied into the request body unread. *)
Record VmDiskConfig : Type := {
  DiskName : string;
  DiskMedia : string;
  DiskDiskSize : Z
}.

Record VmNicConfig : Type := {
  NicConfigName : string
}.

Record VmConfig : Type := {
  VmMachine : Z;
  VmName : string;
  GuestAgent : bool;
  VmDiskConfigs : list VmDiskConfig;
  VmNicConfigs : list VmNicConfig;
  CloudInitFiles : list CloudInitFile
}.

Record Config : Type := {
  ConfigClusterConfig : ClusterConfig;
  ConfigVmConfig : VmConfig;
  ShutdownCommand : string;
  ShutdownTimeout : Z;
  PowerOnTimeout : Z;
  BootTimeout : Z
}.

(** What a state bag entry can hold. [VOpaque] stands for the values the
    steps only pass on (ui, hook, generated data). *)
Inductive Value : Type :=
| VString (s : string)
| VBool (b : bool)
| VInt (n : Z)
| VStrings (l : list string)
| VDiskModels (l : list VMDiskResourceModel)
| VError (e : GoError)
| VClusterConfig (cc : ClusterConfig)
| VVmConfig (vm : VmConfig)
| VConfig (c : Config)
| VCommunicator
| VOpaque.

Abbreviation StateBag := (gmap string Value).

Inductive StepAction : Type :=
| ActionContinue
| ActionHalt.

Definition StepResult : Type := Outcome StepAction * StateBag * list Event.
Definition CleanupResult : Type := Outcome unit * StateBag * list Event.

Definition VMActionEndpoint : string := "api/v4/vm_actions".

(** ** step_vm_create.go: StepVMCreate *)

(** [VMApi.CreateVM], as far as the step sees it. *)
Definition CreateVM (env : Env) (name : string) : Result (string * Z) * list Event :=
  (env_CreateVM env, [EvCreateVM name]).

(** The disk loop of [StepVMCreate.Run]: the failure (disk name and cause)
    if a creation fails, the keys and request models of the [import] disks
    created, the trace. *)
Fixpoint create_disks (env : Env) (machineID : Z) (disks : list VmDiskConfig) (i : nat)
  : option (string * GoError) * list string * list VMDiskResourceModel * list Event :=
  match disks with
  | [] => (None, [], [], [])
  | disk :: rest =>
      let diskData := {| Machine := machineID; Name := DiskName disk;
                         Media := DiskMedia disk; DiskSize := DiskDiskSize disk |} in
      match env_CreateVMDiskWithKey env i with
      | Err err => (Some (DiskName disk, err), [], [], [EvCreateDisk diskData])
      | Ok diskKey =>
          let '(r, keys, configs, tr) := create_disks env machineID rest (S i) in
          if String.eqb (DiskMedia disk) "import"
          then (r, diskKey :: keys, diskData :: configs, EvCreateDisk diskData :: tr)
          else (r, keys, configs, EvCreateDisk diskData :: tr)
      end
  end.

(** The NIC loop of [StepVMCreate.Run]. *)
Fixpoint create_nics (env : Env) (machineID : Z) (nics : list VmNicConfig) (i : nat)
  : option (string * GoError) * list Event :=
  match nics with
  | [] => (None, [])
  | nic :: rest =>
      let nicData := {| NicMachine := machineID; NicName := NicConfigName nic |} in
      match env_CreateVMNic env i with
      | Some err => (Some (NicConfigName nic, err), [EvCreateNic nicData])
      | None =>
          let '(r, tr) := create_nics env machineID rest (S i) in
          (r, EvCreateNic nicData :: tr)
      end
  end.

Definition StepVMCreate_Run (env : Env) (state : StateBag) : StepResult :=
  match state !! "cluster_config", state !! "vm_config" with
  | Some (VClusterConfig cc), Some (VVmConfig vm) =>
      match CreateVM env (VmName vm) with
      | (Err err, tr0) =>
          (Returned ActionHalt,
           <["error" := VError (Errorf "error making POST request to %s: %w"
                                   [AStr VMActionEndpoint; AErr err])]> state,
           tr0)
      | (Ok (id, machineID), tr0) =>
          if machineID =? 0 then
            (Returned ActionHalt,
             <["error" := VError (Errorf "failed to retrieve machine ID from created VM" [])]> state,
             tr0)
          else
            let state := <["vm_id" := VString id]> (<["machine_id" := VInt machineID]> state) in
            match create_disks env machineID (VmDiskConfigs vm) 0 with
            | (Some (name, err), _, _, tr1) =>
                (Returned ActionHalt,
                 <["vm_creation_failed" := VBool true]>
                   (<["error" := VError (Errorf "error creating disk '%s': %w"
                                           [AStr name; AErr err])]> state),
                 tr0 ++ tr1)
            | (None, importDiskKeys, importDiskConfigs, tr1) =>
                let state :=
                  if (0 <? length importDiskKeys)%nat
                  then <["import_disk_configs" := VDiskModels importDiskConfigs]>
                         (<["import_disk_keys" := VStrings importDiskKeys]> state)
                  else state in
                match create_nics env machineID (VmNicConfigs vm) 0 with
                | (Some (name, err), tr2) =>
                    (Returned ActionHalt,
                     <["vm_creation_failed" := VBool true]>
                       (<["error" := VError (Errorf "error creating NIC '%s': %w"
                                               [AStr name; AErr err])]> state),
                     tr0 ++ tr1 ++ tr2)
                | (None, tr2) => (Returned ActionContinue, state, tr0 ++ tr1 ++ tr2)
                end
            end
      end
  | _, _ => (Panicked, state, [])
  end.

Definition StepVMCreate_Cleanup (env : Env) (state : StateBag) : CleanupResult :=
  match state !! "vm_id", state !! "vm_creation_failed" with
  | Some vmId, Some creationFailed =>
      match creationFailed with
      | VBool true =>
          match vmId with
          | VString vmId =>
              match state !! "cluster_config" with
              | None => (Returned tt, state, [])
              | Some (VClusterConfig clusterConfig) =>
                  (* the error of [DeleteVM] is reported to the ui and dropped *)
                  let '(_, tr) := DeleteVM env vmId in
                  (Returned tt, state, tr)
              | Some _ => (Panicked, state, [])
              end
          | _ => (Panicked, state, [])
          end
      | VBool false => (Returned tt, state, [])
      | _ => (Panicked, state, [])
      end
  | _, _ => (Returned tt, state, [])
  end.

(** ** step_vm_create.go: StepWaitForDiskImport *)

Section WithToLower.

Variable ToLower : string -> string.

Definition StepWaitForDiskImport_Run (env : Env) (state : StateBag) : StepResult :=
  match state !! "import_disk_keys" with
  | Some (VStrings importDiskKeys) =>
      if Nat.eqb (length importDiskKeys) 0 then (Returned ActionContinue, state, [])
      else
        let maxRetries := 20 in
        match WaitForDiskImportCompletion ToLower env importDiskKeys maxRetries with
        | (Some err, tr) =>
            (Returned ActionHalt,
             <["error" := VError (Errorf "disk import failed: %w" [AErr err])]> state, tr)
        | (None, tr) =>
            match state !! "import_disk_configs" with
            | Some (VDiskModels importDiskConfigs) =>
                if (0 <? length importDiskConfigs)%nat then
                  match CheckAndResizeImportedDisks env importDiskConfigs importDiskKeys with
                  | (Some err, tr') =>
                      (Returned ActionHalt,
                       <["error" := VError (Errorf "disk resize after import failed: %w"
                                               [AErr err])]> state,
                       tr ++ tr')
                  | (None, tr') => (Returned ActionContinue, state, tr ++ tr')
                  end
                else (Returned ActionContinue, state, tr)
            | _ => (Returned ActionContinue, state, tr)
            end
        end
  | _ => (Returned ActionContinue, state, [])
  end.

Definition StepWaitForDiskImport_Cleanup (state : StateBag) : CleanupResult :=
  (Returned tt, state, []).

End WithToLower.

(** ** config.go: StepPowerOn *)

Record StepPowerOn : Type := {
  StepPowerOnTimeout : Z;
  StepBootTimeout : Z
}.

(** The loop over [config.VmConfig.CloudInitFiles]. *)
Fixpoint extract_from_files (files : list CloudInitFile) : option string :=
  match files with
  | [] => None
  | cloudInitFile :: rest =>
      if String.eqb (FileName cloudInitFile) "network-config" then
        match Regexp.FindStringSubmatch_1 (Contents cloudInitFile) with
        | Some ip => Some ip
        | None => extract_from_files rest
        end
      else extract_from_files rest
  end.

Definition extractIPFromCloudInit (config : Config) : Result string :=
  match extract_from_files (CloudInitFiles (ConfigVmConfig config)) with
  | Some ip => Ok ip
  | None => Err (Errorf "no static IP address found in cloud-init network-config" [])
  end.

(** The running-state poll: [polls] are the answers at the ticks delivered
    before [timeoutCtx.Done()] wins the [select]. [true] when the VM was
    seen running, [false] at the deadline. *)
Fixpoint poll_running (polls : list (Result (option bool))) (vmKeyStr : string)
  : bool * list Event :=
  match polls with
  | [] => (false, [])
  | answer :: rest =>
      match answer with
      | Ok (Some true) => (true, [EvIsVMRunning vmKeyStr])
      | Ok _ | Err _ =>
          let '(r, tr) := poll_running rest vmKeyStr in
          (r, EvIsVMRunning vmKeyStr :: tr)
      end
  end.

Definition StepPowerOn_Run (s : StepPowerOn) (env : Env) (state : StateBag) : StepResult :=
  match state !! "cluster_config" with
  | Some (VClusterConfig cc) =>
      match state !! "vm_id" with
      | None =>
          (Returned ActionHalt,
           <["error" := VError (Errorf "vm_id (key) not available in build state" [])]> state,
           [])
      | Some (VString vmKeyStr) =>
          let powerOnTimeout :=
            if StepPowerOnTimeout s =? 0 then 2 * minute else StepPowerOnTimeout s in
          match PowerOnVM env vmKeyStr with
          | (Some err, tr0) =>
              (Returned ActionHalt,
               <["error" := VError (Errorf "failed to power on VM: %w" [AErr err])]> state,
               tr0)
          | (None, tr0) =>
              match poll_running (env_RunningPolls env) vmKeyStr with
              | (false, tr1) =>
                  (Returned ActionHalt,
                   <["vm_power_on_failed" := VBool true]>
                     (<["error" := VError (Errorf "timeout waiting for VM to power on after %v"
                                             [ADuration powerOnTimeout])]> state),
                   tr0 ++ tr1)
              | (true, tr1) =>
                  let state := <["vm_powered_on" := VBool true]> state in
                  match state !! "config" with
                  | Some (VConfig config) =>
                      match extractIPFromCloudInit config with
                      | Err _ =>
                          if GuestAgent (ConfigVmConfig config)
                          then (Returned ActionContinue, state, tr0 ++ tr1)
                          else
                            (Returned ActionHalt,
                             <["error" := VError (Errorf "no IP discovery method available - enable guest_agent or configure static IP" [])]> state,
                             tr0 ++ tr1)
                      | Ok staticIP =>
                          (Returned ActionContinue,
                           <["discovered_ips" := VStrings [staticIP]]>
                             (<["host" := VString staticIP]> state),
                           tr0 ++ tr1)
                      end
                  | _ => (Panicked, state, tr0 ++ tr1)
                  end
              end
          end
      | Some _ => (Panicked, state, [])
      end
  | _ => (Panicked, state, [])
  end.

(** [StepPowerOn.Cleanup] reads the two flags and reports; it calls nothing
    and writes nothing. *)
Definition StepPowerOn_Cleanup (state : StateBag) : CleanupResult :=
  match state !! "vm_power_on_failed" with
  | Some (VBool true) => (Returned tt, state, [])
  | Some (VBool false) | None =>
      match state !! "vm_powered_on" with
      | Some (VBool _) | None => (Returned tt, state, [])
      | Some _ => (Panicked, state, [])
      end
  | Some _ => (Panicked, state, [])
  end.

(** ** step_wait_for_ip.go: StepWaitForIP *)

Record StepWaitForIP : Type := {
  WaitTimeout : Z;
  SettleTimeout : Z
}.

(** The discovery loop [for len(discoveredIPs) == 0]: the addresses found,
    or [None] at the deadline. *)
Fixpoint discover_loop (ticks : list (Result (list string))) (vmIdStr : string)
  : option (list string) * list Event :=
  match ticks with
  | [] => (None, [])
  | answer :: rest =>
      match answer with
      | Ok (ip :: ips) => (Some (ip :: ips), [EvGuestAgentIPs vmIdStr])
      | Ok [] | Err _ =>
          let '(r, tr) := discover_loop rest vmIdStr in
          (r, EvGuestAgentIPs vmIdStr :: tr)
      end
  end.

(** The settle loop. Its body ends in [break], which is reached from the
    deadline case and from a tick whose addresses are unchanged; only a tick
    with changed addresses goes round again, after replacing the settle
    context. [restarts] counts these replacements. The result is the
    address list the loop ends with, or [None] when a query failed. *)
Fixpoint settle_loop (events : list SettleEvent) (vmIdStr : string)
    (discoveredIPs lastDiscoveredIPs : list string) (restarts : nat)
  : option (list string) * nat * list Event :=
  match events with
  | [] => (Some discoveredIPs, restarts, [])
  | SettleDeadline :: _ => (Some discoveredIPs, restarts, [])
  | SettleTick answer :: rest =>
      match answer with
      | Err _ => (None, restarts, [EvGuestAgentIPs vmIdStr])
      | Ok currentIPs =>
          if negb (IPCompare.ipSlicesEqual currentIPs lastDiscoveredIPs) then
            let '(r, n, tr) := settle_loop rest vmIdStr currentIPs currentIPs (S restarts) in
            (r, n, EvGuestAgentIPs vmIdStr :: tr)
          else (Some discoveredIPs, restarts, [EvGuestAgentIPs vmIdStr])
      end
  end.

(** [StepWaitForIP.Run], together with the number of settle restarts. *)
Definition StepWaitForIP_Run_restarts (s : StepWaitForIP) (env : Env) (state : StateBag)
  : StepResult * nat :=
  match state !! "cluster_config" with
  | Some (VClusterConfig cc) =>
      match state !! "vm_id" with
      | None =>
          ((Returned ActionHalt,
            <["error" := VError (Errorf "vm_id not available in build state" [])]> state,
            []), 0%nat)
      | Some (VString vmIdStr) =>
          let waitTimeout := if WaitTimeout s =? 0 then 10 * minute else WaitTimeout s in
          let tr0 := [EvGuestAgentIPs vmIdStr] in
          let '(found, tr1) :=
            match env_GuestAgentFirst env with
            | Ok (ip :: ips) => (Some (ip :: ips), [])
            | Ok [] | Err _ => discover_loop (env_GuestAgentTicks env) vmIdStr
            end in
          match found with
          | None =>
              ((Returned ActionHalt,
                <["error" := VError (Errorf "timeout waiting for guest agent IP discovery after %v"
                                        [ADuration waitTimeout])]> state,
                tr0 ++ tr1), 0%nat)
          | Some discoveredIPs =>
              match settle_loop (env_SettleEvents env) vmIdStr discoveredIPs discoveredIPs 0 with
              | (None, n, tr2) =>
                  ((Returned ActionHalt,
                    <["error" := VError (Errorf "guest agent connection lost during settle period" [])]> state,
                    tr0 ++ tr1 ++ tr2), n)
              | (Some [], n, tr2) =>
                  ((Returned ActionHalt,
                    <["error" := VError (Errorf "no IP addresses discovered" [])]> state,
                    tr0 ++ tr1 ++ tr2), n)
              | (Some (selectedIP :: others), n, tr2) =>
                  ((Returned ActionContinue,
                    <["discovered_ips" := VStrings (selectedIP :: others)]>
                      (<["host" := VString selectedIP]> state),
                    tr0 ++ tr1 ++ tr2), n)
              end
          end
      | Some _ => ((Panicked, state, []), 0%nat)
      end
  | _ => ((Panicked, state, []), 0%nat)
  end.

Definition StepWaitForIP_Run (s : StepWaitForIP) (env : Env) (state : StateBag) : StepResult :=
  fst (StepWaitForIP_Run_restarts s env state).

Definition StepWaitForIP_Cleanup (state : StateBag) : CleanupResult :=
  (Returned tt, state, []).

(** ** config.go: StepShutdown *)

Record StepShutdown : Type := {
  Command : string;
  Timeout : Z
}.

Definition performForcedShutdown (env : Env) (state : StateBag) (vmIdStr : string)
  : StepResult :=
  if String.eqb vmIdStr "" then (Returned ActionContinue, state, [])
  else
    match PowerOffVM env vmIdStr with
    | (Some err, tr) => (Returned ActionContinue, state, tr)
    | (None, tr) =>
        (Returned ActionContinue, <["vm_shutdown_completed" := VBool true]> state, tr)
    end.

(** [state.Get("communicator").(packersdk.Communicator)] panics when the
    entry is missing, so the [comm == nil] branch that follows it is never
    taken. *)
Definition StepShutdown_Run (s : StepShutdown) (env : Env) (state : StateBag) : StepResult :=
  if String.eqb (Command s) "" then (Returned ActionContinue, state, [])
  else
    match state !! "communicator" with
    | Some VCommunicator =>
        match state !! "cluster_config" with
        | Some (VClusterConfig cc) =>
            match
              match state !! "vm_id" with
              | Some (VString vmId) => Returned vmId
              | Some _ => Panicked
              | None => Returned ""
              end
            with
            | Panicked => (Panicked, state, [])
            | Returned vmIdStr =>
                let tr0 := [EvCommStart (Command s)] in
                match env_CommStart env with
                | Some err =>
                    let '(r, st, tr) := performForcedShutdown env state vmIdStr in
                    (r, st, tr0 ++ tr)
                | None =>
                    let tr1 := tr0 ++ [EvCommWait] in
                    match env_CommWait env with
                    | WaitTimedOut =>
                        let '(r, st, tr) := performForcedShutdown env state vmIdStr in
                        (r, st, tr1 ++ tr)
                    | WaitExited status =>
                        if negb (status =? 0) then
                          let '(r, st, tr) := performForcedShutdown env state vmIdStr in
                          (r, st, tr1 ++ tr)
                        else if env_CancelledInDrain env then
                          (Returned ActionHalt, state, tr1)
                        else
                          (* the three outcomes of the verification differ in
                             what is reported to the ui only *)
                          let tr2 :=
                            if String.eqb vmIdStr "" then []
                            else
                              match env_RunningAfterShutdown env with
                              | Err _ => [EvIsVMRunning vmIdStr]
                              | Ok (Some true) => [EvIsVMRunning vmIdStr]
                              | Ok _ => [EvIsVMRunning vmIdStr]
                              end in
                          (Returned ActionContinue,
                           <["vm_shutdown_completed" := VBool true]> state,
                           tr1 ++ [EvSleep (30 * second)] ++ tr2)
                    end
                end
            end
        | _ => (Panicked, state, [])
        end
    | _ => (Panicked, state, [])
    end.

Definition StepShutdown_Cleanup (state : StateBag) : CleanupResult :=
  match state !! "vm_shutdown_completed" with
  | Some (VBool _) | None => (Returned tt, state, [])
  | Some _ => (Panicked, state, [])
  end.

(** ** builder.go: the pipeline *)

(** A step as the runner sees it. *)
Record Step : Type := {
  Run : StateBag -> StepResult;
  Cleanup : StateBag -> CleanupResult
}.

(** [multistep.BasicRunner.Run] of the plugin SDK, for a build that is not
    cancelled between steps: each step's [Cleanup] is deferred before its
    [Run], the loop stops at the first [ActionHalt] after noting it under
    ["halted"], and the deferred cleanups then run last step first (also
    when a step panics, after which the panic goes on). *)
Fixpoint BasicRunner_Run (steps : list Step) (state : StateBag) : CleanupResult :=
  match steps with
  | [] => (Returned tt, state, [])
  | step :: rest =>
      let '(o1, st1, tr1) := Run step state in
      let '(o2, st2, tr2) :=
        match o1 with
        | Returned ActionContinue => BasicRunner_Run rest st1
        | Returned ActionHalt => (Returned tt, <["halted" := VBool true]> st1, [])
        | Panicked => (Panicked, st1, [])
        end in
      let '(o3, st3, tr3) := Cleanup step st2 in
      (match o2 with Panicked => Panicked | Returned _ => o3 end, st3, tr1 ++ tr2 ++ tr3)
  end.

Inductive StepName : Type :=
| NameStepVMCreate
| NameStepWaitForDiskImport
| NameStepPowerOn
| NameStepWaitForIP
| NameStepConnect
| NameStepProvision
| NameStepShutdown.

(** The steps [Builder.Run] appends, in order. The [StepWaitForIP] append is
    commented out in the source. *)
Definition Builder_Run_steps : list StepName :=
  [ NameStepVMCreate; NameStepWaitForDiskImport; NameStepPowerOn;
    NameStepConnect; NameStepProvision; NameStepShutdown ].

(** [Builder.getHostFunc] *)
Definition getHostFunc (state : StateBag) : Outcome (Result string) :=
  match state !! "host" with
  | None => Returned (Err (Errorf "no host found in state - IP discovery may have failed" []))
  | Some (VString host) => Returned (Ok host)
  | Some _ => Panicked
  end.

Section Pipeline.

Variable ToLower : string -> string.

(** The two steps of the plugin SDK in the pipeline,
    [communicator.StepConnect] (given [getHostFunc]) and
    [commonsteps.StepProvision]. *)
Variable StepConnect : (StateBag -> Outcome (Result string)) -> Step.
Variable StepProvision : Step.

Definition step_of (config : Config) (env : Env) (name : StepName) : Step :=
  match name with
  | NameStepVMCreate =>
      {| Run := StepVMCreate_Run env; Cleanup := StepVMCreate_Cleanup env |}
  | NameStepWaitForDiskImport =>
      {| Run := StepWaitForDiskImport_Run ToLower env;
         Cleanup := StepWaitForDiskImport_Cleanup |}
  | NameStepPowerOn =>
      let powerOnTimeout :=
        if PowerOnTimeout config =? 0 then 2 * minute else PowerOnTimeout config in
      let bootTimeout :=
        if BootTimeout config =? 0 then 5 * minute else BootTimeout config in
      {| Run := StepPowerOn_Run {| StepPowerOnTimeout := powerOnTimeout;
                                   StepBootTimeout := bootTimeout |} env;
         Cleanup := StepPowerOn_Cleanup |}
  | NameStepWaitForIP =>
      {| Run := StepWaitForIP_Run {| WaitTimeout := 10 * minute;
                                     SettleTimeout := 30 * second |} env;
         Cleanup := StepWaitForIP_Cleanup |}
  | NameStepConnect => StepConnect getHostFunc
  | NameStepProvision => StepProvision
  | NameStepShutdown =>
      {| Run := StepShutdown_Run {| Command := ShutdownCommand config;
                                    Timeout := ShutdownTimeout config |} env;
         Cleanup := StepShutdown_Cleanup |}
  end.

(** The state bag [Builder.Run] starts the runner with. *)
Definition initial_state (config : Config) : StateBag :=
  <["generated_data" := VOpaque]>
    (<["config" := VConfig config]>
       (<["ui" := VOpaque]>
          (<["hook" := VOpaque]>
             (<["vm_config" := VVmConfig (ConfigVmConfig config)]>
                (<["cluster_config" := VClusterConfig (ConfigClusterConfig config)]> ∅))))).

(** [Builder.Run]: the error the build fails with, if any ([None] is the
    path that assembles the artifact), the final state and the trace. *)
Definition Builder_Run (config : Config) (env : Env)
  : Outcome (option GoError) * StateBag * list Event :=
  match BasicRunner_Run (map (step_of config env) Builder_Run_steps) (initial_state config) with
  | (Panicked, st, tr) => (Panicked, st, tr)
  | (Returned _, st, tr) =>
      match st !! "error" with
      | Some (VError err) => (Returned (Some err), st, tr)
      | Some _ => (Panicked, st, tr)
      | None => (Returned None, st, tr)
      end
  end.

End Pipeline.

End Builder.

(** ** client.go and vm_api.go: the request layer and the guest agent *)

Module ClientHttp.
Import Client.

(** What [net/http] does with a request: [http.NewRequest] rejects it, the
    round trip fails, or a response arrives with its status code and what
    [io.ReadAll] gets from its body. *)
Inductive Transport : Type :=
| NewRequestFails (err : GoError)
| RoundTripFails (err : GoError)
| Responds (status : Z) (body : Result string).

Record Options : Type := {
  Limit : string;
  Offset : string;
  Sort : string;
  Fields : string;
  Filter : string
}.

(** [Client.serverURL] *)
Definition serverURL (host endpoint : string) : string :=
  String.append "https://" (String.append host (String.append "/" endpoint)).

(** The query [Client.Do] sets on a GET request, for an endpoint that has
    no query of its own: [qs.Set] is insert. *)
Definition get_query (params : option Options) : gmap string string :=
  let qs := <["fields" := "most"]> (∅ : gmap string string) in
  match params with
  | None => qs
  | Some params =>
      let qs := if String.eqb (Fields params) "" then qs
                else <["fields" := Fields params]> qs in
      let qs := if String.eqb (Filter params) "" then qs
                else <["filter" := Filter params]> qs in
      let qs := if String.eqb (Sort params) "" then qs
                else <["sort" := Sort params]> qs in
      let qs := if String.eqb (Limit params) "" then qs
                else <["limit" := Limit params]> qs in
      if String.eqb (Offset params) "" then qs
      else <["offset" := Offset params]> qs
  end.

(** The query of a request: only GET requests get one. *)
Definition request_query (method : string) (params : option Options) : gmap string string :=
  if String.eqb method "GET" then get_query params else ∅.

Section Do.

(** [json.Unmarshal(body, &VergeResponse{})]: the [err] field of the
    decoded body, or [None] when the body does not decode. *)
Variable unmarshal_err : string -> option string.

(** The API fault [Client.Do] raises, written as its [Error()] text is
    formatted. *)
Definition apiError (StatusCode : Z) (Endpoint VergeError : string) : GoError :=
  Errorf "[ API Error %d ] @ %s - %s" [AInt StatusCode; AStr Endpoint; AStr VergeError].

(** [Client.Do], after the request is built: the status of the response it
    hands to the caller, or the error. *)
Definition Do (endpoint : string) (t : Transport) : Result Z :=
  match t with
  | NewRequestFails err => Err err
  | RoundTripFails err => Err err
  | Responds status body =>
      if (400 <=? status) || (status <? 200) then
        match body with
        | Err err => Err err
        | Ok text =>
            match unmarshal_err text with
            | None => Err (apiError status endpoint text)
            | Some verge_error => Err (apiError status endpoint verge_error)
            end
        end
      else Ok status
  end.

(** What a caller that ignores the body sees of [Do]. *)
Definition answer_of (r : Result Z) : HttpAnswer :=
  match r with
  | Ok status => HttpStatus status
  | Err err => HttpFail err
  end.

End Do.

(** The guest-agent part of the VM dashboard. The slices hold pointers, so
    an element can be nil ([None]). *)
Record VMAPIGuestAgentIPAddresses : Type := {
  IPAddressType : string;
  IPAddress : string
}.

Record VMAPIGuestAgentNetworkModel : Type := {
  NetworkName : string;
  IPAddresses : list (option VMAPIGuestAgentIPAddresses)
}.

(** [gaResp.Machine.Status.AgentGuestInfo]: nil, or the networks. *)
Definition AgentGuestInfo : Type := option (list (option VMAPIGuestAgentNetworkModel)).

(** The body of the dashboard response: missing, unreadable, or text that
    [json.Unmarshal] decodes or not. *)
Inductive DashboardBody : Type :=
| BodyNil
| BodyUnreadable (err : GoError)
| BodyText (raw : string) (decoded : option AgentGuestInfo).

(** What [client.Get] returns for the dashboard. *)
Inductive DashboardAnswer : Type :=
| DashboardFail (err : GoError)
| DashboardResponse (status : Z) (body : DashboardBody).

Section GuestAgent.

(** [isLoopbackIP]: [net.ParseIP] and [IP.IsLoopback]. *)
Variable isLoopbackIP : string -> bool.

(** The addresses [GetGuestAgentIPs] keeps of one interface; a nil entry
    ends in a nil dereference. *)
Fixpoint collect_ips (ips : list (option VMAPIGuestAgentIPAddresses))
  : Outcome (list string) :=
  match ips with
  | [] => Returned []
  | None :: _ => Panicked
  | Some ip :: rest =>
      match collect_ips rest with
      | Panicked => Panicked
      | Returned found =>
          if String.eqb (IPAddressType ip) "ipv4" then
            if negb (String.eqb (IPAddress ip) "") then
              if isLoopbackIP (IPAddress ip) then Returned found
              else Returned (IPAddress ip :: found)
            else Returned found
          else Returned found
      end
  end.

Fixpoint collect_networks (networks : list (option VMAPIGuestAgentNetworkModel))
  : Outcome (list string) :=
  match networks with
  | [] => Returned []
  | None :: _ => Panicked
  | Some network :: rest =>
      match collect_ips (IPAddresses network) with
      | Panicked => Panicked
      | Returned found =>
          match collect_networks rest with
          | Panicked => Panicked
          | Returned more => Returned (found ++ more)
          end
      end
  end.

(** [VMApi.GetGuestAgentIPs] *)
Definition GetGuestAgentIPs (answer : DashboardAnswer) : Outcome (Result (list string)) :=
  match answer with
  | DashboardFail err =>
      Returned (Err (Errorf "failed to get guest agent info from VergeIO API: %w" [AErr err]))
  | DashboardResponse status body =>
      if negb (status =? 200) then
        Returned (Err (Errorf "VergeIO API returned status code %d when requesting guest agent info"
                         [AInt status]))
      else
        match body with
        | BodyNil => Returned (Err (Errorf "no guest agent data available" []))
        | BodyUnreadable err =>
            Returned (Err (Errorf "failed to read response body: %w" [AErr err]))
        | BodyText raw None => Returned (Ok [])
        | BodyText raw (Some None) => Returned (Ok [])
        | BodyText raw (Some (Some networks)) =>
            match collect_networks networks with
            | Panicked => Panicked
            | Returned ipAddresses => Returned (Ok ipAddresses)
            end
        end
  end.

(** The loops of [GetGuestAgentIPsWithDebug], which test the address with
    one condition. *)
Fixpoint collect_ips_debug (ips : list (option VMAPIGuestAgentIPAddresses))
  : Outcome (list string) :=
  match ips with
  | [] => Returned []
  | None :: _ => Panicked
  | Some ip :: rest =>
      match collect_ips_debug rest with
      | Panicked => Panicked
      | Returned found =>
          if String.eqb (IPAddressType ip) "ipv4" then
            if negb (String.eqb (IPAddress ip) "") && negb (isLoopbackIP (IPAddress ip))
            then Returned (IPAddress ip :: found)
            else Returned found
          else Returned found
      end
  end.

Fixpoint collect_networks_debug (networks : list (option VMAPIGuestAgentNetworkModel))
  : Outcome (list string) :=
  match networks with
  | [] => Returned []
  | None :: _ => Panicked
  | Some network :: rest =>
      match collect_ips_debug (IPAddresses network) with
      | Panicked => Panicked
      | Returned found =>
          match collect_networks_debug rest with
          | Panicked => Panicked
          | Returned more => Returned (found ++ more)
          end
      end
  end.

(** [VMApi.GetGuestAgentIPsWithDebug]: the addresses, the raw response and
    the error. *)
Definition GetGuestAgentIPsWithDebug (answer : DashboardAnswer)
  : Outcome (list string * string * option GoError) :=
  match answer with
  | DashboardFail err =>
      Returned ([], "",
                Some (Errorf "failed to get guest agent info from VergeIO API: %w" [AErr err]))
  | DashboardResponse status body =>
      if negb (status =? 200) then
        Returned ([], "",
                  Some (Errorf "VergeIO API returned status code %d when requesting guest agent info"
                          [AInt status]))
      else
        match body with
        | BodyNil => Returned ([], "", Some (Errorf "no guest agent data available" []))
        | BodyUnreadable err =>
            Returned ([], "", Some (Errorf "failed to read response body: %w" [AErr err]))
        | BodyText raw None => Returned ([], raw, None)
        | BodyText raw (Some None) => Returned ([], raw, None)
        | BodyText raw (Some (Some networks)) =>
            match collect_networks_debug networks with
            | Panicked => Panicked
            | Returned ipAddresses => Returned (ipAddresses, raw, None)
            end
        end
  end.


End GuestAgent.

End ClientHttp.

(** ** config.go: Prepare and the cloud-init files; step_simple_shutdown.go *)

Module BuilderSetup.
Import Client Builder.

(** The fields of [communicator.Config] that [Prepare] reads or sets. *)
Record CommConfig : Type := {
  CommType : string;
  SSHPort : Z;
  SSHTimeout : Z;
  SSHUsername : string;
  SSHPassword : string;
  SSHPrivateKeyFile : string;
  SSHAgentAuth : bool;
  WinRMPort : Z;
  WinRMUseSSL : bool;
  WinRMTimeout : Z;
  WinRMUser : string;
  WinRMPassword : string
}.

(** A cloud-init file as configured, before its files are loaded. *)
Record CloudInitSource : Type := {
  SourceName : string;
  SourceContents : string;
  SourceFiles : list string
}.

(** The part of [Config] that [Prepare] works on, as [config.Decode] has
    filled it. *)
Record PrepareConfig : Type := {
  PEndpoint : string;
  PUsername : string;
  PPassword : string;
  PPort : Z;
  PComm : CommConfig;
  PShutdownTimeout : Z;
  PVmNicConfigs : list VmNicConfig;
  PCloudInitFiles : list CloudInitSource
}.

(** The file system as [processCloudInitFiles] uses it. *)
Record FileSystem : Type := {
  Getwd : Result string;
  IsAbs : string -> bool;                    (* filepath.IsAbs *)
  Join : string -> string -> string;         (* filepath.Join *)
  NotExist : string -> bool;                 (* os.IsNotExist of os.Stat *)
  ReadFile : string -> Result string
}.

(** The loop over [cloudInitFile.Files]: the contents read, or the error. *)
Fixpoint load_files (fs : FileSystem) (i : Z) (name : string) (files : list string) (j : Z)
  : Result (list string) :=
  match files with
  | [] => Ok []
  | filePath :: rest =>
      match
        if IsAbs fs filePath then Ok filePath
        else
          match Getwd fs with
          | Err err =>
              Err (Errorf "failed to get working directory for cloud_init_files[%d] (%s) file[%d]: %w"
                     [AInt i; AStr name; AInt j; AErr err])
          | Ok wd => Ok (Join fs wd filePath)
          end
      with
      | Err err => Err err
      | Ok absolutePath =>
          if NotExist fs absolutePath then
            Err (Errorf "cloud_init_files[%d] (%s) file[%d]: file not found: %s"
                   [AInt i; AStr name; AInt j; AStr absolutePath])
          else
            match ReadFile fs absolutePath with
            | Err err =>
                Err (Errorf "cloud_init_files[%d] (%s) file[%d]: failed to read file %s: %w"
                       [AInt i; AStr name; AInt j; AStr absolutePath; AErr err])
            | Ok contents =>
                match load_files fs i name rest (j + 1) with
                | Err err => Err err
                | Ok more => Ok (contents :: more)
                end
            end
      end
  end.

(** [for k, content := range allContents]: the contents joined by
    newlines. *)
Fixpoint join_contents (allContents : list string) : string :=
  match allContents with
  | [] => ""
  | [content] => content
  | content :: rest => String.append content (String.append (String "010" "") (join_contents rest))
  end.

(** [Builder.processCloudInitFiles]: the files as the loop leaves them (it
    updates them in place, so the entries before a failing one stay
    loaded), and the error. *)
Fixpoint processCloudInitFiles (fs : FileSystem) (files : list CloudInitSource) (i : Z)
  : list CloudInitSource * option GoError :=
  match files with
  | [] => ([], None)
  | cloudInitFile :: rest =>
      let hasContents := negb (String.eqb (SourceContents cloudInitFile) "") in
      let hasFiles := (0 <? length (SourceFiles cloudInitFile))%nat in
      if hasContents && hasFiles then
        (cloudInitFile :: rest,
         Some (Errorf "cloud_init_files[%d] (%s): 'contents' and 'files' are mutually exclusive"
                 [AInt i; AStr (SourceName cloudInitFile)]))
      else if negb hasContents && negb hasFiles then
        let '(rest', err) := processCloudInitFiles fs rest (i + 1) in
        (cloudInitFile :: rest', err)
      else if hasFiles then
        match load_files fs i (SourceName cloudInitFile) (SourceFiles cloudInitFile) 0 with
        | Err err => (cloudInitFile :: rest, Some err)
        | Ok allContents =>
            let loaded := {| SourceName := SourceName cloudInitFile;
                             SourceContents := join_contents allContents;
                             SourceFiles := [] |} in
            if String.eqb (SourceContents loaded) "" then
              (loaded :: rest,
               Some (Errorf "cloud_init_files[%d] (%s): contents cannot be empty after loading files"
                       [AInt i; AStr (SourceName cloudInitFile)]))
            else
              let '(rest', err) := processCloudInitFiles fs rest (i + 1) in
              (loaded :: rest', err)
        end
      else
        (* inline contents, known not to be empty *)
        let '(rest', err) := processCloudInitFiles fs rest (i + 1) in
        (cloudInitFile :: rest', err)
  end.

Definition noNicsWarning : string :=
  "No vm_nics configured - provisioning may fail without network connectivity".

(** The defaults [Prepare] fills in, in its order. *)
Definition set_defaults (c : PrepareConfig) : PrepareConfig :=
  let comm := PComm c in
  let port := if PPort c =? 0 then 443 else PPort c in
  let type := if String.eqb (CommType comm) "" then "ssh" else CommType comm in
  let sshPort :=
    if String.eqb type "ssh" && (SSHPort comm =? 0) then 22 else SSHPort comm in
  let sshTimeout := if SSHTimeout comm =? 0 then 20 * minute else SSHTimeout comm in
  let winrmPort :=
    if String.eqb type "winrm" && (WinRMPort comm =? 0)
    then (if WinRMUseSSL comm then 5986 else 5985)
    else WinRMPort comm in
  let winrmTimeout :=
    if String.eqb type "winrm" && (WinRMTimeout comm =? 0)
    then 20 * minute else WinRMTimeout comm in
  let shutdownTimeout :=
    if PShutdownTimeout c =? 0 then 5 * minute else PShutdownTimeout c in
  {| PEndpoint := PEndpoint c; PUsername := PUsername c; PPassword := PPassword c;
     PPort := port;
     PComm := {| CommType := type; SSHPort := sshPort; SSHTimeout := sshTimeout;
                 SSHUsername := SSHUsername comm; SSHPassword := SSHPassword comm;
                 SSHPrivateKeyFile := SSHPrivateKeyFile comm;
                 SSHAgentAuth := SSHAgentAuth comm;
                 WinRMPort := winrmPort; WinRMUseSSL := WinRMUseSSL comm;
                 WinRMTimeout := winrmTimeout;
                 WinRMUser := WinRMUser comm; WinRMPassword := WinRMPassword comm |};
     PShutdownTimeout := shutdownTimeout;
     PVmNicConfigs := PVmNicConfigs c;
     PCloudInitFiles := PCloudInitFiles c |}.

(** The errors [Prepare] accumulates, in its order ([c] has its defaults). *)
Definition validation_errors (c : PrepareConfig) : list GoError :=
  let comm := PComm c in
  (if String.eqb (PEndpoint c) "" then [Errorf "vergeio_endpoint must be specified" []] else [])
  ++ (if String.eqb (PUsername c) "" then [Errorf "vergeio_username must be specified" []] else [])
  ++ (if String.eqb (PPassword c) "" then [Errorf "vergeio_password must be specified" []] else [])
  ++ (if String.eqb (CommType comm) "ssh" then
        (if String.eqb (SSHUsername comm) ""
         then [Errorf "ssh_username is required when using SSH communicator" []] else [])
        ++ (if String.eqb (SSHPassword comm) "" && String.eqb (SSHPrivateKeyFile comm) ""
               && negb (SSHAgentAuth comm)
            then [Errorf "ssh_password, ssh_private_key_file, or ssh_agent_auth must be specified for SSH authentication" []]
            else [])
      else [])
  ++ (if String.eqb (CommType comm) "winrm" then
        (if String.eqb (WinRMUser comm) ""
         then [Errorf "winrm_username is required when using WinRM communicator" []] else [])
        ++ (if String.eqb (WinRMPassword comm) ""
            then [Errorf "winrm_password is required when using WinRM communicator" []] else [])
      else []).

(** [Builder.Prepare] after the decoding: the configuration as it leaves
    it, the warnings, and the errors ([[]] when it succeeds). *)
Definition Prepare (fs : FileSystem) (c : PrepareConfig)
  : PrepareConfig * list string * list GoError :=
  let c := set_defaults c in
  let warnings :=
    if Nat.eqb (length (PVmNicConfigs c)) 0 then [noNicsWarning] else [] in
  match validation_errors c with
  | err :: errs => (c, warnings, err :: errs)
  | [] =>
      let '(files, err) := processCloudInitFiles fs (PCloudInitFiles c) 0 in
      let c := {| PEndpoint := PEndpoint c; PUsername := PUsername c; PPassword := PPassword c;
                  PPort := PPort c; PComm := PComm c;
                  PShutdownTimeout := PShutdownTimeout c;
                  PVmNicConfigs := PVmNicConfigs c;
                  PCloudInitFiles := files |} in
      match err with
      | Some err => (c, warnings, [err])
      | None => (c, warnings, [])
      end
  end.

(** [StepSimpleShutdown.Run] *)
Definition StepSimpleShutdown_Run (env : Env) (state : StateBag) : StepResult :=
  match state !! "cluster_config" with
  | Some (VClusterConfig cc) =>
      match state !! "vm_id" with
      | None => (Returned ActionContinue, state, [])
      | Some (VString vmKeyStr) =>
          match PowerOffVM env vmKeyStr with
          | (Some err, tr) => (Returned ActionContinue, state, tr)
          | (None, tr) =>
              (Returned ActionContinue, <["vm_powered_off" := VBool true]> state, tr)
          end
      | Some _ => (Panicked, state, [])
      end
  | _ => (Panicked, state, [])
  end.

(** [StepSimpleShutdown.Cleanup] *)
Definition StepSimpleShutdown_Cleanup (state : StateBag) : CleanupResult :=
  match state !! "vm_powered_off" with
  | Some (VBool _) | None => (Returned tt, state, [])
  | Some _ => (Panicked, state, [])
  end.

End BuilderSetup.

(** ** Vocabulary of the properties *)

Module Spec.
Import Client Builder.

(** The kinds of request in a trace. The client has no request that deletes
    a disk or a NIC: [EvDeleteVM] is the only deletion there is. *)
Definition is_create (e : Event) : bool :=
  match e with
  | EvCreateVM _ | EvCreateDisk _ | EvCreateNic _ => true
  | _ => false
  end.

Definition is_delete (e : Event) : bool :=
  match e with
  | EvDeleteVM _ => true
  | _ => false
  end.

(** Disk [i] of the spec is the first whose creation fails. *)
Definition first_disk_failure (env : Env) (disks : list VmDiskConfig)
    (i : nat) (disk : VmDiskConfig) (cause : GoError) : Prop :=
  disks !! i = Some disk
  /\ env_CreateVMDiskWithKey env i = Err cause
  /\ forall j, (j < i)%nat -> exists key, env_CreateVMDiskWithKey env j = Ok key.

(** Every disk is created and NIC [i] is the first whose creation fails. *)
Definition first_nic_failure (env : Env) (disks : list VmDiskConfig)
    (nics : list VmNicConfig) (i : nat) (nic : VmNicConfig) (cause : GoError) : Prop :=
  (forall j, (j < length disks)%nat -> exists key, env_CreateVMDiskWithKey env j = Ok key)
  /\ nics !! i = Some nic
  /\ env_CreateVMNic env i = Some cause
  /\ forall j, (j < i)%nat -> env_CreateVMNic env j = None.

(** Resource creation fails on a disk or on a NIC, with the error the step
    reports for it. *)
Inductive creation_fails (env : Env) (vm : VmConfig) : GoError -> Prop :=
| disk_creation_fails i disk cause :
    first_disk_failure env (VmDiskConfigs vm) i disk cause ->
    creation_fails env vm
      (Errorf "error creating disk '%s': %w" [AStr (DiskName disk); AErr cause])
| nic_creation_fails i nic cause :
    first_nic_failure env (VmDiskConfigs vm) (VmNicConfigs vm) i nic cause ->
    creation_fails env vm
      (Errorf "error creating NIC '%s': %w" [AStr (NicConfigName nic); AErr cause]).

(** The trace of one disk's wait that takes [polls] status requests: the
    requests, 5 s apart. *)
Fixpoint poll_trace (diskKey : string) (polls : nat) : list Event :=
  match polls with
  | O => []
  | S O => [EvDiskStatus diskKey]
  | S p => EvDiskStatus diskKey :: EvSleep (5 * second) :: poll_trace diskKey p
  end.

(** From request [n] on, [c] requests in a row are answered with a status
    that is ["importing"] up to case. *)
Definition importing_run (ToLower : string -> string) (env : Env) (n c : nat) : Prop :=
  forall i, (i < c)%nat ->
    exists status, env_CheckDiskImportStatus env (n + i) = Ok status
                   /\ ToLower status = "importing".

(** What waiting for the tracked disks [keys] amounts to when the bound is
    20 attempts, from status request [n] on: the disks are taken in order;
    a disk whose status is ["importing"] [c < 20] times and then something
    else is done after [c + 1] requests; a disk that is still ["importing"]
    at the 20th request ends the wait with the timeout error, which names
    it and the last status; a request that fails ends the wait with that
    failure. The pair is the error, if any, and the trace. *)
Inductive waits (ToLower : string -> string) (env : Env)
  : nat -> list string -> option GoError * list Event -> Prop :=
| waits_nil n : waits ToLower env n [] (None, [])
| waits_done n key keys c status r tr :
    (c < 20)%nat ->
    importing_run ToLower env n c ->
    env_CheckDiskImportStatus env (n + c) = Ok status ->
    ToLower status <> "importing" ->
    waits ToLower env (n + S c) keys (r, tr) ->
    waits ToLower env n (key :: keys) (r, poll_trace key (S c) ++ tr)
| waits_timeout n key keys last :
    importing_run ToLower env n 20 ->
    env_CheckDiskImportStatus env (n + 19) = Ok last ->
    waits ToLower env n (key :: keys)
      (Some (Errorf "disk %s failed to complete import after %d retries, last status: %s"
               [AStr key; AInt 20; AStr last]),
       poll_trace key 20)
| waits_request_fails n key keys c err :
    (c < 20)%nat ->
    importing_run ToLower env n c ->
    env_CheckDiskImportStatus env (n + c) = Err err ->
    waits ToLower env n (key :: keys)
      (Some (Errorf "failed to check disk import status: %w" [AErr err]),
       poll_trace key (S c)).

(** What reconciling the sizes of the tracked disks (key and request of
    each) amounts to, [nr] reads and [nu] updates having been made: each
    disk is read; a disk whose size, in whole GB, is the requested one is
    left alone; one that differs gets one update to the requested size; a
    read or an update that fails ends the pass with an error. *)
Inductive reconciles (env : Env)
  : list (string * VMDiskResourceModel) -> nat -> nat
    -> option GoError * list Event -> Prop :=
| reconciles_nil nr nu : reconciles env [] nr nu (None, [])
| reconciles_same key config rest nr nu current r tr :
    env_ReadDisk env nr = Ok current ->
    Z.quot (DiskSize current) (1024 * 1024 * 1024) = DiskSize config ->
    reconciles env rest (S nr) nu (r, tr) ->
    reconciles env ((key, config) :: rest) nr nu (r, EvReadDisk key :: tr)
| reconciles_resize key config rest nr nu current r tr :
    env_ReadDisk env nr = Ok current ->
    Z.quot (DiskSize current) (1024 * 1024 * 1024) <> DiskSize config ->
    env_UpdateDisk env nu = HttpStatus 200 ->
    reconciles env rest (S nr) (S nu) (r, tr) ->
    reconciles env ((key, config) :: rest) nr nu
      (r, EvReadDisk key :: EvUpdateDisk key (GB_to_bytes (DiskSize config)) :: tr)
| reconciles_read_fails key config rest nr nu err :
    env_ReadDisk env nr = Err err ->
    reconciles env ((key, config) :: rest) nr nu
      (Some (Errorf "failed to read disk %s after import: %w" [AStr (Name config); AErr err]),
       [EvReadDisk key])
| reconciles_resize_fails key config rest nr nu current cause :
    env_ReadDisk env nr = Ok current ->
    Z.quot (DiskSize current) (1024 * 1024 * 1024) <> DiskSize config ->
    env_UpdateDisk env nu <> HttpStatus 200 ->
    fst (UpdateDiskSize (env_UpdateDisk env nu) key (DiskSize config)) = Some cause ->
    reconciles env ((key, config) :: rest) nr nu
      (Some (Errorf "failed to resize disk %s: %w" [AStr (Name config); AErr cause]),
       [EvReadDisk key; EvUpdateDisk key (GB_to_bytes (DiskSize config))]).

(** The state holds the build configuration and no host. *)
Definition hostless (config : Config) (state : StateBag) : Prop :=
  state !! "host" = None /\ state !! "config" = Some (VConfig config).

(** A step that keeps the state hostless, in its run and in its cleanup. *)
Definition keeps_hostless (config : Config) (step : Step) : Prop :=
  forall state,
    hostless config state ->
    hostless config (snd (fst (Run step state)))
    /\ hostless config (snd (fst (Cleanup step state))).

(** *** Static addresses *)

(** What the matcher's constructs mean: [denotes r b s b' s'] when [r]
    can consume a prefix of [s], starting at the beginning of the text or
    not ([b]), and leave [s'] ([b'] likewise). *)
Fixpoint denotes (r : Regexp.re) (b : bool) (s : list ascii) (b' : bool) (s' : list ascii)
  : Prop :=
  match r with
  | Regexp.BeginText => b = true /\ b' = true /\ s' = s
  | Regexp.Lit c => s = c :: s' /\ b' = false
  | Regexp.Repeat p min max =>
      exists t, s = t ++ s' /\ Forall (fun c => p c = true) t
                /\ (min <= length t <= max)%nat
                /\ b' = (b && Nat.eqb (length s') (length s))
  | Regexp.Plus p =>
      exists t, s = t ++ s' /\ Forall (fun c => p c = true) t /\ t <> [] /\ b' = false
  | Regexp.Alt r1 r2 => denotes r1 b s b' s' \/ denotes r2 b s b' s'
  | Regexp.Cat r1 r2 => exists bm sm, denotes r1 b s bm sm /\ denotes r2 bm sm b' s'
  end.

(** One to three decimal digits. *)
Definition octet_text (l : list ascii) : Prop :=
  Forall (fun c => Regexp.is_digit c = true) l /\ (1 <= length l <= 3)%nat.

(** Four such groups separated by dots. *)
Definition dotted_quad (ip : list ascii) : Prop :=
  exists a b c d,
    ip = a ++ Regexp.dot :: b ++ Regexp.dot :: c ++ Regexp.dot :: d
    /\ octet_text a /\ octet_text b /\ octet_text c /\ octet_text d.

(** [s] contains [ip] in CIDR notation: a dotted quad followed by a slash
    and a digit. *)
Definition contains_cidr (s ip : list ascii) : Prop :=
  exists pre d rest,
    s = pre ++ ip ++ Regexp.slash :: d :: rest
    /\ dotted_quad ip /\ Regexp.is_digit d = true.

(** [ip] in CIDR notation stands at the head of [s], after white space or,
    when [s] is the whole text ([at_begin]), with nothing before it. *)
Definition cidr_at (at_begin : bool) (s ip : list ascii) : Prop :=
  exists ws d rest,
    s = ws ++ ip ++ Regexp.slash :: d :: rest
    /\ Forall (fun c => Regexp.is_space c = true) ws
    /\ (ws = [] -> at_begin = true)
    /\ dotted_quad ip /\ Regexp.is_digit d = true.

(** [ip] is the address of the leftmost place of [s] where one so stands. *)
Inductive first_cidr : bool -> list ascii -> list ascii -> Prop :=
| first_cidr_here b s ip :
    cidr_at b s ip -> first_cidr b s ip
| first_cidr_later b c s ip :
    (forall ip', ~ cidr_at b (c :: s) ip') ->
    first_cidr false s ip ->
    first_cidr b (c :: s) ip.

(** [ip] is that address for the first file named [network-config] that
    has one. *)
Inductive first_static_address : list CloudInitFile -> string -> Prop :=
| static_here file rest ip :
    FileName file = "network-config" ->
    first_cidr true (list_ascii_of_string (Contents file)) (list_ascii_of_string ip) ->
    first_static_address (file :: rest) ip
| static_other_name file rest ip :
    FileName file <> "network-config" ->
    first_static_address rest ip ->
    first_static_address (file :: rest) ip
| static_no_address file rest ip :
    FileName file = "network-config" ->
    (forall ip', ~ first_cidr true (list_ascii_of_string (Contents file)) ip') ->
    first_static_address rest ip ->
    first_static_address (file :: rest) ip.


(** An answer of the running-state poll that means waiting: a request that
    failed, a null state, a state of false. *)
Definition not_running (answer : Result (option bool)) : Prop :=
  answer <> Ok (Some true).

(** An answer of the guest-agent poll that means waiting in the discovery
    phase: a request that failed, or no address. *)
Definition no_address (answer : Result (list string)) : Prop :=
  answer = Ok [] \/ exists err, answer = Err err.

(** Address lists each of which differs, as a set, from the one before;
    [last] comes before the first. *)
Fixpoint changing (last : list string) (changes : list (list string)) : Prop :=
  match changes with
  | [] => True
  | current :: rest => IPCompare.ipSlicesEqual current last = false /\ changing current rest
  end.

(** The events of settle ticks answered with the given address lists. *)
Definition settle_ticks (changes : list (list string)) : list SettleEvent :=
  map (fun ips => SettleTick (Ok ips)) changes.

End Spec.

(** ** Sample builds *)

Module Samples.
Import Client Builder.

(** [strings.ToLower] on ASCII text. *)
Definition ascii_lower (c : ascii) : ascii :=
  let n := nat_of_ascii c in
  if ((65 <=? n) && (n <=? 90))%nat then ascii_of_nat (n + 32) else c.

Fixpoint ascii_ToLower (s : string) : string :=
  match s with
  | EmptyString => EmptyString
  | String c s' => String (ascii_lower c) (ascii_ToLower s')
  end.

(** Stand-ins for the two SDK steps: the connect step asks for the host and
    halts without one, the provision step does nothing. *)
Definition connect_step (host : StateBag -> Outcome (Result string)) : Step :=
  {| Run := fun st =>
       match host st with
       | Returned (Ok _) => (Returned ActionContinue, <["communicator" := VCommunicator]> st, [])
       | Returned (Err e) => (Returned ActionHalt, <["error" := VError e]> st, [])
       | Panicked => (Panicked, st, [])
       end;
     Cleanup := fun st => (Returned tt, st, []) |}.

Definition provision_step : Step :=
  {| Run := fun st => (Returned ActionContinue, st, []);
     Cleanup := fun st => (Returned tt, st, []) |}.

Definition cluster : ClusterConfig :=
  {| Username := "packer"; Password := "secret"; Insecure := false;
     Endpoint := "verge.example"; Port := 443 |}.

Definition root_disk : VmDiskConfig :=
  {| DiskName := "root"; DiskMedia := "import"; DiskDiskSize := 20 |}.

Definition data_disk : VmDiskConfig :=
  {| DiskName := "data"; DiskMedia := "disk"; DiskDiskSize := 50 |}.

Definition nic0 : VmNicConfig := {| NicConfigName := "nic0" |}.

Definition sample_vm (guest_agent : bool) (network_config : string) : VmConfig :=
  {| VmMachine := 0; VmName := "golden"; GuestAgent := guest_agent;
     VmDiskConfigs := [root_disk; data_disk]; VmNicConfigs := [nic0];
     CloudInitFiles := [ {| FileName := "user-data"; Contents := "#cloud-config" |};
                         {| FileName := "network-config"; Contents := network_config |} ] |}.

Definition sample_config (guest_agent : bool) (network_config : string) : Config :=
  {| ConfigClusterConfig := cluster;
     ConfigVmConfig := sample_vm guest_agent network_config;
     ShutdownCommand := "sudo shutdown -P now";
     ShutdownTimeout := 5 * minute;
     PowerOnTimeout := 0;
     BootTimeout := 0 |}.

Definition GB : Z := 1024 * 1024 * 1024.

Definition disk_of_size (bytes : Z) : VMDiskResourceModel :=
  {| Machine := 7; Name := "root"; Media := "import"; DiskSize := bytes |}.

(** A remote side on which the VM is created with key ["vm-7"] and machine
    id 7, deletion, power actions and the shutdown command start succeed,
    and the rest is as given. *)
Definition sample_env
    (create_disk : nat -> Result string)
    (status : nat -> Result string)
    (read : nat -> Result VMDiskResourceModel)
    (running : list (Result (option bool)))
    (wait : WaitOutcome) (cancelled : bool)
    (first : Result (list string)) (settle : list SettleEvent) : Env :=
  {| env_CreateVM := Ok ("vm-7", 7);
     env_CreateVMDiskWithKey := create_disk;
     env_CreateVMNic := fun _ => None;
     env_DeleteVM := HttpStatus 204;
     env_CheckDiskImportStatus := status;
     env_ReadDisk := read;
     env_UpdateDisk := fun _ => HttpStatus 200;
     env_PowerOn := HttpStatus 201;
     env_PowerOff := HttpStatus 201;
     env_RunningPolls := running;
     env_RunningAfterShutdown := Ok (Some false);
     env_CommStart := None;
     env_CommWait := wait;
     env_CancelledInDrain := cancelled;
     env_GuestAgentFirst := first;
     env_GuestAgentTicks := [];
     env_SettleEvents := settle |}.

Definition disks_ok (i : nat) : Result string :=
  Ok (match i with O => "disk-1" | _ => "disk-2" end).

Definition second_disk_fails (i : nat) : Result string :=
  match i with
  | O => Ok "disk-1"
  | _ => Err (Remote "[ API Error 500 ] @ api/v4/machine_drives - out of space")
  end.

Definition import_done (n : nat) : Result string :=
  Ok (match n with O => "importing" | _ => "online" end).

Definition read_20GB (n : nat) : Result VMDiskResourceModel := Ok (disk_of_size (20 * GB)).
Definition read_15GB (n : nat) : Result VMDiskResourceModel := Ok (disk_of_size (15 * GB)).

(** The second disk cannot be created. *)
Definition env_second_disk_fails : Env :=
  sample_env second_disk_fails import_done read_20GB [Ok (Some true)]
             (WaitExited 0) false (Ok []) [].

(** Everything is created and imported, and the VM is never seen running
    before the power-on deadline. *)
Definition env_never_running : Env :=
  sample_env disks_ok import_done read_20GB
             [Ok (Some false); Err (Remote "connection reset"); Ok None]
             (WaitExited 0) false (Ok []) [].

(** Everything succeeds; the VM is seen running at the second poll. *)
Definition env_all_good : Env :=
  sample_env disks_ok import_done read_20GB
             [Ok (Some false); Ok (Some true)]
             (WaitExited 0) false (Ok []) [].

(** The shutdown command exits with status 0 and the build is cancelled
    during the wait that follows. *)
Definition env_cancelled_in_drain : Env :=
  sample_env disks_ok import_done read_20GB [Ok (Some true)]
             (WaitExited 0) true (Ok []) [].

(** The shutdown command exits with status 1 and the forced power-off is
    refused. *)
Definition env_forced_off_fails : Env :=
  {| env_CreateVM := Ok ("vm-7", 7);
     env_CreateVMDiskWithKey := disks_ok;
     env_CreateVMNic := fun _ => None;
     env_DeleteVM := HttpStatus 204;
     env_CheckDiskImportStatus := import_done;
     env_ReadDisk := read_20GB;
     env_UpdateDisk := fun _ => HttpStatus 200;
     env_PowerOn := HttpStatus 201;
     env_PowerOff := HttpFail (Remote "[ API Error 500 ] @ api/v4/vm_actions - busy");
     env_RunningPolls := [Ok (Some true)];
     env_RunningAfterShutdown := Ok (Some true);
     env_CommStart := None;
     env_CommWait := WaitExited 1;
     env_CancelledInDrain := false;
     env_GuestAgentFirst := Ok [];
     env_GuestAgentTicks := [];
     env_SettleEvents := [] |}.

Definition shutdown_step : StepShutdown :=
  {| Command := "sudo shutdown -P now"; Timeout := 5 * minute |}.

(** The state bag as the shutdown step finds it after a successful
    provisioning. *)
Definition state_before_shutdown : StateBag :=
  <["communicator" := VCommunicator]>
    (<["vm_powered_on" := VBool true]>
       (<["vm_id" := VString "vm-7"]>
          (<["machine_id" := VInt 7]>
             (<["cluster_config" := VClusterConfig cluster]> ∅)))).

(** The second status request fails; a third one would find the import
    done. *)
Definition status_fails_once (n : nat) : Result string :=
  match n with
  | O => Ok "importing"
  | S O => Err (Remote "[ API Error 502 ] @ api/v4/machine_drives/disk-1 - bad gateway")
  | _ => Ok "online"
  end.

Definition env_status_fails_once : Env :=
  sample_env disks_ok status_fails_once read_20GB [Ok (Some true)]
             (WaitExited 0) false (Ok []) [].

(** The state bag as [StepVMCreate] leaves it for the sample VM. *)
Definition state_after_create : StateBag :=
  <["import_disk_configs" :=
      VDiskModels [ {| Machine := 7; Name := "root"; Media := "import"; DiskSize := 20 |} ]]>
    (<["import_disk_keys" := VStrings ["disk-1"]]>
       (<["vm_id" := VString "vm-7"]>
          (<["machine_id" := VInt 7]>
             (<["vm_config" := VVmConfig (sample_vm true "dhcp4: true")]>
                (<["cluster_config" := VClusterConfig cluster]> ∅))))).

(** The import leaves a 15 GB disk where 20 GB were requested. *)
Definition env_import_15GB : Env :=
  sample_env disks_ok import_done read_15GB [Ok (Some true)]
             (WaitExited 0) false (Ok []) [].

(** Guest-agent polls [A, A, B, B, B]: the check before the discovery loop
    finds [A], the settle ticks find [A], [B], [B], [B]. *)
Definition set_A : list string := ["10.0.0.5"].
Definition set_B : list string := ["10.0.0.9"].

Definition env_polls_AABBB : Env :=
  sample_env disks_ok import_done read_20GB [Ok (Some true)]
             (WaitExited 0) false (Ok set_A)
             [SettleTick (Ok set_A); SettleTick (Ok set_B);
              SettleTick (Ok set_B); SettleTick (Ok set_B)].

Definition wait_for_ip_step : StepWaitForIP :=
  {| WaitTimeout := 10 * minute; SettleTimeout := 10 * second |}.

(** The remote side answers nothing. *)
Definition unreachable : GoError := Remote "dial tcp: connection refused".

Definition env_unreachable : Env :=
  {| env_CreateVM := Err unreachable;
     env_CreateVMDiskWithKey := fun _ => Err unreachable;
     env_CreateVMNic := fun _ => Some unreachable;
     env_DeleteVM := HttpFail unreachable;
     env_CheckDiskImportStatus := fun _ => Err unreachable;
     env_ReadDisk := fun _ => Err unreachable;
     env_UpdateDisk := fun _ => HttpFail unreachable;
     env_PowerOn := HttpFail unreachable;
     env_PowerOff := HttpFail unreachable;
     env_RunningPolls := [Err unreachable];
     env_RunningAfterShutdown := Err unreachable;
     env_CommStart := Some unreachable;
     env_CommWait := WaitTimedOut;
     env_CancelledInDrain := false;
     env_GuestAgentFirst := Err unreachable;
     env_GuestAgentTicks := [Err unreachable];
     env_SettleEvents := [] |}.

(** The state bag as [StepPowerOn] finds it. *)
Definition state_before_power_on (config : Config) : StateBag :=
  <["config" := VConfig config]> state_after_create.

Definition power_on_step : StepPowerOn :=
  {| StepPowerOnTimeout := 2 * minute; StepBootTimeout := 5 * minute |}.

(** The first running-state request after power-on fails; the second finds
    the VM running. *)
Definition env_running_poll_fails_once : Env :=
  sample_env disks_ok import_done read_20GB
             [Err (Remote "connection reset"); Ok (Some true)]
             (WaitExited 0) false (Ok []) [].

(** The guest agent cannot be reached at the first check and at the first
    tick of the discovery phase; the second tick finds [set_A], which then
    stays until the settle deadline. *)
Definition env_agent_fails_in_discovery : Env :=
  {| env_CreateVM := Ok ("vm-7", 7);
     env_CreateVMDiskWithKey := disks_ok;
     env_CreateVMNic := fun _ => None;
     env_DeleteVM := HttpStatus 204;
     env_CheckDiskImportStatus := import_done;
     env_ReadDisk := read_20GB;
     env_UpdateDisk := fun _ => HttpStatus 200;
     env_PowerOn := HttpStatus 201;
     env_PowerOff := HttpStatus 201;
     env_RunningPolls := [Ok (Some true)];
     env_RunningAfterShutdown := Ok (Some false);
     env_CommStart := None;
     env_CommWait := WaitExited 0;
     env_CancelledInDrain := false;
     env_GuestAgentFirst := Err (Remote "connection reset");
     env_GuestAgentTicks := [Err (Remote "connection reset"); Ok set_A; Ok set_A];
     env_SettleEvents := [] |}.

(** The first check finds [set_A]; in the settle phase the first tick finds
    [set_B], the request of the second tick fails, a third one would find
    [set_B] again. *)
Definition env_agent_fails_in_settle : Env :=
  sample_env disks_ok import_done read_20GB [Ok (Some true)]
             (WaitExited 0) false (Ok set_A)
             [SettleTick (Ok set_B); SettleTick (Err (Remote "connection reset"));
              SettleTick (Ok set_B)].

(** The VM was created and a later creation failed; the deletion is
    refused. *)
Definition env_delete_fails : Env :=
  {| env_CreateVM := Ok ("vm-7", 7);
     env_CreateVMDiskWithKey := second_disk_fails;
     env_CreateVMNic := fun _ => None;
     env_DeleteVM := HttpFail (Remote "connection reset");
     env_CheckDiskImportStatus := import_done;
     env_ReadDisk := read_20GB;
     env_UpdateDisk := fun _ => HttpStatus 200;
     env_PowerOn := HttpStatus 201;
     env_PowerOff := HttpStatus 201;
     env_RunningPolls := [Ok (Some true)];
     env_RunningAfterShutdown := Ok (Some false);
     env_CommStart := None;
     env_CommWait := WaitExited 0;
     env_CancelledInDrain := false;
     env_GuestAgentFirst := Ok [];
     env_GuestAgentTicks := [];
     env_SettleEvents := [] |}.

(** The state bag as [StepVMCreate.Run] leaves it when a creation after
    that of the VM has failed. *)
Definition state_after_failed_create : StateBag :=
  <["vm_creation_failed" := VBool true]>
    (<["error" :=
         VError (Errorf "error creating disk '%s': %w"
                   [AStr "data";
                    AErr (Remote "[ API Error 500 ] @ api/v4/machine_drives - out of space")])]>
    (<["vm_id" := VString "vm-7"]>
       (<["machine_id" := VInt 7]>
          (<["vm_config" := VVmConfig (sample_vm true "dhcp4: true")]>
             (<["cluster_config" := VClusterConfig cluster]> ∅))))).





(** A working directory [/build] that holds [user-data.yml]; [/etc/network.yml]
    exists as well. *)
Definition sample_fs : BuilderSetup.FileSystem :=
  {| BuilderSetup.Getwd := Ok "/build";
     BuilderSetup.IsAbs := String.prefix "/";
     BuilderSetup.Join := fun dir file => String.append dir (String.append "/" file);
     BuilderSetup.NotExist := fun path =>
       negb (String.eqb path "/build/user-data.yml" || String.eqb path "/etc/network.yml");
     BuilderSetup.ReadFile := fun path =>
       if String.eqb path "/build/user-data.yml" then Ok "#cloud-config"
       else if String.eqb path "/etc/network.yml" then Ok "dhcp4: true"
       else Err (Remote "open: no such file or directory") |}.

(** A file system without anything. *)
Definition empty_fs : BuilderSetup.FileSystem :=
  {| BuilderSetup.Getwd := Err (Remote "getwd: no such file or directory");
     BuilderSetup.IsAbs := String.prefix "/";
     BuilderSetup.Join := fun dir file => String.append dir (String.append "/" file);
     BuilderSetup.NotExist := fun _ => true;
     BuilderSetup.ReadFile := fun _ => Err (Remote "open: no such file or directory") |}.

(** Cloud-init entries as configured: one loaded from two files, one with
    inline contents, one left empty. *)
Definition sample_sources : list BuilderSetup.CloudInitSource :=
  [ {| BuilderSetup.SourceName := "user-data"; BuilderSetup.SourceContents := "";
       BuilderSetup.SourceFiles := ["user-data.yml"; "/etc/network.yml"] |};
    {| BuilderSetup.SourceName := "network-config";
       BuilderSetup.SourceContents := "dhcp4: true"; BuilderSetup.SourceFiles := [] |};
    {| BuilderSetup.SourceName := "meta-data"; BuilderSetup.SourceContents := "";
       BuilderSetup.SourceFiles := [] |} ].

(** A configuration as decoded, with the credentials and nothing else set:
    SSH with agent authentication. *)
Definition sample_prepare_config : BuilderSetup.PrepareConfig :=
  {| BuilderSetup.PEndpoint := "verge.example.com";
     BuilderSetup.PUsername := "admin";
     BuilderSetup.PPassword := "secret";
     BuilderSetup.PPort := 0;
     BuilderSetup.PComm :=
       {| BuilderSetup.CommType := ""; BuilderSetup.SSHPort := 0;
          BuilderSetup.SSHTimeout := 0; BuilderSetup.SSHUsername := "packer";
          BuilderSetup.SSHPassword := ""; BuilderSetup.SSHPrivateKeyFile := "";
          BuilderSetup.SSHAgentAuth := true;
          BuilderSetup.WinRMPort := 0; BuilderSetup.WinRMUseSSL := false;
          BuilderSetup.WinRMTimeout := 0; BuilderSetup.WinRMUser := "";
          BuilderSetup.WinRMPassword := "" |};
     BuilderSetup.PShutdownTimeout := 0;
     BuilderSetup.PVmNicConfigs := [];
     BuilderSetup.PCloudInitFiles := sample_sources |}.


(** The same with the address in a block sequence. *)
Definition block_style : string := "addresses:
  - 10.0.0.5/24".

End Samples.

(** ** Measures of a trace *)

Module Measure.
Import Client.

(** The number of disk status requests in a trace. *)
Fixpoint status_requests (tr : list Event) : nat :=
  match tr with
  | [] => O
  | EvDiskStatus _ :: tr' => S (status_requests tr')
  | _ :: tr' => status_requests tr'
  end.

(** The time a trace spends in [time.Sleep], in nanoseconds. *)
Fixpoint slept (tr : list Event) : Z :=
  match tr with
  | [] => 0
  | EvSleep d :: tr' => d + slept tr'
  | _ :: tr' => slept tr'
  end.

(** The number of guest-agent queries in a trace. *)
Fixpoint agent_queries (tr : list Event) : nat :=
  match tr with
  | [] => O
  | EvGuestAgentIPs _ :: tr' => S (agent_queries tr')
  | _ :: tr' => agent_queries tr'
  end.

(** The power actions in a trace. *)
Fixpoint power_actions (tr : list Event) : list (string * string) :=
  match tr with
  | [] => []
  | EvPowerAction key action :: tr' => (key, action) :: power_actions tr'
  | _ :: tr' => power_actions tr'
  end.

End Measure.

(** * Properties *)

Import Client Builder.

(** ** The address-set comparison *)

Section IPCompareFacts.
Import IPCompare.

Lemma foldl_insert_lookup (l : list string) (m : gmap string bool) (k : string) :
  foldl (fun m ip => <[ip := true]> m) m l !! k
  = if decide (k ∈ l) then Some true else m !! k.
Proof.
  revert m. induction l as [|x l IH]; intros m; simpl.
  - destruct (decide (k ∈ [])) as [H|H]; [inversion H | reflexivity].
  - rewrite IH. destruct (decide (k ∈ l)) as [Hl|Hl].
    + rewrite decide_True by (right; exact Hl). reflexivity.
    + destruct (decide (x = k)) as [->|Hne].
      * rewrite lookup_insert_eq. rewrite decide_True by left. reflexivity.
      * rewrite lookup_insert_ne by exact Hne.
        rewrite decide_False; [reflexivity|].
        intros Hin. apply elem_of_cons in Hin as [->|Hin]; [congruence | contradiction].
Qed.

Lemma make_ip_map_lookup (l : list string) (k : string) :
  make_ip_map l !! k = if decide (k ∈ l) then Some true else None.
Proof. unfold make_ip_map. rewrite foldl_insert_lookup, lookup_empty. reflexivity. Qed.

Lemma map_index_make (l : list string) (k : string) :
  map_index (make_ip_map l) k = bool_decide (k ∈ l).
Proof.
  unfold map_index. rewrite make_ip_map_lookup.
  destruct (decide (k ∈ l)) as [H|H]; simpl.
  - rewrite bool_decide_eq_true_2; auto.
  - rewrite bool_decide_eq_false_2; auto.
Qed.

Lemma all_keys_in_make (a b : list string) :
  all_keys_in (make_ip_map a) (make_ip_map b) = true <-> (forall x, x ∈ a -> x ∈ b).
Proof.
  unfold all_keys_in. rewrite forallb_forall. split.
  - intros H x Hx.
    assert (Hl : make_ip_map a !! x = Some true).
    { rewrite make_ip_map_lookup, decide_True by exact Hx. reflexivity. }
    apply elem_of_map_to_list in Hl. apply list_elem_of_In in Hl.
    specialize (H _ Hl). simpl in H. rewrite map_index_make in H.
    apply bool_decide_eq_true_1 in H. exact H.
  - intros H [k v] Hin. simpl. apply list_elem_of_In in Hin.
    apply elem_of_map_to_list in Hin. rewrite make_ip_map_lookup in Hin.
    destruct (decide (k ∈ a)) as [Hk|Hk]; [|discriminate].
    rewrite map_index_make. apply bool_decide_eq_true_2. auto.
Qed.

Lemma ipSlicesEqual_true (a b : list string) :
  ipSlicesEqual a b = true <-> length a = length b /\ (forall x, x ∈ a <-> x ∈ b).
Proof.
  unfold ipSlicesEqual.
  destruct (Nat.eqb (length a) (length b)) eqn:Hlen; simpl.
  - apply Nat.eqb_eq in Hlen.
    destruct (all_keys_in (make_ip_map a) (make_ip_map b)) eqn:Hab; simpl.
    + destruct (all_keys_in (make_ip_map b) (make_ip_map a)) eqn:Hba; simpl.
      * pose proof (proj1 (all_keys_in_make a b) Hab) as Hab'.
        pose proof (proj1 (all_keys_in_make b a) Hba) as Hba'.
        split; [intros _|reflexivity]. split; [exact Hlen|]. intros x; split; auto.
      * split; [discriminate|]. intros [_ H].
        assert (Hc : all_keys_in (make_ip_map b) (make_ip_map a) = true).
        { apply all_keys_in_make. intros x. apply H. }
        congruence.
    + split; [discriminate|]. intros [_ H].
      assert (Hc : all_keys_in (make_ip_map a) (make_ip_map b) = true).
      { apply all_keys_in_make. intros x. apply H. }
      congruence.
  - apply Nat.eqb_neq in Hlen. split; [discriminate|]. intros [H _]. contradiction.
Qed.

Lemma bool_eq_of_iff (x y : bool) : (x = true <-> y = true) -> x = y.
Proof.
  destruct x, y; intros [H1 H2]; try reflexivity.
  - symmetry. apply H1. reflexivity.
  - apply H2. reflexivity.
Qed.

Lemma ipSlicesEqual_sym (a b : list string) : ipSlicesEqual a b = ipSlicesEqual b a.
Proof.
  apply bool_eq_of_iff. rewrite !ipSlicesEqual_true.
  split; intros [Hl H]; (split; [symmetry; exact Hl | intros x; symmetry; apply H]).
Qed.

Lemma ipSlicesEqual_perm (a a' b b' : list string) :
  a ≡ₚ a' -> b ≡ₚ b' -> ipSlicesEqual a b = ipSlicesEqual a' b'.
Proof.
  intros Ha Hb. apply bool_eq_of_iff. rewrite !ipSlicesEqual_true.
  assert (Hla := Permutation_length Ha). assert (Hlb := Permutation_length Hb).
  split; intros [Hl H]; (split; [congruence|]); intros x.
  - rewrite <- Ha, <- Hb. apply H.
  - rewrite Ha, Hb. apply H.
Qed.

Lemma ipSlicesEqual_refl_perm (a b : list string) : a ≡ₚ b -> ipSlicesEqual a b = true.
Proof.
  intros H. apply ipSlicesEqual_true. split; [apply Permutation_length, H|].
  intros x. rewrite H. reflexivity.
Qed.

End IPCompareFacts.

(** C10: [ipSlicesEqual a b] is true exactly when the slices have equal
    length and the same set of elements; it is symmetric; it does not change
    when either slice is permuted; and a settle tick that brings the last
    observed addresses in another order ends the loop without a restart. *)
Theorem C10_ipSlicesEqual_is_set_equality
    (a a' b b' : list string) (vm : string) (rest : list SettleEvent)
    (discovered : list string) (restarts : nat) :
  a ≡ₚ a' -> b ≡ₚ b' ->
  (IPCompare.ipSlicesEqual a b = true
     <-> length a = length b /\ (list_to_set a : gset string) = list_to_set b)
  /\ IPCompare.ipSlicesEqual a b = IPCompare.ipSlicesEqual b a
  /\ IPCompare.ipSlicesEqual a b = IPCompare.ipSlicesEqual a' b'
  /\ settle_loop (SettleTick (Ok a') :: rest) vm discovered a restarts
     = (Some discovered, restarts, [EvGuestAgentIPs vm]).
Proof.
  intros Ha Hb. split; [|split; [|split]].
  - rewrite ipSlicesEqual_true. split; intros [Hl H]; (split; [exact Hl|]).
    + apply set_eq. intros x. rewrite !elem_of_list_to_set. apply H.
    + intros x. rewrite <- !(elem_of_list_to_set (C := gset string)). rewrite H. reflexivity.
  - apply ipSlicesEqual_sym.
  - apply ipSlicesEqual_perm; assumption.
  - simpl. rewrite (ipSlicesEqual_refl_perm a' a) by (symmetry; exact Ha). reflexivity.
Qed.

Lemma C10_witness :
  IPCompare.ipSlicesEqual ["10.0.0.1"; "10.0.0.2"] ["10.0.0.2"; "10.0.0.1"]
  = IPCompare.ipSlicesEqual ["10.0.0.2"; "10.0.0.1"] ["10.0.0.1"; "10.0.0.2"].
Proof.
  apply (C10_ipSlicesEqual_is_set_equality
           ["10.0.0.1"; "10.0.0.2"] ["10.0.0.2"; "10.0.0.1"]
           ["10.0.0.2"; "10.0.0.1"] ["10.0.0.1"; "10.0.0.2"]
           "vm" [] [] 0%nat).
  - apply perm_swap.
  - apply perm_swap.
Defined.

(** ** Resource creation and its rollback *)

Section CreateFacts.
Import Spec.

Lemma create_disks_fail env m disks : forall k i disk cause,
  disks !! i = Some disk ->
  env_CreateVMDiskWithKey env (k + i) = Err cause ->
  (forall j, (j < i)%nat -> exists key, env_CreateVMDiskWithKey env (k + j) = Ok key) ->
  exists keys configs tr,
    create_disks env m disks k = (Some (DiskName disk, cause), keys, configs, tr)
    /\ forallb is_create tr = true.
Proof.
  induction disks as [|d disks IH]; intros k i disk cause Hi Herr Hok.
  - destruct i; discriminate.
  - destruct i as [|i]; simpl in Hi.
    + injection Hi as ->. simpl. rewrite Nat.add_0_r in Herr. rewrite Herr.
      eexists _, _, _. split; reflexivity.
    + simpl. destruct (Hok 0%nat ltac:(lia)) as [key Hkey].
      rewrite Nat.add_0_r in Hkey. rewrite Hkey.
      destruct (IH (S k) i disk cause Hi) as (keys & configs & tr & Heq & Htr).
      * rewrite <- Herr. f_equal. lia.
      * intros j Hj. destruct (Hok (S j) ltac:(lia)) as [key' Hk'].
        exists key'. rewrite <- Hk'. f_equal. lia.
      * rewrite Heq. destruct (String.eqb (DiskMedia d) "import");
          eexists _, _, _; (split; [reflexivity | simpl; exact Htr]).
Qed.

Lemma create_disks_ok env m disks : forall k,
  (forall j, (j < length disks)%nat -> exists key, env_CreateVMDiskWithKey env (k + j) = Ok key) ->
  exists keys configs tr,
    create_disks env m disks k = (None, keys, configs, tr)
    /\ forallb is_create tr = true
    /\ length configs = length keys.
Proof.
  induction disks as [|d disks IH]; intros k Hok.
  - eexists _, _, _. repeat split; reflexivity.
  - simpl. destruct (Hok 0%nat ltac:(simpl; lia)) as [key Hkey].
    rewrite Nat.add_0_r in Hkey. rewrite Hkey.
    destruct (IH (S k)) as (keys & configs & tr & Heq & Htr & Hlen).
    { intros j Hj. destruct (Hok (S j) ltac:(simpl; lia)) as [key' Hk'].
      exists key'. rewrite <- Hk'. f_equal. lia. }
    rewrite Heq. destruct (String.eqb (DiskMedia d) "import");
      eexists _, _, _; (split; [reflexivity | split; [simpl; exact Htr | simpl; lia]]).
Qed.

Lemma create_nics_fail env m nics : forall k i nic cause,
  nics !! i = Some nic ->
  env_CreateVMNic env (k + i) = Some cause ->
  (forall j, (j < i)%nat -> env_CreateVMNic env (k + j) = None) ->
  exists tr,
    create_nics env m nics k = (Some (NicConfigName nic, cause), tr)
    /\ forallb is_create tr = true.
Proof.
  induction nics as [|d nics IH]; intros k i nic cause Hi Herr Hok.
  - destruct i; discriminate.
  - destruct i as [|i]; simpl in Hi.
    + injection Hi as ->. simpl. rewrite Nat.add_0_r in Herr. rewrite Herr.
      eexists. split; reflexivity.
    + simpl. pose proof (Hok 0%nat ltac:(lia)) as Hkey.
      rewrite Nat.add_0_r in Hkey. rewrite Hkey.
      destruct (IH (S k) i nic cause Hi) as (tr & Heq & Htr).
      * rewrite <- Herr. f_equal. lia.
      * intros j Hj. rewrite <- (Hok (S j) ltac:(lia)). f_equal. lia.
      * rewrite Heq. eexists. split; [reflexivity | simpl; exact Htr].
Qed.

(** What [StepVMCreate.Run] leaves behind when a disk or NIC creation fails:
    the VM identity, the failure flag and the creation error. *)
Lemma StepVMCreate_Run_creation_fails env (state : StateBag) cc vm id m err :
  state !! "cluster_config" = Some (VClusterConfig cc) ->
  state !! "vm_config" = Some (VVmConfig vm) ->
  env_CreateVM env = Ok (id, m) -> m <> 0 ->
  creation_fails env vm err ->
  exists st tr,
    StepVMCreate_Run env state = (Returned ActionHalt, st, tr)
    /\ forallb is_create tr = true
    /\ st !! "vm_id" = Some (VString id)
    /\ st !! "vm_creation_failed" = Some (VBool true)
    /\ st !! "error" = Some (VError err)
    /\ st !! "cluster_config" = Some (VClusterConfig cc).
Proof.
  intros Hcc Hvm Hcreate Hm Hfail.
  unfold StepVMCreate_Run, CreateVM. rewrite Hcc, Hvm, Hcreate.
  apply Z.eqb_neq in Hm. rewrite Hm.
  destruct Hfail as [i disk cause (Hi & Herr & Hok) | i nic cause (Hdisks & Hi & Herr & Hok)].
  - destruct (create_disks_fail env m (VmDiskConfigs vm) 0 i disk cause Hi Herr Hok)
      as (keys & configs & tr & Heq & Htr).
    rewrite Heq. eexists _, _. split; [reflexivity|].
    split; [simpl; exact Htr|]. by simplify_map_eq.
  - destruct (create_disks_ok env m (VmDiskConfigs vm) 0 Hdisks)
      as (keys & configs & tr & Heq & Htr & _).
    rewrite Heq.
    destruct (create_nics_fail env m (VmNicConfigs vm) 0 i nic cause Hi Herr Hok)
      as (tr2 & Heq2 & Htr2).
    rewrite Heq2. eexists _, _. split; [reflexivity|].
    split.
    { simpl. rewrite forallb_app, Htr, Htr2. reflexivity. }
    destruct (0 <? length keys)%nat; by simplify_map_eq.
Qed.

(** [StepVMCreate.Cleanup] calls the API only to delete the VM whose key is
    in the state, and only under the failure flag. *)
Lemma StepVMCreate_Cleanup_calls env (state : StateBag) :
  snd (StepVMCreate_Cleanup env state) <> [] ->
  exists key,
    state !! "vm_id" = Some (VString key)
    /\ state !! "vm_creation_failed" = Some (VBool true)
    /\ snd (StepVMCreate_Cleanup env state) = [EvDeleteVM key].
Proof.
  unfold StepVMCreate_Cleanup.
  destruct (state !! "vm_id") as [vmId|]; [|intros H; contradiction H; reflexivity].
  destruct (state !! "vm_creation_failed") as [flag|]; [|intros H; contradiction H; reflexivity].
  destruct flag as [| [|] | | | | | | | | |]; try (intros H; contradiction H; reflexivity).
  destruct vmId; try (intros H; contradiction H; reflexivity).
  destruct (state !! "cluster_config") as [cc|]; [|intros H; contradiction H; reflexivity].
  destruct cc; try (intros H; contradiction H; reflexivity).
  intros _. exists s. unfold DeleteVM.
  destruct (env_DeleteVM env) as [e|code]; [auto|].
  destruct (negb (code =? 200) && negb (code =? 204)); auto.
Qed.

Lemma StepVMCreate_Cleanup_deletes env (state : StateBag) id cc :
  state !! "vm_id" = Some (VString id) ->
  state !! "vm_creation_failed" = Some (VBool true) ->
  state !! "cluster_config" = Some (VClusterConfig cc) ->
  StepVMCreate_Cleanup env state = (Returned tt, state, [EvDeleteVM id]).
Proof.
  intros H1 H2 H3. unfold StepVMCreate_Cleanup, DeleteVM. rewrite H1, H2, H3.
  destruct (env_DeleteVM env) as [e|code]; [reflexivity|].
  destruct (negb (code =? 200) && negb (code =? 204)); reflexivity.
Qed.

End CreateFacts.

(** C2: in a build whose resource creation fails on a disk or a NIC after
    the VM was created, the rollback issues the VM deletion and nothing
    else (the trace of the build is creation requests followed by exactly
    one [EvDeleteVM] for the VM's key), and whatever the deletion answers,
    the build fails with the creation error. The rollback calls the API only
    when the failure flag is set and the state holds the VM's key. *)
Theorem C2_rollback_deletes_the_vm_once
    (ToLower : string -> string)
    (StepConnect : (StateBag -> Outcome (Result string)) -> Step) (StepProvision : Step)
    (config : Config) (env : Env) (id : string) (m : Z) (err : GoError) :
  env_CreateVM env = Ok (id, m) -> m <> 0 ->
  Spec.creation_fails env (ConfigVmConfig config) err ->
  (exists st creates,
      Builder_Run ToLower StepConnect StepProvision config env
      = (Returned (Some err), st, creates ++ [EvDeleteVM id])
      /\ forallb Spec.is_create creates = true
      /\ filter (fun e => Spec.is_delete e = true) (creates ++ [EvDeleteVM id]) = [EvDeleteVM id]
      /\ st !! "error" = Some (VError err))
  /\ (forall state : StateBag,
        snd (StepVMCreate_Cleanup env state) <> [] ->
        exists key,
          state !! "vm_id" = Some (VString key)
          /\ state !! "vm_creation_failed" = Some (VBool true)
          /\ snd (StepVMCreate_Cleanup env state) = [EvDeleteVM key]).
Proof.
  intros Hcreate Hm Hfail. split; [|apply StepVMCreate_Cleanup_calls].
  destruct (StepVMCreate_Run_creation_fails env (initial_state config)
              (ConfigClusterConfig config) (ConfigVmConfig config) id m err
              eq_refl eq_refl Hcreate Hm Hfail)
    as (st & tr & Hrun & Htr & Hid & Hflag & Herr & Hcc).
  exists (<["halted" := VBool true]> st), tr.
  assert (Hclean : StepVMCreate_Cleanup env (<["halted" := VBool true]> st)
                   = (Returned tt, <["halted" := VBool true]> st, [EvDeleteVM id])).
  { apply (StepVMCreate_Cleanup_deletes _ _ id (ConfigClusterConfig config));
      rewrite lookup_insert_ne by discriminate; assumption. }
  split; [|split; [exact Htr|split]].
  - unfold Builder_Run. simpl. rewrite Hrun. rewrite Hclean.
    rewrite lookup_insert_ne by discriminate. rewrite Herr. reflexivity.
  - rewrite filter_app. simpl.
    assert (Hnone : filter (fun e => Spec.is_delete e = true) tr = []).
    { clear -Htr. induction tr as [|e tr IH]; [reflexivity|].
      simpl in Htr. apply andb_true_iff in Htr as [He Htr].
      destruct e; try discriminate;
        (rewrite filter_cons_False by (simpl; discriminate)); auto. }
    rewrite Hnone. reflexivity.
  - rewrite lookup_insert_ne by discriminate. exact Herr.
Qed.

Lemma C2_witness :
  exists st creates,
    Builder_Run Samples.ascii_ToLower Samples.connect_step Samples.provision_step
      (Samples.sample_config false "dhcp4: true") Samples.env_second_disk_fails
    = (Returned (Some (Errorf "error creating disk '%s': %w"
                         [AStr "data";
                          AErr (Remote "[ API Error 500 ] @ api/v4/machine_drives - out of space")])),
       st, creates ++ [EvDeleteVM "vm-7"]).
Proof.
  destruct (C2_rollback_deletes_the_vm_once
              Samples.ascii_ToLower Samples.connect_step Samples.provision_step
              (Samples.sample_config false "dhcp4: true") Samples.env_second_disk_fails "vm-7" 7
              (Errorf "error creating disk '%s': %w"
                 [AStr "data";
                  AErr (Remote "[ API Error 500 ] @ api/v4/machine_drives - out of space")]))
    as [(st & creates & H & _) _].
  - reflexivity.
  - discriminate.
  - apply (Spec.disk_creation_fails _ _ 1%nat Samples.data_disk).
    split; [reflexivity|]. split; [reflexivity|].
    intros j Hj. exists "disk-1". destruct j; [reflexivity | lia].
  - exists st, creates. exact H.
Defined.

(** ** Power-on failure and the rollback *)

(** C1 (the code does not do this): a build in which the VM is created and
    never reports running before the power-on deadline ends with the
    power-on timeout as its error and with ["vm_power_on_failed"] set, and
    its trace holds no VM deletion. [StepPowerOn.Run] never writes
    ["vm_creation_failed"], the only flag [StepVMCreate.Cleanup] reads, and
    that cleanup does the same with and without ["vm_power_on_failed"]. *)
Theorem C1_power_on_timeout_does_not_delete_the_vm :
  (exists st tr,
      Builder_Run Samples.ascii_ToLower Samples.connect_step Samples.provision_step
        (Samples.sample_config true "dhcp4: true") Samples.env_never_running
      = (Returned (Some (Errorf "timeout waiting for VM to power on after %v"
                           [ADuration (2 * minute)])), st, tr)
      /\ st !! "vm_power_on_failed" = Some (VBool true)
      /\ st !! "vm_id" = Some (VString "vm-7")
      /\ filter (fun e => Spec.is_delete e = true) tr = [])
  /\ (forall s env (state : StateBag),
        snd (fst (StepPowerOn_Run s env state)) !! "vm_creation_failed"
        = state !! "vm_creation_failed")
  /\ (forall env (state : StateBag) v,
        snd (StepVMCreate_Cleanup env (<["vm_power_on_failed" := v]> state))
        = snd (StepVMCreate_Cleanup env state)).
Proof.
  split; [|split].
  - eexists _, _. split; [vm_compute; reflexivity|].
    split; [vm_compute; reflexivity|]. split; vm_compute; reflexivity.
  - intros s env state. unfold StepPowerOn_Run.
    destruct (state !! "cluster_config") as [[]|]; try reflexivity.
    destruct (state !! "vm_id") as [[]|]; try reflexivity;
      [|simpl; by rewrite lookup_insert_ne].
    destruct (PowerOnVM env s0) as [[e|] tr0]; simpl; [by rewrite lookup_insert_ne|].
    destruct (poll_running (env_RunningPolls env) s0) as [[|] tr1]; simpl;
      [|by rewrite !lookup_insert_ne].
    rewrite lookup_insert_ne by discriminate.
    destruct (state !! "config") as [[]|]; simpl; try by rewrite lookup_insert_ne.
    destruct (extractIPFromCloudInit c) as [ip|e]; simpl.
    + by rewrite !lookup_insert_ne.
    + destruct (GuestAgent (ConfigVmConfig c)); simpl; by rewrite !lookup_insert_ne.
  - intros env state v. unfold StepVMCreate_Cleanup.
    rewrite !lookup_insert_ne by discriminate.
    destruct (state !! "vm_id") as [vmId|]; [|reflexivity].
    destruct (state !! "vm_creation_failed") as [flag|]; [|reflexivity].
    destruct flag as [| [|] | | | | | | | | |]; try reflexivity.
    destruct vmId; try reflexivity.
    destruct (state !! "cluster_config") as [[]|]; try reflexivity.
    destruct (DeleteVM env s). reflexivity.
Qed.

(** ** The shutdown step *)

(** The forced power-off always returns [ActionContinue] and never writes
    the build error. *)
Lemma performForcedShutdown_continue env (state : StateBag) vmIdStr :
  exists st tr,
    performForcedShutdown env state vmIdStr = (Returned ActionContinue, st, tr)
    /\ st !! "error" = state !! "error".
Proof.
  unfold performForcedShutdown.
  destruct (String.eqb vmIdStr ""); [eexists _, _; split; reflexivity|].
  destruct (PowerOffVM env vmIdStr) as [[e|] tr]; eexists _, _; (split; [reflexivity|]).
  - reflexivity.
  - by rewrite lookup_insert_ne.
Qed.

(** C3, as the claim states it, fails: the command is issued, exits with
    status 0, and the build is cancelled during the wait that follows; the
    step returns [ActionHalt]. *)
Lemma C3_counterexample :
  Command Samples.shutdown_step <> ""
  /\ env_CommStart Samples.env_cancelled_in_drain = None
  /\ env_CommWait Samples.env_cancelled_in_drain = WaitExited 0
  /\ StepShutdown_Run Samples.shutdown_step Samples.env_cancelled_in_drain
       Samples.state_before_shutdown
     = (Returned ActionHalt, Samples.state_before_shutdown,
        [EvCommStart "sudo shutdown -P now"; EvCommWait]).
Proof.
  split; [discriminate|]. split; [reflexivity|]. split; [reflexivity|].
  vm_compute. reflexivity.
Qed.

(** C3, amended: on a state that holds the communicator and the cluster
    configuration, the shutdown step returns and never writes the build
    error, whatever the command start, the command's exit, the forced
    power-off and the verification read answer. It returns [ActionHalt] in
    one case only: a command is configured, started, exits with status 0,
    and the build is cancelled during the 30 s wait that follows; in every
    other case it returns [ActionContinue]. Without a command it returns
    [ActionContinue] at once, calling nothing and leaving the state as it
    is. *)
Theorem C3_shutdown_never_fails_the_build
    (s : StepShutdown) (env : Env) (state : StateBag) (cc : ClusterConfig) :
  state !! "communicator" = Some VCommunicator ->
  state !! "cluster_config" = Some (VClusterConfig cc) ->
  (state !! "vm_id" = None \/ exists key, state !! "vm_id" = Some (VString key)) ->
  exists action st tr,
    StepShutdown_Run s env state = (Returned action, st, tr)
    /\ st !! "error" = state !! "error"
    /\ (action = ActionHalt <->
        Command s <> "" /\ env_CommStart env = None
        /\ env_CommWait env = WaitExited 0 /\ env_CancelledInDrain env = true)
    /\ (Command s = "" -> st = state /\ tr = []).
Proof.
  intros Hcomm Hcc Hid. unfold StepShutdown_Run.
  destruct (String.eqb (Command s) "") eqn:Hcmd.
  { apply String.eqb_eq in Hcmd. eexists _, _, _. split; [reflexivity|].
    split; [reflexivity|]. split; [|auto].
    split; [discriminate | intros [H _]; contradiction]. }
  apply String.eqb_neq in Hcmd. rewrite Hcomm, Hcc.
  assert (Hv : exists vmIdStr,
             match state !! "vm_id" with
             | Some (VString vmId) => Returned vmId
             | Some _ => Panicked
             | None => Returned ""
             end = Returned vmIdStr).
  { destruct Hid as [->|[key ->]]; eauto. }
  destruct Hv as [vmIdStr ->].
  destruct (env_CommStart env) as [e|] eqn:Hstart.
  { destruct (performForcedShutdown_continue env state vmIdStr) as (st & tr & -> & Herr).
    eexists _, _, _. split; [reflexivity|]. split; [exact Herr|].
    split; [|intros; contradiction].
    split; [discriminate | intros (_ & H & _); discriminate]. }
  destruct (env_CommWait env) as [|status] eqn:Hwait.
  { destruct (performForcedShutdown_continue env state vmIdStr) as (st & tr & -> & Herr).
    eexists _, _, _. split; [reflexivity|]. split; [exact Herr|].
    split; [|intros; contradiction].
    split; [discriminate | intros (_ & _ & H & _); discriminate]. }
  destruct (status =? 0) eqn:Hstatus; simpl.
  - apply Z.eqb_eq in Hstatus. subst status.
    destruct (env_CancelledInDrain env) eqn:Hcancel.
    + eexists _, _, _. split; [reflexivity|]. split; [reflexivity|].
      split; [|intros; contradiction]. split; auto.
    + eexists _, _, _. split; [reflexivity|].
      split; [by rewrite lookup_insert_ne|].
      split; [|intros; contradiction].
      split; [discriminate | intros (_ & _ & _ & H); discriminate].
  - apply Z.eqb_neq in Hstatus.
    destruct (performForcedShutdown_continue env state vmIdStr) as (st & tr & -> & Herr).
    eexists _, _, _. split; [reflexivity|]. split; [exact Herr|].
    split; [|intros; contradiction].
    split; [discriminate | intros (_ & _ & H & _); congruence].
Qed.

Lemma C3_witness :
  exists st tr,
    StepShutdown_Run Samples.shutdown_step Samples.env_forced_off_fails
      Samples.state_before_shutdown
    = (Returned ActionContinue, st, tr)
    /\ st !! "error" = None.
Proof.
  destruct (C3_shutdown_never_fails_the_build
              Samples.shutdown_step Samples.env_forced_off_fails
              Samples.state_before_shutdown Samples.cluster)
    as (action & st & tr & Hrun & Herr & Hhalt & _).
  - reflexivity.
  - reflexivity.
  - right. exists "vm-7". reflexivity.
  - exists st, tr. split.
    + destruct action; [exact Hrun|].
      destruct (proj1 Hhalt eq_refl) as (_ & _ & H & _). discriminate H.
    + rewrite Herr. reflexivity.
Defined.

(** ** The disk-import waiter *)

Section ImportFacts.
Import Spec.
Variable ToLower : string -> string.

Lemma poll_trace_S key p :
  poll_trace key (S (S p)) = EvDiskStatus key :: EvSleep (5 * second) :: poll_trace key (S p).
Proof. reflexivity. Qed.

(** A status other than ["importing"] ends the disk's wait at once. *)
Lemma wait_one_disk_terminal env key max remaining n status :
  env_CheckDiskImportStatus env n = Ok status ->
  ToLower status <> "importing" ->
  wait_one_disk ToLower env key max (S remaining) n = (None, S n, [EvDiskStatus key]).
Proof.
  intros Hs Hne. simpl. rewrite Hs.
  apply String.eqb_neq in Hne. rewrite Hne. reflexivity.
Qed.

(** ["importing"] with attempts left: sleep 5 s and ask again. *)
Lemma wait_one_disk_importing env key max remaining n status :
  env_CheckDiskImportStatus env n = Ok status ->
  ToLower status = "importing" ->
  wait_one_disk ToLower env key max (S (S remaining)) n
  = let '(r, n', tr) := wait_one_disk ToLower env key max (S remaining) (S n) in
    (r, n', EvDiskStatus key :: EvSleep (5 * second) :: tr).
Proof.
  intros Hs He. cbn [wait_one_disk]. rewrite Hs.
  apply String.eqb_eq in He. rewrite He. reflexivity.
Qed.

(** [c] answers of ["importing"], then a terminal status, within the
    bound. *)
Lemma wait_one_disk_completes env key max : forall c remaining n status,
  (c < remaining)%nat ->
  importing_run ToLower env n c ->
  env_CheckDiskImportStatus env (n + c) = Ok status ->
  ToLower status <> "importing" ->
  wait_one_disk ToLower env key max remaining n
  = (None, (n + S c)%nat, poll_trace key (S c)).
Proof.
  induction c as [|c IH]; intros remaining n status Hlt Hrun Hs Hne.
  - destruct remaining as [|r]; [lia|]. rewrite Nat.add_0_r in Hs.
    rewrite (wait_one_disk_terminal env key max r n status Hs Hne).
    f_equal. f_equal. lia.
  - destruct remaining as [|[|r]]; [lia|lia|].
    destruct (Hrun 0%nat ltac:(lia)) as (st0 & Hs0 & He0). rewrite Nat.add_0_r in Hs0.
    rewrite (wait_one_disk_importing env key max r n st0 Hs0 He0).
    rewrite (IH (S r) (S n) status).
    + rewrite poll_trace_S. f_equal. f_equal. lia.
    + lia.
    + intros i Hi. destruct (Hrun (S i) ltac:(lia)) as (st & Hst & Hest).
      exists st. split; [|exact Hest]. rewrite <- Hst. f_equal. lia.
    + rewrite <- Hs. f_equal. lia.
    + exact Hne.
Qed.

(** ["importing"] at every attempt: the retry bound is exceeded. *)
Lemma wait_one_disk_times_out env key max : forall remaining n last,
  (0 < remaining)%nat ->
  importing_run ToLower env n remaining ->
  env_CheckDiskImportStatus env (n + remaining - 1) = Ok last ->
  wait_one_disk ToLower env key max remaining n
  = (Some (Errorf "disk %s failed to complete import after %d retries, last status: %s"
             [AStr key; AInt max; AStr last]),
     (n + remaining)%nat, poll_trace key remaining).
Proof.
  induction remaining as [|r IH]; intros n last Hpos Hrun Hlast; [lia|].
  destruct (Hrun 0%nat ltac:(lia)) as (st0 & Hs0 & He0). rewrite Nat.add_0_r in Hs0.
  destruct r as [|r].
  - simpl. rewrite Hs0. apply String.eqb_eq in He0. rewrite He0. simpl.
    replace (n + 1 - 1)%nat with n in Hlast by lia.
    rewrite Hs0 in Hlast. injection Hlast as ->.
    f_equal. f_equal. lia.
  - rewrite (wait_one_disk_importing env key max r n st0 Hs0 He0).
    rewrite (IH (S n) last).
    + rewrite poll_trace_S. f_equal. f_equal. lia.
    + lia.
    + intros i Hi. destruct (Hrun (S i) ltac:(lia)) as (st & Hst & Hest).
      exists st. split; [|exact Hest]. rewrite <- Hst. f_equal. lia.
    + rewrite <- Hlast. f_equal. lia.
Qed.

(** [c] answers of ["importing"], then a request that fails. *)
Lemma wait_one_disk_request_fails env key max : forall c remaining n err,
  (c < remaining)%nat ->
  importing_run ToLower env n c ->
  env_CheckDiskImportStatus env (n + c) = Err err ->
  wait_one_disk ToLower env key max remaining n
  = (Some (Errorf "failed to check disk import status: %w" [AErr err]),
     (n + S c)%nat, poll_trace key (S c)).
Proof.
  induction c as [|c IH]; intros remaining n err Hlt Hrun Hs.
  - destruct remaining as [|r]; [lia|]. rewrite Nat.add_0_r in Hs.
    simpl. rewrite Hs. f_equal. f_equal. lia.
  - destruct remaining as [|[|r]]; [lia|lia|].
    destruct (Hrun 0%nat ltac:(lia)) as (st0 & Hs0 & He0). rewrite Nat.add_0_r in Hs0.
    rewrite (wait_one_disk_importing env key max r n st0 Hs0 He0).
    rewrite (IH (S r) (S n) err).
    + rewrite poll_trace_S. f_equal. f_equal. lia.
    + lia.
    + intros i Hi. destruct (Hrun (S i) ltac:(lia)) as (st & Hst & Hest).
      exists st. split; [|exact Hest]. rewrite <- Hst. f_equal. lia.
    + rewrite <- Hs. f_equal. lia.
Qed.

(** Within any bound, the answers from request [n] on are ["importing"]
    throughout, or there is a first one that is not. *)
Lemma importing_run_or_stop env n bound :
  importing_run ToLower env n bound
  \/ exists c, (c < bound)%nat /\ importing_run ToLower env n c
       /\ ((exists status, env_CheckDiskImportStatus env (n + c) = Ok status
                           /\ ToLower status <> "importing")
           \/ exists err, env_CheckDiskImportStatus env (n + c) = Err err).
Proof.
  induction bound as [|b IH].
  - left. intros i Hi. lia.
  - destruct IH as [Hrun | (c & Hc & Hrun & Hstop)].
    + destruct (env_CheckDiskImportStatus env (n + b)) as [status|err] eqn:Hs.
      * destruct (string_dec (ToLower status) "importing") as [He|Hne].
        -- left. intros i Hi. destruct (Nat.eq_dec i b) as [->|Hib].
           ++ exists status. split; assumption.
           ++ apply Hrun. lia.
        -- right. exists b. split; [lia|]. split; [exact Hrun|]. left. eauto.
      * right. exists b. split; [lia|]. split; [exact Hrun|]. right. eauto.
    + right. exists c. split; [lia|]. split; assumption.
Qed.

(** The loop over the disks does what [waits] says, on every input. *)
Lemma wait_disks_waits env : forall keys n,
  waits ToLower env n keys (wait_disks ToLower env keys 20 n).
Proof.
  induction keys as [|key keys IH]; intros n.
  - apply waits_nil.
  - cbn [wait_disks]. change (Z.to_nat 20) with 20%nat.
    destruct (importing_run_or_stop env n 20)
      as [Hrun | (c & Hc & Hrun & [(status & Hs & Hne) | (err & Hs)])].
    + destruct (Hrun 19%nat ltac:(lia)) as (last & Hlast & _).
      rewrite (wait_one_disk_times_out env key 20 20 n last); [|lia|exact Hrun|].
      * apply waits_timeout; assumption.
      * rewrite <- Hlast. f_equal. lia.
    + rewrite (wait_one_disk_completes env key 20 c 20 n status Hc Hrun Hs Hne).
      specialize (IH (n + S c)%nat).
      destruct (wait_disks ToLower env keys 20 (n + S c)) as [r tr'].
      eapply waits_done; eassumption.
    + rewrite (wait_one_disk_request_fails env key 20 c 20 n err Hc Hrun Hs).
      apply waits_request_fails; assumption.
Qed.

End ImportFacts.

(** C5: with tracked import disks in the state, the step runs the waiter
    with a bound of 20 attempts. The waiter sleeps 5 s once, then takes the
    disks in order ([Spec.waits]): the status requests of a disk are 5 s
    apart; a status that is ["importing"] up to case means another request,
    any other status ends the disk's wait; ["importing"] at the 20th request
    ends the wait with an error that carries the disk key and that last
    status. An error of the waiter halts the step and becomes the build
    error. *)
Theorem C5_import_waiter
    (ToLower : string -> string) (env : Env) (state : StateBag)
    (key : string) (rest : list string) :
  state !! "import_disk_keys" = Some (VStrings (key :: rest)) ->
  exists r tr,
    WaitForDiskImportCompletion ToLower env (key :: rest) 20
    = (r, EvSleep (5 * second) :: tr)
    /\ Spec.waits ToLower env 0 (key :: rest) (r, tr)
    /\ (forall err, r = Some err ->
        StepWaitForDiskImport_Run ToLower env state
        = (Returned ActionHalt,
           <["error" := VError (Errorf "disk import failed: %w" [AErr err])]> state,
           EvSleep (5 * second) :: tr))
    /\ (r = None ->
        exists tr', snd (StepWaitForDiskImport_Run ToLower env state)
                    = EvSleep (5 * second) :: tr ++ tr').
Proof.
  intros Hk.
  pose proof (wait_disks_waits ToLower env (key :: rest) 0) as Hw.
  destruct (wait_disks ToLower env (key :: rest) 20 0) as [r tr] eqn:Hwd.
  exists r, tr.
  assert (Hwait : WaitForDiskImportCompletion ToLower env (key :: rest) 20
                  = (r, EvSleep (5 * second) :: tr)).
  { unfold WaitForDiskImportCompletion. rewrite Hwd. reflexivity. }
  split; [exact Hwait|]. split; [exact Hw|]. split.
  - intros err ->. unfold StepWaitForDiskImport_Run. rewrite Hk.
    cbn [length Nat.eqb]. rewrite Hwait. reflexivity.
  - intros ->. unfold StepWaitForDiskImport_Run. rewrite Hk.
    cbn [length Nat.eqb]. rewrite Hwait.
    destruct (state !! "import_disk_configs") as [[]|];
      try (exists []; rewrite app_nil_r; reflexivity).
    destruct (0 <? length l)%nat; [|exists []; rewrite app_nil_r; reflexivity].
    destruct (CheckAndResizeImportedDisks env l (key :: rest)) as [[e|] tr'];
      exists tr'; reflexivity.
Qed.

Lemma C5_witness :
  exists r tr,
    WaitForDiskImportCompletion Samples.ascii_ToLower Samples.env_all_good ["disk-1"] 20
    = (r, EvSleep (5 * second) :: tr)
    /\ Spec.waits Samples.ascii_ToLower Samples.env_all_good 0 ["disk-1"] (r, tr).
Proof.
  destruct (C5_import_waiter Samples.ascii_ToLower Samples.env_all_good
              Samples.state_after_create "disk-1" [])
    as (r & tr & H1 & H2 & _).
  - reflexivity.
  - exists r, tr. split; assumption.
Defined.

(** ** Failing requests: polls and one-shot calls *)

(** C6, as the claim states it, fails for the disk-import poll: the first
    status request finds the disk importing, the second fails, and the
    step halts with that failure as the build error, without asking a third
    time. *)
Lemma C6_counterexample :
  StepWaitForDiskImport_Run Samples.ascii_ToLower Samples.env_status_fails_once
    Samples.state_after_create
  = (Returned ActionHalt,
     <["error" :=
         VError (Errorf "disk import failed: %w"
                   [AErr (Errorf "failed to check disk import status: %w"
                            [AErr (Remote "[ API Error 502 ] @ api/v4/machine_drives/disk-1 - bad gateway")])])]>
       Samples.state_after_create,
     [EvSleep (5 * second); EvDiskStatus "disk-1"; EvSleep (5 * second); EvDiskStatus "disk-1"]).
Proof. vm_compute. reflexivity. Qed.

Section FailingRequests.
Import Spec Measure.
Variable ToLower : string -> string.

Lemma status_requests_app tr1 tr2 :
  status_requests (tr1 ++ tr2) = (status_requests tr1 + status_requests tr2)%nat.
Proof.
  induction tr1 as [|e tr1 IH]; [reflexivity|]. destruct e; simpl; rewrite IH; reflexivity.
Qed.

(** The request counter of the waiter advances by the status requests of
    the trace. *)
Lemma wait_one_disk_counts env key max : forall remaining n r n' tr,
  wait_one_disk ToLower env key max remaining n = (r, n', tr) ->
  n' = (n + status_requests tr)%nat.
Proof.
  induction remaining as [|rem IH]; intros n r n' tr.
  - intros [= _ <- <-]. simpl. lia.
  - cbn [wait_one_disk].
    destruct (env_CheckDiskImportStatus env n) as [status|err].
    2:{ intros [= _ <- <-]. simpl. lia. }
    destruct (negb (String.eqb (ToLower status) "importing")).
    { intros [= _ <- <-]. simpl. lia. }
    destruct rem as [|rem].
    { intros [= _ <- <-]. simpl. lia. }
    destruct (wait_one_disk ToLower env key max (S rem) (S n)) as [[r1 n1] tr1] eqn:Hw.
    intros [= _ <- <-]. apply IH in Hw. simpl. lia.
Qed.

(** Waiting for the disks [done ++ more]: the disks of [done] first, and when
    none of them ends the wait, those of [more] from the next request on. *)
Lemma wait_disks_app env max : forall done more n,
  wait_disks ToLower env (done ++ more) max n
  = match wait_disks ToLower env done max n with
    | (Some err, tr) => (Some err, tr)
    | (None, tr) =>
        let '(r, tr') := wait_disks ToLower env more max (n + status_requests tr) in
        (r, tr ++ tr')
    end.
Proof.
  induction done as [|key done IH]; intros more n.
  - cbn [app wait_disks status_requests]. rewrite Nat.add_0_r.
    destruct (wait_disks ToLower env more max n) as [r tr']. reflexivity.
  - cbn [app wait_disks].
    destruct (wait_one_disk ToLower env key max (Z.to_nat max) n) as [[r1 n1] tr1] eqn:Hw.
    apply wait_one_disk_counts in Hw. subst n1.
    destruct r1 as [err|]; [reflexivity|].
    rewrite IH.
    destruct (wait_disks ToLower env done max (n + status_requests tr1)) as [[err|] tr2];
      [reflexivity|].
    rewrite status_requests_app, Nat.add_assoc.
    destruct (wait_disks ToLower env more max
                (n + status_requests tr1 + status_requests tr2)) as [r tr3].
    rewrite app_assoc. reflexivity.
Qed.

(** A status request that fails while the disk is importing halts the
    import step with that failure as the build error; the request is not
    repeated and the disks after it are not asked about. *)
Lemma StepWaitForDiskImport_Run_request_fails
    env (state : StateBag) done key rest tr_done c err :
  state !! "import_disk_keys" = Some (VStrings (done ++ key :: rest)) ->
  wait_disks ToLower env done 20 0 = (None, tr_done) ->
  (c < 20)%nat ->
  importing_run ToLower env (status_requests tr_done) c ->
  env_CheckDiskImportStatus env (status_requests tr_done + c) = Err err ->
  StepWaitForDiskImport_Run ToLower env state
  = (Returned ActionHalt,
     <["error" :=
         VError (Errorf "disk import failed: %w"
                   [AErr (Errorf "failed to check disk import status: %w" [AErr err])])]>
       state,
     EvSleep (5 * second) :: tr_done ++ poll_trace key (S c)).
Proof.
  intros Hk Hdone Hc Hrun Hs.
  unfold StepWaitForDiskImport_Run. rewrite Hk.
  assert (Hlen : Nat.eqb (length (done ++ key :: rest)) 0 = false).
  { apply Nat.eqb_neq. rewrite length_app. simpl. lia. }
  rewrite Hlen.
  assert (Hw : WaitForDiskImportCompletion ToLower env (done ++ key :: rest) 20
               = (Some (Errorf "failed to check disk import status: %w" [AErr err]),
                  EvSleep (5 * second) :: tr_done ++ poll_trace key (S c))).
  { assert (Hwd : wait_disks ToLower env (done ++ key :: rest) 20 0
                  = (Some (Errorf "failed to check disk import status: %w" [AErr err]),
                     tr_done ++ poll_trace key (S c))).
    { rewrite wait_disks_app, Hdone. cbn [wait_disks Nat.add].
      change (Z.to_nat 20) with 20%nat.
      rewrite (wait_one_disk_request_fails ToLower env key 20 c 20
                 (status_requests tr_done) err Hc Hrun Hs).
      reflexivity. }
    unfold WaitForDiskImportCompletion. rewrite Hwd.
    destruct done; reflexivity. }
  rewrite Hw. reflexivity.
Qed.

(** The running-state poll passes over every answer that is not running, a
    failed request included. *)
Lemma poll_running_passes_over key after : forall before,
  Forall not_running before ->
  poll_running (before ++ Ok (Some true) :: after) key
  = (true, repeat (EvIsVMRunning key) (S (length before))).
Proof.
  induction 1 as [|answer before Ha _ IH]; [reflexivity|].
  cbn [app poll_running length repeat]. rewrite IH.
  destruct answer as [[[|]|]|e]; try reflexivity. contradiction Ha. reflexivity.
Qed.

(** With an address discovery method available, the power-on step whose
    poll finds the VM running after answers that are not running, failed
    requests included, goes on. *)
Lemma StepPowerOn_Run_passes_over
    s env (state : StateBag) cc key config before after :
  state !! "cluster_config" = Some (VClusterConfig cc) ->
  state !! "vm_id" = Some (VString key) ->
  state !! "config" = Some (VConfig config) ->
  GuestAgent (ConfigVmConfig config) = true ->
  env_PowerOn env = HttpStatus 201 ->
  env_RunningPolls env = before ++ Ok (Some true) :: after ->
  Forall not_running before ->
  StepPowerOn_Run s env state
  = (Returned ActionContinue,
     match extractIPFromCloudInit config with
     | Ok staticIP =>
         <["discovered_ips" := VStrings [staticIP]]>
           (<["host" := VString staticIP]> (<["vm_powered_on" := VBool true]> state))
     | Err _ => <["vm_powered_on" := VBool true]> state
     end,
     [EvPowerAction key "poweron"; EvSleep (10 * second)]
       ++ repeat (EvIsVMRunning key) (S (length before))).
Proof.
  intros Hcc Hid Hcfg Hga Hon Hpolls Hbefore.
  unfold StepPowerOn_Run. rewrite Hcc, Hid.
  unfold PowerOnVM, changeVMPowerState. rewrite Hon. cbn [Z.eqb Pos.eqb negb app].
  rewrite Hpolls, (poll_running_passes_over key after before Hbefore).
  rewrite lookup_insert_ne by discriminate. rewrite Hcfg.
  destruct (extractIPFromCloudInit config) as [ip|e]; [reflexivity|].
  rewrite Hga. reflexivity.
Qed.

(** The discovery loop passes over every answer without an address, a
    failed request included. *)
Lemma discover_loop_passes_over key ip ips after : forall before,
  Forall no_address before ->
  discover_loop (before ++ Ok (ip :: ips) :: after) key
  = (Some (ip :: ips), repeat (EvGuestAgentIPs key) (S (length before))).
Proof.
  induction 1 as [|answer before Ha _ IH]; [reflexivity|].
  cbn [app discover_loop length repeat]. rewrite IH.
  destruct Ha as [->|[err ->]]; reflexivity.
Qed.

(** The guest-agent step whose discovery phase finds addresses after
    answers without one, failed requests included, goes on to the settle
    phase, and continues with what that phase ends with. *)
Lemma StepWaitForIP_Run_passes_over
    s env (state : StateBag) cc key before ip ips after host others n tr2 :
  state !! "cluster_config" = Some (VClusterConfig cc) ->
  state !! "vm_id" = Some (VString key) ->
  no_address (env_GuestAgentFirst env) ->
  env_GuestAgentTicks env = before ++ Ok (ip :: ips) :: after ->
  Forall no_address before ->
  settle_loop (env_SettleEvents env) key (ip :: ips) (ip :: ips) 0
  = (Some (host :: others), n, tr2) ->
  StepWaitForIP_Run s env state
  = (Returned ActionContinue,
     <["discovered_ips" := VStrings (host :: others)]> (<["host" := VString host]> state),
     EvGuestAgentIPs key :: repeat (EvGuestAgentIPs key) (S (length before)) ++ tr2).
Proof.
  intros Hcc Hid Hfirst Hticks Hbefore Hsettle.
  unfold StepWaitForIP_Run, StepWaitForIP_Run_restarts. rewrite Hcc, Hid.
  assert (Hd : match env_GuestAgentFirst env with
               | Ok (ip0 :: ips0) => (Some (ip0 :: ips0), [])
               | _ => discover_loop (env_GuestAgentTicks env) key
               end
               = (Some (ip :: ips), repeat (EvGuestAgentIPs key) (S (length before)))).
  { rewrite Hticks, (discover_loop_passes_over key ip ips after before Hbefore).
    destruct Hfirst as [->|[err ->]]; reflexivity. }
  rewrite Hd, Hsettle. reflexivity.
Qed.

(** In the settle loop a failed request, after ticks that each changed the
    addresses, ends the loop without addresses. *)
Lemma settle_loop_request_fails key err rest : forall changes discovered last restarts,
  changing last changes ->
  settle_loop (settle_ticks changes ++ SettleTick (Err err) :: rest)
    key discovered last restarts
  = (None, (restarts + length changes)%nat,
     repeat (EvGuestAgentIPs key) (S (length changes))).
Proof.
  induction changes as [|current changes IH]; intros discovered last restarts Hch.
  - cbn. rewrite Nat.add_0_r. reflexivity.
  - destruct Hch as [Hne Hch].
    cbn [settle_ticks map app settle_loop length repeat]. rewrite Hne. cbn [negb].
    fold (settle_ticks changes). rewrite (IH current current (S restarts) Hch).
    f_equal. f_equal. lia.
Qed.

(** The guest-agent step whose settle phase meets a failed request halts
    with the connection-lost error as the build error; the request is not
    repeated. *)
Lemma StepWaitForIP_Run_settle_request_fails
    s env (state : StateBag) cc key found tr1 changes err rest :
  state !! "cluster_config" = Some (VClusterConfig cc) ->
  state !! "vm_id" = Some (VString key) ->
  (env_GuestAgentFirst env = Ok found /\ found <> [] /\ tr1 = []
   \/ no_address (env_GuestAgentFirst env)
      /\ discover_loop (env_GuestAgentTicks env) key = (Some found, tr1)) ->
  env_SettleEvents env = settle_ticks changes ++ SettleTick (Err err) :: rest ->
  changing found changes ->
  StepWaitForIP_Run_restarts s env state
  = ((Returned ActionHalt,
      <["error" := VError (Errorf "guest agent connection lost during settle period" [])]>
        state,
      EvGuestAgentIPs key :: tr1 ++ repeat (EvGuestAgentIPs key) (S (length changes))),
     length changes).
Proof.
  intros Hcc Hid Hfound Hsettle Hch.
  unfold StepWaitForIP_Run_restarts. rewrite Hcc, Hid.
  assert (Hd : match env_GuestAgentFirst env with
               | Ok (ip0 :: ips0) => (Some (ip0 :: ips0), [])
               | _ => discover_loop (env_GuestAgentTicks env) key
               end
               = (Some found, tr1)).
  { destruct Hfound as [(-> & Hne & ->) | [[->|[e ->]] Hdl]]; try exact Hdl.
    destruct found; [contradiction Hne; reflexivity | reflexivity]. }
  rewrite Hd, Hsettle, (settle_loop_request_fails key err rest changes found found 0 Hch).
  reflexivity.
Qed.

(** A failing creation of the VM halts the creation step with the failure
    as the build error, after the one request. *)
Lemma StepVMCreate_Run_request_fails env (state : StateBag) cc vm err :
  state !! "cluster_config" = Some (VClusterConfig cc) ->
  state !! "vm_config" = Some (VVmConfig vm) ->
  env_CreateVM env = Err err ->
  StepVMCreate_Run env state
  = (Returned ActionHalt,
     <["error" := VError (Errorf "error making POST request to %s: %w"
                            [AStr VMActionEndpoint; AErr err])]> state,
     [EvCreateVM (VmName vm)]).
Proof.
  intros Hcc Hvm Hcreate.
  unfold StepVMCreate_Run, CreateVM. rewrite Hcc, Hvm, Hcreate. reflexivity.
Qed.

(** The creation loops make at most one request per disk and per NIC. *)
Lemma create_disks_length env m : forall disks k,
  (length (snd (create_disks env m disks k)) <= length disks)%nat.
Proof.
  induction disks as [|disk disks IH]; intros k; [reflexivity|].
  cbn [create_disks length].
  destruct (env_CreateVMDiskWithKey env k) as [key|err]; [|simpl; lia].
  specialize (IH (S k)).
  destruct (create_disks env m disks (S k)) as [[[r keys] configs] tr].
  cbn [snd] in IH.
  destruct (String.eqb (DiskMedia disk) "import"); simpl; lia.
Qed.

Lemma create_nics_length env m : forall nics k,
  (length (snd (create_nics env m nics k)) <= length nics)%nat.
Proof.
  induction nics as [|nic nics IH]; intros k; [reflexivity|].
  cbn [create_nics length].
  destruct (env_CreateVMNic env k) as [err|]; [simpl; lia|].
  specialize (IH (S k)).
  destruct (create_nics env m nics (S k)) as [r tr].
  cbn [snd] in IH. simpl. lia.
Qed.

Lemma StepVMCreate_Run_length env (state : StateBag) cc vm :
  state !! "cluster_config" = Some (VClusterConfig cc) ->
  state !! "vm_config" = Some (VVmConfig vm) ->
  (length (snd (StepVMCreate_Run env state))
   <= 1 + length (VmDiskConfigs vm) + length (VmNicConfigs vm))%nat.
Proof.
  intros Hcc Hvm. unfold StepVMCreate_Run, CreateVM. rewrite Hcc, Hvm.
  destruct (env_CreateVM env) as [[id m]|err]; [|simpl; lia].
  destruct (m =? 0); [simpl; lia|].
  pose proof (create_disks_length env m (VmDiskConfigs vm) 0) as Hd.
  destruct (create_disks env m (VmDiskConfigs vm) 0) as [[[r keys] configs] tr1].
  cbn [snd] in Hd.
  destruct r as [[name err]|]; [cbn [snd]; rewrite length_app; simpl; lia|].
  pose proof (create_nics_length env m (VmNicConfigs vm) 0) as Hn.
  destruct (create_nics env m (VmNicConfigs vm) 0) as [r2 tr2].
  cbn [snd] in Hn.
  destruct r2 as [[name err]|]; cbn [snd]; rewrite !length_app; simpl; lia.
Qed.

(** A failing creation of a disk or of a NIC halts the creation step with
    the failure as the build error. *)
Lemma StepVMCreate_Run_later_request_fails env (state : StateBag) cc vm id m err :
  state !! "cluster_config" = Some (VClusterConfig cc) ->
  state !! "vm_config" = Some (VVmConfig vm) ->
  env_CreateVM env = Ok (id, m) -> m <> 0 ->
  creation_fails env vm err ->
  exists st tr,
    StepVMCreate_Run env state = (Returned ActionHalt, st, tr)
    /\ st !! "error" = Some (VError err)
    /\ forallb is_create tr = true
    /\ (length tr <= 1 + length (VmDiskConfigs vm) + length (VmNicConfigs vm))%nat.
Proof.
  intros Hcc Hvm Hcreate Hm Hfail.
  destruct (StepVMCreate_Run_creation_fails env state cc vm id m err Hcc Hvm Hcreate Hm Hfail)
    as (st & tr & Hrun & Htr & _ & _ & Herr & _).
  exists st, tr. split; [exact Hrun|]. split; [exact Herr|]. split; [exact Htr|].
  pose proof (StepVMCreate_Run_length env state cc vm Hcc Hvm) as Hlen.
  rewrite Hrun in Hlen. exact Hlen.
Qed.

(** A failing deletion is returned by [DeleteVM] after the one request, and
    the rollback that asked for it returns after that request, leaving the
    state as it was. *)
Lemma DeleteVM_request_fails env key err :
  env_DeleteVM env = HttpFail err ->
  DeleteVM env key
  = (Some (Errorf "error deleting VM %s: %w" [AStr key; AErr err]), [EvDeleteVM key]).
Proof. intros H. unfold DeleteVM. rewrite H. reflexivity. Qed.

Lemma StepVMCreate_Cleanup_request_fails env (state : StateBag) cc key err :
  state !! "cluster_config" = Some (VClusterConfig cc) ->
  state !! "vm_id" = Some (VString key) ->
  state !! "vm_creation_failed" = Some (VBool true) ->
  env_DeleteVM env = HttpFail err ->
  StepVMCreate_Cleanup env state = (Returned tt, state, [EvDeleteVM key]).
Proof.
  intros Hcc Hid Hflag Hdelete.
  unfold StepVMCreate_Cleanup. rewrite Hid, Hflag, Hcc.
  rewrite (DeleteVM_request_fails env key err Hdelete). reflexivity.
Qed.

End FailingRequests.

(** C6, amended: what a failing request does depends on where it is made.
    - Running-state poll after power-on: answers that are not running,
      failed requests among them, are passed over until the next tick; when
      a later tick finds the VM running the power-on step continues (an
      address discovery method being available).
    - Discovery phase of the guest-agent poll: answers without an address,
      failed requests among them, are passed over until the next tick; the
      step goes on to the settle phase with the first addresses found.
    - Disk-import poll: a status request that fails, whichever disk it is
      about and however often that disk has answered importing, halts the
      import step with that failure as the build error, and nothing more is
      asked.
    - Settle phase of the guest-agent poll: a failed request, after any
      number of ticks that changed the addresses, halts the step with the
      connection-lost error as the build error.
    - Creation of the VM, of a disk, of a NIC: a failing request halts the
      creation step with the failure as the build error; the requests made
      are creations only, none of them twice.
    - Deletion of the VM: a failing request is returned at once by
      [DeleteVM]; the rollback makes that one request and returns. *)
Theorem C6_failing_requests (ToLower : string -> string) :
  (forall s env (state : StateBag) cc key config before after,
      state !! "cluster_config" = Some (VClusterConfig cc) ->
      state !! "vm_id" = Some (VString key) ->
      state !! "config" = Some (VConfig config) ->
      GuestAgent (ConfigVmConfig config) = true ->
      env_PowerOn env = HttpStatus 201 ->
      env_RunningPolls env = before ++ Ok (Some true) :: after ->
      Forall Spec.not_running before ->
      StepPowerOn_Run s env state
      = (Returned ActionContinue,
         match extractIPFromCloudInit config with
         | Ok staticIP =>
             <["discovered_ips" := VStrings [staticIP]]>
               (<["host" := VString staticIP]> (<["vm_powered_on" := VBool true]> state))
         | Err _ => <["vm_powered_on" := VBool true]> state
         end,
         [EvPowerAction key "poweron"; EvSleep (10 * second)]
           ++ repeat (EvIsVMRunning key) (S (length before))))
  /\ (forall s env (state : StateBag) cc key before ip ips after host others n tr2,
      state !! "cluster_config" = Some (VClusterConfig cc) ->
      state !! "vm_id" = Some (VString key) ->
      Spec.no_address (env_GuestAgentFirst env) ->
      env_GuestAgentTicks env = before ++ Ok (ip :: ips) :: after ->
      Forall Spec.no_address before ->
      settle_loop (env_SettleEvents env) key (ip :: ips) (ip :: ips) 0
      = (Some (host :: others), n, tr2) ->
      StepWaitForIP_Run s env state
      = (Returned ActionContinue,
         <["discovered_ips" := VStrings (host :: others)]>
           (<["host" := VString host]> state),
         EvGuestAgentIPs key :: repeat (EvGuestAgentIPs key) (S (length before)) ++ tr2))
  /\ (forall env (state : StateBag) done key rest tr_done c err,
      state !! "import_disk_keys" = Some (VStrings (done ++ key :: rest)) ->
      wait_disks ToLower env done 20 0 = (None, tr_done) ->
      (c < 20)%nat ->
      Spec.importing_run ToLower env (Measure.status_requests tr_done) c ->
      env_CheckDiskImportStatus env (Measure.status_requests tr_done + c) = Err err ->
      StepWaitForDiskImport_Run ToLower env state
      = (Returned ActionHalt,
         <["error" :=
             VError (Errorf "disk import failed: %w"
                       [AErr (Errorf "failed to check disk import status: %w" [AErr err])])]>
           state,
         EvSleep (5 * second) :: tr_done ++ Spec.poll_trace key (S c)))
  /\ (forall s env (state : StateBag) cc key found tr1 changes err rest,
      state !! "cluster_config" = Some (VClusterConfig cc) ->
      state !! "vm_id" = Some (VString key) ->
      (env_GuestAgentFirst env = Ok found /\ found <> [] /\ tr1 = []
       \/ Spec.no_address (env_GuestAgentFirst env)
          /\ discover_loop (env_GuestAgentTicks env) key = (Some found, tr1)) ->
      env_SettleEvents env = Spec.settle_ticks changes ++ SettleTick (Err err) :: rest ->
      Spec.changing found changes ->
      StepWaitForIP_Run_restarts s env state
      = ((Returned ActionHalt,
          <["error" :=
              VError (Errorf "guest agent connection lost during settle period" [])]> state,
          EvGuestAgentIPs key :: tr1 ++ repeat (EvGuestAgentIPs key) (S (length changes))),
         length changes))
  /\ (forall env (state : StateBag) cc vm err,
      state !! "cluster_config" = Some (VClusterConfig cc) ->
      state !! "vm_config" = Some (VVmConfig vm) ->
      env_CreateVM env = Err err ->
      StepVMCreate_Run env state
      = (Returned ActionHalt,
         <["error" := VError (Errorf "error making POST request to %s: %w"
                                [AStr VMActionEndpoint; AErr err])]> state,
         [EvCreateVM (VmName vm)]))
  /\ (forall env (state : StateBag) cc vm id m err,
      state !! "cluster_config" = Some (VClusterConfig cc) ->
      state !! "vm_config" = Some (VVmConfig vm) ->
      env_CreateVM env = Ok (id, m) -> m <> 0 ->
      Spec.creation_fails env vm err ->
      exists st tr,
        StepVMCreate_Run env state = (Returned ActionHalt, st, tr)
        /\ st !! "error" = Some (VError err)
        /\ forallb Spec.is_create tr = true
        /\ (length tr <= 1 + length (VmDiskConfigs vm) + length (VmNicConfigs vm))%nat)
  /\ (forall env key err,
      env_DeleteVM env = HttpFail err ->
      DeleteVM env key
      = (Some (Errorf "error deleting VM %s: %w" [AStr key; AErr err]), [EvDeleteVM key]))
  /\ (forall env (state : StateBag) cc key err,
      state !! "cluster_config" = Some (VClusterConfig cc) ->
      state !! "vm_id" = Some (VString key) ->
      state !! "vm_creation_failed" = Some (VBool true) ->
      env_DeleteVM env = HttpFail err ->
      StepVMCreate_Cleanup env state = (Returned tt, state, [EvDeleteVM key])).
Proof.
  split; [intros; eapply StepPowerOn_Run_passes_over; eassumption|].
  split; [intros; eapply StepWaitForIP_Run_passes_over; eassumption|].
  split; [intros; eapply StepWaitForDiskImport_Run_request_fails; eassumption|].
  split; [intros; eapply StepWaitForIP_Run_settle_request_fails; eassumption|].
  split; [intros; eapply StepVMCreate_Run_request_fails; eassumption|].
  split; [intros; eapply StepVMCreate_Run_later_request_fails; eassumption|].
  split; [intros; apply DeleteVM_request_fails; assumption|].
  intros; eapply StepVMCreate_Cleanup_request_fails; eassumption.
Qed.

Lemma C6_witness :
  StepPowerOn_Run Samples.power_on_step Samples.env_running_poll_fails_once
    (Samples.state_before_power_on (Samples.sample_config true "dhcp4: true"))
  = (Returned ActionContinue,
     <["vm_powered_on" := VBool true]>
       (Samples.state_before_power_on (Samples.sample_config true "dhcp4: true")),
     [EvPowerAction "vm-7" "poweron"; EvSleep (10 * second);
      EvIsVMRunning "vm-7"; EvIsVMRunning "vm-7"])
  /\ StepWaitForIP_Run Samples.wait_for_ip_step Samples.env_agent_fails_in_discovery
       Samples.state_after_create
     = (Returned ActionContinue,
        <["discovered_ips" := VStrings Samples.set_A]>
          (<["host" := VString "10.0.0.5"]> Samples.state_after_create),
        [EvGuestAgentIPs "vm-7"; EvGuestAgentIPs "vm-7"; EvGuestAgentIPs "vm-7"])
  /\ StepWaitForDiskImport_Run Samples.ascii_ToLower Samples.env_status_fails_once
       Samples.state_after_create
     = (Returned ActionHalt,
        <["error" :=
            VError (Errorf "disk import failed: %w"
                      [AErr (Errorf "failed to check disk import status: %w"
                               [AErr (Remote "[ API Error 502 ] @ api/v4/machine_drives/disk-1 - bad gateway")])])]>
          Samples.state_after_create,
        [EvSleep (5 * second); EvDiskStatus "disk-1"; EvSleep (5 * second);
         EvDiskStatus "disk-1"])
  /\ StepWaitForIP_Run_restarts Samples.wait_for_ip_step Samples.env_agent_fails_in_settle
       Samples.state_after_create
     = ((Returned ActionHalt,
         <["error" :=
             VError (Errorf "guest agent connection lost during settle period" [])]>
           Samples.state_after_create,
         [EvGuestAgentIPs "vm-7"; EvGuestAgentIPs "vm-7"; EvGuestAgentIPs "vm-7"]),
        1%nat)
  /\ StepVMCreate_Run Samples.env_unreachable
       (initial_state (Samples.sample_config true "dhcp4: true"))
     = (Returned ActionHalt,
        <["error" := VError (Errorf "error making POST request to %s: %w"
                               [AStr VMActionEndpoint; AErr Samples.unreachable])]>
          (initial_state (Samples.sample_config true "dhcp4: true")),
        [EvCreateVM "golden"])
  /\ (exists st tr,
        StepVMCreate_Run Samples.env_second_disk_fails
          (initial_state (Samples.sample_config true "dhcp4: true"))
        = (Returned ActionHalt, st, tr)
        /\ st !! "error"
           = Some (VError
                     (Errorf "error creating disk '%s': %w"
                        [AStr "data";
                         AErr (Remote "[ API Error 500 ] @ api/v4/machine_drives - out of space")])))
  /\ StepVMCreate_Cleanup Samples.env_delete_fails Samples.state_after_failed_create
     = (Returned tt, Samples.state_after_failed_create, [EvDeleteVM "vm-7"]).
Proof.
  destruct (C6_failing_requests Samples.ascii_ToLower)
    as (Hpower & Hdiscover & Himport & Hsettle & Hcreate & Hlater & _ & Hcleanup).
  split; [|split; [|split; [|split; [|split; [|split]]]]].
  - apply (Hpower Samples.power_on_step Samples.env_running_poll_fails_once
             (Samples.state_before_power_on (Samples.sample_config true "dhcp4: true"))
             Samples.cluster "vm-7" (Samples.sample_config true "dhcp4: true")
             [Err (Remote "connection reset")] []).
    + reflexivity.
    + reflexivity.
    + reflexivity.
    + reflexivity.
    + reflexivity.
    + reflexivity.
    + constructor; [discriminate | constructor].
  - apply (Hdiscover Samples.wait_for_ip_step Samples.env_agent_fails_in_discovery
             Samples.state_after_create Samples.cluster "vm-7"
             [Err (Remote "connection reset")] "10.0.0.5" [] [Ok Samples.set_A]
             "10.0.0.5" [] 0%nat []).
    + reflexivity.
    + reflexivity.
    + right. exists (Remote "connection reset"). reflexivity.
    + reflexivity.
    + constructor; [right; exists (Remote "connection reset"); reflexivity | constructor].
    + reflexivity.
  - apply (Himport Samples.env_status_fails_once Samples.state_after_create
             [] "disk-1" [] [] 1%nat
             (Remote "[ API Error 502 ] @ api/v4/machine_drives/disk-1 - bad gateway")).
    + reflexivity.
    + reflexivity.
    + lia.
    + intros i Hi. exists "importing". destruct i as [|i]; [split; reflexivity | lia].
    + reflexivity.
  - apply (Hsettle Samples.wait_for_ip_step Samples.env_agent_fails_in_settle
             Samples.state_after_create Samples.cluster "vm-7" Samples.set_A []
             [Samples.set_B] (Remote "connection reset") [SettleTick (Ok Samples.set_B)]).
    + reflexivity.
    + reflexivity.
    + left. split; [reflexivity|]. split; [discriminate | reflexivity].
    + reflexivity.
    + split; [vm_compute; reflexivity | exact I].
  - apply (Hcreate Samples.env_unreachable
             (initial_state (Samples.sample_config true "dhcp4: true")) Samples.cluster
             (Samples.sample_vm true "dhcp4: true") Samples.unreachable).
    + reflexivity.
    + reflexivity.
    + reflexivity.
  - destruct (Hlater Samples.env_second_disk_fails
                (initial_state (Samples.sample_config true "dhcp4: true")) Samples.cluster
                (Samples.sample_vm true "dhcp4: true") "vm-7" 7
                (Errorf "error creating disk '%s': %w"
                   [AStr "data";
                    AErr (Remote "[ API Error 500 ] @ api/v4/machine_drives - out of space")]))
      as (st & tr & Hrun & Herr & _).
    + reflexivity.
    + reflexivity.
    + reflexivity.
    + discriminate.
    + apply (Spec.disk_creation_fails _ _ 1%nat Samples.data_disk).
      split; [reflexivity|]. split; [reflexivity|].
      intros j Hj. exists "disk-1". destruct j; [reflexivity | lia].
    + exists st, tr. split; [exact Hrun | exact Herr].
  - apply (Hcleanup Samples.env_delete_fails Samples.state_after_failed_create
             Samples.cluster "vm-7" (Remote "connection reset")).
    + reflexivity.
    + reflexivity.
    + reflexivity.
    + reflexivity.
Defined.

(** ** The settle loop *)

(** C7 (the code does not do the scenario): a settle tick whose addresses
    differ from the last ones does replace them and restart the settle
    timer. But a tick whose addresses are unchanged ends the loop at once,
    whatever would follow. For the polls [A, A, B, B, B] the step therefore
    stops at the second poll, without a restart, and takes the first
    address of [A] as the host. *)
Theorem C7_settle_ends_at_first_unchanged_tick :
  (forall rest vm discovered last restarts current,
      IPCompare.ipSlicesEqual current last = false ->
      settle_loop (SettleTick (Ok current) :: rest) vm discovered last restarts
      = let '(r, k, tr) := settle_loop rest vm current current (S restarts) in
        (r, k, EvGuestAgentIPs vm :: tr))
  /\ (forall rest vm discovered last restarts current,
      IPCompare.ipSlicesEqual current last = true ->
      settle_loop (SettleTick (Ok current) :: rest) vm discovered last restarts
      = (Some discovered, restarts, [EvGuestAgentIPs vm]))
  /\ StepWaitForIP_Run_restarts Samples.wait_for_ip_step Samples.env_polls_AABBB
       Samples.state_after_create
     = ((Returned ActionContinue,
         <["discovered_ips" := VStrings Samples.set_A]>
           (<["host" := VString "10.0.0.5"]> Samples.state_after_create),
         [EvGuestAgentIPs "vm-7"; EvGuestAgentIPs "vm-7"]),
        0%nat).
Proof.
  split; [|split].
  - intros rest vm discovered last restarts current H. simpl. rewrite H. reflexivity.
  - intros rest vm discovered last restarts current H. simpl. rewrite H. reflexivity.
  - vm_compute. reflexivity.
Qed.

(** ** Size reconciliation after the import *)

Section ResizeFacts.
Import Spec.

Lemma UpdateDiskSize_ok ans key size :
  ans = HttpStatus 200 ->
  UpdateDiskSize ans key size = (None, [EvUpdateDisk key (GB_to_bytes size)]).
Proof. intros ->. reflexivity. Qed.

Lemma UpdateDiskSize_fails ans key size :
  ans <> HttpStatus 200 ->
  exists cause,
    UpdateDiskSize ans key size = (Some cause, [EvUpdateDisk key (GB_to_bytes size)]).
Proof.
  intros Hne. unfold UpdateDiskSize. destruct ans as [e|code]; [eauto|].
  destruct (code =? 200) eqn:Hc; simpl; [|eauto].
  apply Z.eqb_eq in Hc. subst. contradiction.
Qed.

(** The loop does what [reconciles] says, when every key from index [i] on
    has its configuration. *)
Lemma resize_loop_reconciles env configs : forall keys i nr nu,
  length (drop i configs) = length keys ->
  reconciles env (zip keys (drop i configs)) nr nu (resize_loop env configs keys i nr nu).
Proof.
  induction keys as [|key keys IH]; intros i nr nu Hlen.
  - destruct (drop i configs); apply reconciles_nil.
  - assert (Hi : exists config, configs !! i = Some config).
    { apply lookup_lt_is_Some. rewrite length_drop in Hlen. simpl in Hlen. lia. }
    destruct Hi as [config Hi]. rewrite (drop_S _ _ _ Hi) in *.
    simpl in Hlen. injection Hlen as Hlen.
    cbn [resize_loop zip zip_with]. rewrite Hi.
    destruct (env_ReadDisk env nr) as [current|err] eqn:Hread.
    + destruct (Z.quot (DiskSize current) (1024 * 1024 * 1024) =? DiskSize config) eqn:Hsame.
      * apply Z.eqb_eq in Hsame. simpl.
        specialize (IH (S i) (S nr) nu Hlen).
        destruct (resize_loop env configs keys (S i) (S nr) nu) as [r tr].
        eapply reconciles_same; eassumption.
      * apply Z.eqb_neq in Hsame. simpl.
        assert (Hdec : env_UpdateDisk env nu = HttpStatus 200
                       \/ env_UpdateDisk env nu <> HttpStatus 200).
        { destruct (env_UpdateDisk env nu) as [e|code]; [right; discriminate|].
          destruct (Z.eq_dec code 200) as [->|Hc]; [left; reflexivity | right; congruence]. }
        destruct Hdec as [Hok|Hbad].
        -- rewrite (UpdateDiskSize_ok _ _ _ Hok).
           specialize (IH (S i) (S nr) (S nu) Hlen).
           destruct (resize_loop env configs keys (S i) (S nr) (S nu)) as [r tr].
           simpl. eapply reconciles_resize; eassumption.
        -- destruct (UpdateDiskSize_fails _ key (DiskSize config) Hbad) as [cause Hu].
           rewrite Hu. eapply reconciles_resize_fails; try eassumption.
           rewrite Hu. reflexivity.
    + apply reconciles_read_fails. exact Hread.
Qed.

End ResizeFacts.

(** [StepVMCreate.Run] tracks a request model for every key it tracks. *)
Lemma create_disks_tracks_pairs env m disks : forall k,
  let '(_, keys, configs, _) := create_disks env m disks k in
  length configs = length keys.
Proof.
  induction disks as [|d disks IH]; intros k; simpl; [reflexivity|].
  destruct (env_CreateVMDiskWithKey env k) as [key|err]; [|reflexivity].
  specialize (IH (S k)).
  destruct (create_disks env m disks (S k)) as [[[r keys] configs] tr].
  destruct (String.eqb (DiskMedia d) "import"); simpl; lia.
Qed.

(** C8: once the waiter has seen every tracked disk leave the importing
    status, the step reconciles the sizes ([Spec.reconciles]): each tracked
    disk is read, its size is brought to whole GB, the unit of the request,
    and it gets exactly one update to the requested size when the two
    differ and none when they are equal; a read or an update that fails
    ends the pass with an error, and that error halts the step and becomes
    the build error. *)
Theorem C8_size_reconciliation
    (ToLower : string -> string) (env : Env) (state : StateBag)
    (key : string) (keys : list string) (configs : list VMDiskResourceModel)
    (waited : list Event) :
  length configs = length (key :: keys) ->
  state !! "import_disk_keys" = Some (VStrings (key :: keys)) ->
  state !! "import_disk_configs" = Some (VDiskModels configs) ->
  WaitForDiskImportCompletion ToLower env (key :: keys) 20 = (None, waited) ->
  exists r tr,
    CheckAndResizeImportedDisks env configs (key :: keys) = (r, tr)
    /\ Spec.reconciles env (zip (key :: keys) configs) 0 0 (r, tr)
    /\ StepWaitForDiskImport_Run ToLower env state
       = match r with
         | Some err =>
             (Returned ActionHalt,
              <["error" := VError (Errorf "disk resize after import failed: %w" [AErr err])]> state,
              waited ++ tr)
         | None => (Returned ActionContinue, state, waited ++ tr)
         end.
Proof.
  intros Hlen Hk Hc Hw.
  pose proof (resize_loop_reconciles env configs (key :: keys) 0 0 0) as Hrec.
  rewrite drop_0 in Hrec. specialize (Hrec Hlen).
  destruct (resize_loop env configs (key :: keys) 0 0 0) as [r tr] eqn:Hloop.
  assert (Hcheck : CheckAndResizeImportedDisks env configs (key :: keys) = (r, tr)).
  { unfold CheckAndResizeImportedDisks. destruct configs; [discriminate Hlen|].
    simpl. exact Hloop. }
  exists r, tr. split; [exact Hcheck|]. split; [exact Hrec|].
  unfold StepWaitForDiskImport_Run. rewrite Hk. cbn [length Nat.eqb].
  rewrite Hw, Hc. destruct configs; [discriminate Hlen|]. cbn [length Nat.ltb Nat.leb].
  rewrite Hcheck. destruct r; reflexivity.
Qed.

Lemma C8_witness :
  StepWaitForDiskImport_Run Samples.ascii_ToLower Samples.env_import_15GB
    Samples.state_after_create
  = (Returned ActionContinue, Samples.state_after_create,
     [EvSleep (5 * second); EvDiskStatus "disk-1"; EvSleep (5 * second); EvDiskStatus "disk-1";
      EvReadDisk "disk-1"; EvUpdateDisk "disk-1" (20 * Samples.GB)]).
Proof.
  destruct (C8_size_reconciliation Samples.ascii_ToLower Samples.env_import_15GB
              Samples.state_after_create "disk-1" []
              [ {| Machine := 7; Name := "root"; Media := "import"; DiskSize := 20 |} ]
              [EvSleep (5 * second); EvDiskStatus "disk-1";
               EvSleep (5 * second); EvDiskStatus "disk-1"])
    as (r & tr & Hcheck & _ & Hrun).
  - reflexivity.
  - reflexivity.
  - reflexivity.
  - reflexivity.
  - rewrite Hrun. vm_compute in Hcheck. injection Hcheck as <- <-. reflexivity.
Defined.

(** ** The host entry of the build state *)

Section HostFacts.

Variable ToLower : string -> string.
Variable config : Config.

Local Abbreviation hostless := (Spec.hostless config).
Local Abbreviation keeps_hostless := (Spec.keeps_hostless config).

Ltac hostless_cases :=
  repeat (case_match; simpl in * );
  unfold Spec.hostless in *; simplify_map_eq; try done; try (split; done).

Lemma StepVMCreate_keeps_hostless env :
  keeps_hostless {| Run := StepVMCreate_Run env; Cleanup := StepVMCreate_Cleanup env |}.
Proof.
  intros state [Hh Hc]. simpl. split.
  - unfold StepVMCreate_Run, CreateVM. hostless_cases.
  - unfold StepVMCreate_Cleanup. hostless_cases.
Qed.

Lemma StepWaitForDiskImport_keeps_hostless env :
  keeps_hostless {| Run := StepWaitForDiskImport_Run ToLower env;
                    Cleanup := StepWaitForDiskImport_Cleanup |}.
Proof.
  intros state [Hh Hc]. simpl. split.
  - unfold StepWaitForDiskImport_Run. hostless_cases.
  - unfold StepWaitForDiskImport_Cleanup. hostless_cases.
Qed.

Lemma StepPowerOn_keeps_hostless s env :
  extract_from_files (CloudInitFiles (ConfigVmConfig config)) = None ->
  keeps_hostless {| Run := StepPowerOn_Run s env; Cleanup := StepPowerOn_Cleanup |}.
Proof.
  intros Hx state [Hh Hc]. simpl. split.
  - unfold StepPowerOn_Run, extractIPFromCloudInit.
    destruct (state !! "cluster_config") as [[]|]; try (split; assumption).
    destruct (state !! "vm_id") as [[]|]; try (split; assumption);
      [|split; by simplify_map_eq].
    destruct (PowerOnVM env s0) as [[e|] tr0]; [split; by simplify_map_eq|].
    destruct (poll_running (env_RunningPolls env) s0) as [[|] tr1];
      [|split; by simplify_map_eq].
    rewrite lookup_insert_ne by discriminate. rewrite Hc, Hx.
    destruct (GuestAgent (ConfigVmConfig config)); split; by simplify_map_eq.
  - unfold StepPowerOn_Cleanup. hostless_cases.
Qed.

Lemma StepShutdown_keeps_hostless s env :
  keeps_hostless {| Run := StepShutdown_Run s env; Cleanup := StepShutdown_Cleanup |}.
Proof.
  intros state [Hh Hc]. simpl. split.
  - unfold StepShutdown_Run, performForcedShutdown. hostless_cases.
  - unfold StepShutdown_Cleanup. hostless_cases.
Qed.

(** The runner keeps the state hostless when its steps do. *)
Lemma BasicRunner_keeps_hostless steps : forall state,
  Forall keeps_hostless steps ->
  hostless state ->
  hostless (snd (fst (BasicRunner_Run steps state))).
Proof.
  induction steps as [|step steps IH]; intros state Hall Hst; [exact Hst|].
  inversion Hall as [|? ? Hstep Hrest]; subst.
  cbn [BasicRunner_Run].
  destruct (Hstep state Hst) as [Hrun _].
  destruct (Run step state) as [[o1 st1] tr1]. simpl in Hrun.
  destruct o1 as [[|]|].
  - specialize (IH st1 Hrest Hrun).
    destruct (BasicRunner_Run steps st1) as [[o2 st2] tr2]. simpl in IH.
    destruct (Hstep st2 IH) as [_ Hclean].
    destruct (Cleanup step st2) as [[o3 st3] tr3]. exact Hclean.
  - assert (Hmid : hostless (<["halted" := VBool true]> st1)).
    { destruct Hrun. split; by simplify_map_eq. }
    destruct (Hstep _ Hmid) as [_ Hclean].
    destruct (Cleanup step (<["halted" := VBool true]> st1)) as [[o3 st3] tr3]. exact Hclean.
  - destruct (Hstep st1 Hrun) as [_ Hclean].
    destruct (Cleanup step st1) as [[o3 st3] tr3]. exact Hclean.
Qed.

End HostFacts.

(** C9: the pipeline [Builder.Run] assembles has no [StepWaitForIP]. When
    the static extraction finds no address in the cloud-init files, every
    step of the pipeline keeps the state without a host (the two SDK steps
    being assumed not to write the host or the configuration entry
    themselves), so the build ends without one, whether the guest agent is
    enabled or not; and on a state without a host [getHostFunc] returns its
    error. *)
Theorem C9_no_step_provides_a_host
    (ToLower : string -> string)
    (StepConnect : (StateBag -> Outcome (Result string)) -> Step) (StepProvision : Step)
    (config : Config) (env : Env) :
  extract_from_files (CloudInitFiles (ConfigVmConfig config)) = None ->
  (forall host, Spec.keeps_hostless config (StepConnect host)) ->
  Spec.keeps_hostless config StepProvision ->
  ~ In NameStepWaitForIP Builder_Run_steps
  /\ Spec.hostless config (initial_state config)
  /\ (forall name, In name Builder_Run_steps ->
        Spec.keeps_hostless config (step_of ToLower StepConnect StepProvision config env name))
  /\ Spec.hostless config
       (snd (fst (Builder_Run ToLower StepConnect StepProvision config env)))
  /\ (forall state,
        Spec.hostless config state ->
        getHostFunc state
        = Returned (Err (Errorf "no host found in state - IP discovery may have failed" []))).
Proof.
  intros Hx Hconnect Hprovision.
  assert (Hsteps : forall name, In name Builder_Run_steps ->
            Spec.keeps_hostless config
              (step_of ToLower StepConnect StepProvision config env name)).
  { intros name Hin. simpl in Hin.
    destruct Hin as [<-|[<-|[<-|[<-|[<-|[<-|[]]]]]]]; simpl.
    - apply StepVMCreate_keeps_hostless.
    - apply StepWaitForDiskImport_keeps_hostless.
    - apply StepPowerOn_keeps_hostless. exact Hx.
    - apply Hconnect.
    - apply Hprovision.
    - apply StepShutdown_keeps_hostless. }
  assert (Hinit : Spec.hostless config (initial_state config)).
  { split; reflexivity. }
  split; [|split; [exact Hinit|split; [exact Hsteps|split]]].
  - simpl. intros [H|[H|[H|[H|[H|[H|[]]]]]]]; discriminate H.
  - assert (Hrun : Spec.hostless config
               (snd (fst (BasicRunner_Run
                            (map (step_of ToLower StepConnect StepProvision config env)
                                 Builder_Run_steps)
                            (initial_state config))))).
    { apply BasicRunner_keeps_hostless; [|exact Hinit].
      apply Forall_forall. intros step Hin. apply list_elem_of_In in Hin.
      apply in_map_iff in Hin as (name & <- & Hname). apply Hsteps. exact Hname. }
    unfold Builder_Run.
    destruct (BasicRunner_Run _ (initial_state config)) as [[o st] tr].
    simpl in Hrun. destruct o; [|exact Hrun].
    destruct (st !! "error") as [[]|]; exact Hrun.
  - intros state [Hh _]. unfold getHostFunc. rewrite Hh. reflexivity.
Qed.

Lemma C9_witness :
  Spec.hostless (Samples.sample_config true "dhcp4: true")
    (snd (fst (Builder_Run Samples.ascii_ToLower Samples.connect_step Samples.provision_step
                 (Samples.sample_config true "dhcp4: true") Samples.env_all_good))).
Proof.
  apply (C9_no_step_provides_a_host Samples.ascii_ToLower
           Samples.connect_step Samples.provision_step
           (Samples.sample_config true "dhcp4: true") Samples.env_all_good).
  - reflexivity.
  - intros host state [Hh Hc]. unfold Samples.connect_step. simpl.
    split; [|split; assumption].
    destruct (host state) as [[ip|e]|]; simpl; split; by simplify_map_eq.
  - intros state Hst. split; exact Hst.
Defined.

(** ** Static address extraction *)

Section RegexpFacts.
Import Regexp Spec.

Lemma repeat_class_In p : forall max min s s',
  In s' (repeat_class p min max s)
  <-> exists t, s = t ++ s' /\ Forall (fun c => p c = true) t
                /\ (min <= length t <= max)%nat.
Proof.
  induction max as [|max IH]; intros min s s'.
  - simpl. destruct min as [|min]; simpl.
    + split.
      * intros [<-|[]]. exists []. repeat split; auto.
      * intros (t & -> & _ & Hlen). destruct t; [left; reflexivity | simpl in Hlen; lia].
    + split; [intros []|]. intros (t & _ & _ & Hlen). lia.
  - cbn [repeat_class]. rewrite in_app_iff. split.
    + intros [H|H].
      * destruct s as [|c s0]; [destruct H|].
        destruct (p c) eqn:Hc; [|destruct H].
        apply IH in H as (t & -> & Ht & Hlen).
        exists (c :: t). split; [reflexivity|]. split; [constructor; assumption|].
        simpl. lia.
      * destruct min; [|destruct H]. destruct H as [<-|[]].
        exists []. repeat split; auto; simpl; lia.
    + intros (t & -> & Ht & Hlen). destruct t as [|c t].
      * right. destruct min; [left; reflexivity | simpl in Hlen; lia].
      * left. simpl. inversion Ht as [|? ? Hc Ht']; subst. rewrite Hc.
        apply IH. exists t. split; [reflexivity|]. split; [assumption|].
        simpl in Hlen. lia.
Qed.

Lemma star_class_In p : forall s s',
  In s' (star_class p s) <-> exists t, s = t ++ s' /\ Forall (fun c => p c = true) t.
Proof.
  induction s as [|c s IH]; intros s'.
  - simpl. split.
    + intros [<-|[]]. exists []. split; auto.
    + intros (t & Heq & _). destruct t; [left; exact Heq | discriminate].
  - cbn [star_class]. rewrite in_app_iff. split.
    + intros [H|[<-|[]]].
      * destruct (p c) eqn:Hc; [|destruct H].
        apply IH in H as (t & -> & Ht). exists (c :: t). split; [reflexivity|].
        constructor; assumption.
      * exists []. split; auto.
    + intros (t & Heq & Ht). destruct t as [|c' t].
      * right. left. exact Heq.
      * left. simpl in Heq. injection Heq as <- ->.
        inversion Ht as [|? ? Hc Ht']; subst. rewrite Hc. apply IH. eauto.
Qed.

Lemma plus_class_In p s s' :
  In s' (plus_class p s)
  <-> exists t, s = t ++ s' /\ Forall (fun c => p c = true) t /\ t <> [].
Proof.
  unfold plus_class. split.
  - destruct s as [|c s]; [intros []|]. destruct (p c) eqn:Hc; [|intros []].
    intros H. apply star_class_In in H as (t & -> & Ht).
    exists (c :: t). split; [reflexivity|]. split; [constructor; assumption | discriminate].
  - intros (t & -> & Ht & Hne). destruct t as [|c t]; [contradiction|].
    simpl. inversion Ht as [|? ? Hc Ht']; subst. rewrite Hc.
    apply star_class_In. eauto.
Qed.

(** The matcher lists exactly the ways its constructs can match. *)
Lemma run_denotes : forall r b s b' s',
  In (b', s') (run r b s) <-> denotes r b s b' s'.
Proof.
  induction r as [|c|p min max|p|r1 IH1 r2 IH2|r1 IH1 r2 IH2]; intros b s b' s'; simpl.
  - destruct b; simpl.
    + split.
      * intros [H|[]]. injection H as <- <-. auto.
      * intros (_ & -> & ->). left. reflexivity.
    + split; [intros []|]. intros (H & _). discriminate.
  - destruct s as [|c' s0]; simpl.
    + split; [intros []|]. intros [H _]. discriminate.
    + destruct (Ascii.eqb c c') eqn:Hc; simpl.
      * apply Ascii.eqb_eq in Hc. subst c'. split.
        -- intros [H|[]]. injection H as <- <-. auto.
        -- intros [H ->]. injection H as ->. left. reflexivity.
      * apply Ascii.eqb_neq in Hc. split; [intros []|].
        intros [H _]. injection H as -> _. contradiction.
  - rewrite in_map_iff. split.
    + intros (x & H & Hin). injection H as <- ->.
      apply repeat_class_In in Hin as (t & -> & Ht & Hlen). exists t. auto.
    + intros (t & -> & Ht & Hlen & ->). exists s'. split; [reflexivity|].
      apply repeat_class_In. eauto.
  - rewrite in_map_iff. split.
    + intros (x & H & Hin). injection H as <- ->.
      apply plus_class_In in Hin as (t & -> & Ht & Hne). exists t. auto.
    + intros (t & -> & Ht & Hne & ->). exists s'. split; [reflexivity|].
      apply plus_class_In. eauto.
  - rewrite in_app_iff, IH1, IH2. reflexivity.
  - rewrite in_flat_map. split.
    + intros ([bm sm] & H1 & H2). simpl in H2. exists bm, sm.
      split; [apply IH1 | apply IH2]; assumption.
    + intros (bm & sm & H1 & H2). exists (bm, sm).
      split; [apply IH1 | apply IH2]; assumption.
Qed.

Lemma take_consumed (ip rest : list ascii) :
  take (length (ip ++ rest) - length rest) (ip ++ rest) = ip.
Proof.
  rewrite length_app. replace (length ip + length rest - length rest)%nat with (length ip) by lia.
  apply take_app_length.
Qed.

Lemma group_denotes b1 s1 b2 s2 :
  denotes ip_group b1 s1 b2 s2 ->
  exists ip, s1 = ip ++ s2 /\ dotted_quad ip.
Proof.
  intros (ba & sa & (a & -> & Ha & Hla & _) & bb & sb & [Hd1 _] & bc & sc
          & (b & Hb & Hfb & Hlb & _) & bd & sd & [Hd2 _] & be & se
          & (c & Hc & Hfc & Hlc & _) & bf & sf & [Hd3 _] & (d & Hd & Hfd & Hld & _)).
  subst. exists (a ++ dot :: b ++ dot :: c ++ dot :: d). split.
  - repeat (rewrite <- ?app_assoc; simpl). reflexivity.
  - exists a, b, c, d. unfold octet_text. auto 10.
Qed.

Lemma denotes_group b1 ip s2 :
  dotted_quad ip -> exists b2, denotes ip_group b1 (ip ++ s2) b2 s2.
Proof.
  intros (a & b & c & d & -> & [Ha Hla] & [Hb Hlb] & [Hc Hlc] & [Hd Hld]).
  eexists. unfold ip_group, octet. cbn [denotes].
  eexists _, (dot :: b ++ dot :: c ++ dot :: d ++ s2). split.
  { exists a. split; [|split; [exact Ha|split; [exact Hla|reflexivity]]].
    repeat (rewrite <- ?app_assoc; simpl). reflexivity. }
  eexists _, (b ++ dot :: c ++ dot :: d ++ s2). split; [split; reflexivity|].
  eexists _, (dot :: c ++ dot :: d ++ s2). split.
  { exists b. split; [|split; [exact Hb|split; [exact Hlb|reflexivity]]].
    repeat (rewrite <- ?app_assoc; simpl). reflexivity. }
  eexists _, (c ++ dot :: d ++ s2). split; [split; reflexivity|].
  eexists _, (dot :: d ++ s2). split.
  { exists c. split; [|split; [exact Hc|split; [exact Hlc|reflexivity]]].
    repeat (rewrite <- ?app_assoc; simpl). reflexivity. }
  eexists _, (d ++ s2). split; [split; reflexivity|].
  exists d. split; [reflexivity|]. split; [exact Hd|]. split; [exact Hld|reflexivity].
Qed.

(** The pattern matches at the head of [s] with [ip] as its group exactly
    when [ip] in CIDR notation stands there. *)
Lemma submatches_at_cidr b s ip :
  In ip (submatches_at b s) <-> cidr_at b s ip.
Proof.
  unfold submatches_at. rewrite in_flat_map. split.
  - intros ([b1 s1] & H1 & H). apply in_flat_map in H as ([b2 s2] & H2 & H).
    apply in_map_iff in H as ([b3 s3] & <- & H3). cbn [fst snd] in *.
    apply run_denotes in H1. apply run_denotes in H2. apply run_denotes in H3.
    apply group_denotes in H2 as (ip & -> & Hip). rewrite take_consumed.
    destruct H3 as (bm & sm & [-> _] & (t & -> & Ht & Hlt & _)).
    destruct t as [|d t]; [simpl in Hlt; lia|]. inversion Ht as [|? ? Hd _]; subst.
    destruct H1 as [(-> & _ & <-) | (ws & -> & Hws & Hne & _)].
    + exists [], d, (t ++ s3). simpl. auto.
    + exists ws, d, (t ++ s3). split; [reflexivity|]. split; [exact Hws|].
      split; [intros ->; contradiction | auto].
  - intros (ws & d & rest & -> & Hws & Hbegin & Hip & Hd).
    exists (Nat.eqb (length ws) 0, ip ++ slash :: d :: rest). split.
    + apply run_denotes. unfold ip_before. cbn [denotes]. destruct ws as [|w ws].
      * left. rewrite Hbegin by reflexivity. simpl. auto.
      * right. exists (w :: ws). simpl. repeat split; auto; discriminate.
    + apply in_flat_map.
      destruct (denotes_group (Nat.eqb (length ws) 0) ip (slash :: d :: rest) Hip) as [b2' H2'].
      exists (b2', slash :: d :: rest). split; [apply run_denotes; exact H2'|].
      apply in_map_iff. cbn [fst snd].
      exists (false && Nat.eqb (length rest) (length (d :: rest)), rest). split.
      * cbn [fst snd]. rewrite take_consumed. reflexivity.
      * apply run_denotes. unfold ip_after. cbn [denotes].
        exists false, (d :: rest). split; [split; reflexivity|].
        exists [d]. split; [reflexivity|]. split; [constructor; [exact Hd|constructor]|].
        split; [simpl; lia|reflexivity].
Qed.

Lemma digit_not_space c : is_digit c = true -> is_space c = false.
Proof.
  destruct c as [[|] [|] [|] [|] [|] [|] [|] [|]]; vm_compute; intros H;
    first [reflexivity | discriminate H].
Qed.

Lemma digit_not_slash c : is_digit c = true -> c <> slash.
Proof. intros H ->. vm_compute in H. discriminate H. Qed.

Lemma prefix_unique {A : Type} (P : A -> Prop) : forall l1 l2 x y r1 r2,
  Forall P l1 -> Forall P l2 -> ~ P x -> ~ P y ->
  l1 ++ x :: r1 = l2 ++ y :: r2 -> l1 = l2 /\ x = y /\ r1 = r2.
Proof.
  induction l1 as [|a l1 IH]; intros l2 x y r1 r2 H1 H2 Hx Hy Heq.
  - destruct l2 as [|b l2]; simpl in Heq.
    + injection Heq as -> ->. auto.
    + injection Heq as -> _. inversion H2; subst. contradiction.
  - destruct l2 as [|b l2]; simpl in Heq.
    + injection Heq as -> _. inversion H1; subst. contradiction.
    + injection Heq as -> Heq. inversion H1; inversion H2; subst.
      destruct (IH l2 x y r1 r2) as (-> & -> & ->); auto.
Qed.

Lemma octet_text_chars a :
  octet_text a ->
  Forall (fun c => c <> slash) a /\ exists c0 a0, a = c0 :: a0 /\ is_digit c0 = true.
Proof.
  intros [Hd Hl]. split.
  - eapply Forall_impl; [exact Hd|]. intros c Hc. apply digit_not_slash, Hc.
  - destruct a as [|c0 a0]; [simpl in Hl; lia|]. inversion Hd; subst. eauto.
Qed.

Lemma dotted_quad_chars ip :
  dotted_quad ip ->
  Forall (fun c => c <> slash) ip /\ exists c0 ip0, ip = c0 :: ip0 /\ is_digit c0 = true.
Proof.
  intros (a & b & c & d & -> & Ha & Hb & Hc & Hd).
  apply octet_text_chars in Ha as [Fa (c0 & a0 & -> & Hc0)].
  apply octet_text_chars in Hb as [Fb _].
  apply octet_text_chars in Hc as [Fc _].
  apply octet_text_chars in Hd as [Fd _].
  assert (Hdot : dot <> slash) by discriminate.
  split; [|simpl; eauto].
  apply Forall_app. split; [exact Fa|].
  apply Forall_cons. split; [exact Hdot|].
  apply Forall_app. split; [exact Fb|].
  apply Forall_cons. split; [exact Hdot|].
  apply Forall_app. split; [exact Fc|].
  apply Forall_cons. split; [exact Hdot|exact Fd].
Qed.

(** Where an address in CIDR notation stands at the head, it is one
    address. *)
Lemma cidr_at_unique b s ip ip' : cidr_at b s ip -> cidr_at b s ip' -> ip = ip'.
Proof.
  intros (ws & d & rest & -> & Hws & _ & Hip & _)
         (ws' & d' & rest' & Heq & Hws' & _ & Hip' & _).
  destruct (dotted_quad_chars ip Hip) as [Fip (c0 & ip0 & -> & Hc0)].
  destruct (dotted_quad_chars ip' Hip') as [Fip' (c0' & ip0' & -> & Hc0')].
  simpl in Heq.
  apply (prefix_unique (fun c => is_space c = true)) in Heq as (_ & <- & Heq);
    try assumption.
  - inversion Fip as [|? ? _ Fip0]; inversion Fip' as [|? ? _ Fip0']; subst.
    apply (prefix_unique (fun c => c <> slash)) in Heq as (<- & _ & _); auto.
  - rewrite (digit_not_space _ Hc0). discriminate.
  - rewrite (digit_not_space _ Hc0'). discriminate.
Qed.

Lemma head_submatches_at b s ip :
  head (submatches_at b s) = Some ip <-> cidr_at b s ip.
Proof.
  split.
  - intros H. apply submatches_at_cidr.
    destruct (submatches_at b s); [discriminate|]. injection H as ->. left. reflexivity.
  - intros H. pose proof (proj2 (submatches_at_cidr b s ip) H) as Hin.
    destruct (submatches_at b s) as [|g l] eqn:Hl; [destruct Hin|].
    simpl. f_equal. apply (cidr_at_unique b s); [|exact H].
    apply submatches_at_cidr. rewrite Hl. left. reflexivity.
Qed.

Lemma head_submatches_at_None b s :
  head (submatches_at b s) = None <-> forall ip, ~ cidr_at b s ip.
Proof.
  split.
  - intros H ip Hip. apply head_submatches_at in Hip. congruence.
  - intros H. destruct (head (submatches_at b s)) as [g|] eqn:Hg; [|reflexivity].
    apply head_submatches_at in Hg. destruct (H g Hg).
Qed.

(** The search returns the address of the leftmost place where one stands
    in CIDR notation. *)
Lemma find_submatch_first : forall s b ip,
  find_submatch b s = Some ip <-> first_cidr b s ip.
Proof.
  intros s b ip. split.
  - revert b. induction s as [|c s IH]; intros b; cbn [find_submatch];
      destruct (head (submatches_at b _)) as [g|] eqn:Hg.
    + intros [= ->]. apply first_cidr_here, head_submatches_at, Hg.
    + discriminate.
    + intros [= ->]. apply first_cidr_here, head_submatches_at, Hg.
    + intros H. apply first_cidr_later; [|apply IH; exact H].
      apply head_submatches_at_None, Hg.
  - intros H. induction H as [b s ip Hat | b c s ip Hnone _ IH].
    + apply head_submatches_at in Hat.
      destruct s; cbn [find_submatch]; rewrite Hat; reflexivity.
    + apply head_submatches_at_None in Hnone.
      cbn [find_submatch]. rewrite Hnone. exact IH.
Qed.

Lemma find_submatch_None s b :
  find_submatch b s = None <-> forall ip, ~ first_cidr b s ip.
Proof.
  split.
  - intros H ip Hip. apply find_submatch_first in Hip. congruence.
  - intros H. destruct (find_submatch b s) as [g|] eqn:Hg; [|reflexivity].
    apply find_submatch_first in Hg. destruct (H g Hg).
Qed.

Lemma FindStringSubmatch_1_first contents ip :
  FindStringSubmatch_1 contents = Some ip
  <-> first_cidr true (list_ascii_of_string contents) (list_ascii_of_string ip).
Proof.
  unfold FindStringSubmatch_1. split.
  - destruct (find_submatch true (list_ascii_of_string contents)) as [g|] eqn:Hg;
      [|discriminate].
    simpl. intros [= <-]. rewrite list_ascii_of_string_of_list_ascii.
    apply find_submatch_first, Hg.
  - intros H. apply find_submatch_first in H. rewrite H. simpl.
    rewrite string_of_list_ascii_of_string. reflexivity.
Qed.

Lemma FindStringSubmatch_1_None contents :
  FindStringSubmatch_1 contents = None
  <-> forall ip, ~ first_cidr true (list_ascii_of_string contents) ip.
Proof.
  unfold FindStringSubmatch_1.
  destruct (find_submatch true (list_ascii_of_string contents)) as [g|] eqn:Hg; simpl.
  - split; [discriminate|]. intros H. apply find_submatch_first in Hg. destruct (H g Hg).
  - split; [|reflexivity]. intros _. apply find_submatch_None, Hg.
Qed.


(** [extract_from_files] returns the address of the first file named
    [network-config] in which the search finds one. *)
Lemma extract_from_files_first files ip :
  extract_from_files files = Some ip <-> first_static_address files ip.
Proof.
  split.
  - induction files as [|file rest IH]; [discriminate|]. simpl.
    destruct (String.eqb (FileName file) "network-config") eqn:Hname.
    + apply String.eqb_eq in Hname.
      destruct (FindStringSubmatch_1 (Contents file)) as [g|] eqn:Hg.
      * intros [= ->]. apply static_here; [exact Hname|].
        apply FindStringSubmatch_1_first, Hg.
      * intros H. apply static_no_address; [exact Hname| |apply IH, H].
        apply FindStringSubmatch_1_None, Hg.
    + apply String.eqb_neq in Hname. intros H.
      apply static_other_name; [exact Hname | apply IH, H].
  - intros H. induction H as [file rest ip Hname Hip | file rest ip Hname _ IH
                              | file rest ip Hname Hnone _ IH]; simpl.
    + apply String.eqb_eq in Hname. rewrite Hname.
      apply FindStringSubmatch_1_first in Hip. rewrite Hip. reflexivity.
    + apply String.eqb_neq in Hname. rewrite Hname. exact IH.
    + apply String.eqb_eq in Hname. rewrite Hname.
      apply FindStringSubmatch_1_None in Hnone. rewrite Hnone. exact IH.
Qed.



End RegexpFacts.





(** * Further properties of the steps *)

(** ** StepVMCreate *)

Section CreateMore.

(** The request model the step sends for a disk of the spec. *)
Local Abbreviation disk_model m disk :=
  {| Machine := m; Name := DiskName disk; Media := DiskMedia disk;
     DiskSize := DiskDiskSize disk |}.

Local Abbreviation nic_model m nic :=
  {| NicMachine := m; NicName := NicConfigName nic |}.

(** When every disk is created, disk [k + j] getting key [keyf (k + j)]:
    the loop tracks the keys of the disks whose media is ["import"], in
    the order of the spec, each with its request model, and sends one
    request per disk. *)
Lemma create_disks_all_created env m (keyf : nat -> string) disks : forall k,
  (forall j, (j < length disks)%nat -> env_CreateVMDiskWithKey env (k + j) = Ok (keyf (k + j)%nat)) ->
  let created := zip disks (map keyf (seq k (length disks))) in
  let imports := filter (fun dk => DiskMedia (fst dk) = "import") created in
  create_disks env m disks k
  = (None, map snd imports, map (fun dk => disk_model m (fst dk)) imports,
     map (fun disk => EvCreateDisk (disk_model m disk)) disks).
Proof.
  induction disks as [|d disks IH]; intros k Hok; [reflexivity|].
  cbn [create_disks length seq map zip zip_with].
  pose proof (Hok 0%nat ltac:(simpl; lia)) as H0. rewrite Nat.add_0_r in H0. rewrite H0.
  rewrite (IH (S k)).
  2:{ intros j Hj. specialize (Hok (S j) ltac:(simpl; lia)).
      replace (S k + j)%nat with (k + S j)%nat by lia. exact Hok. }
  rewrite filter_cons. cbn [fst].
  destruct (String.eqb (DiskMedia d) "import") eqn:Hm.
  - apply String.eqb_eq in Hm. rewrite decide_True by exact Hm. reflexivity.
  - apply String.eqb_neq in Hm. rewrite decide_False by exact Hm. reflexivity.
Qed.

Lemma create_nics_all_created env m nics : forall k,
  (forall j, (j < length nics)%nat -> env_CreateVMNic env (k + j) = None) ->
  create_nics env m nics k = (None, map (fun nic => EvCreateNic (nic_model m nic)) nics).
Proof.
  induction nics as [|n nics IH]; intros k Hok; [reflexivity|].
  cbn [create_nics map].
  pose proof (Hok 0%nat ltac:(simpl; lia)) as H0. rewrite Nat.add_0_r in H0. rewrite H0.
  rewrite (IH (S k)); [reflexivity|].
  intros j Hj. specialize (Hok (S j) ltac:(simpl; lia)).
  replace (S k + j)%nat with (k + S j)%nat by lia. exact Hok.
Qed.

(** When the VM, every disk and every NIC are created, [StepVMCreate.Run]
    continues after one request for the VM, one per disk and one per NIC,
    in the order of the spec and each bound to the machine id; it stores
    the VM key and the machine id and writes neither an error nor the
    failure flag. *)
Theorem StepVMCreate_Run_all_created
    (env : Env) (state : StateBag) (cc : ClusterConfig) (vm : VmConfig)
    (id : string) (m : Z) (keyf : nat -> string) :
  state !! "cluster_config" = Some (VClusterConfig cc) ->
  state !! "vm_config" = Some (VVmConfig vm) ->
  env_CreateVM env = Ok (id, m) -> m <> 0 ->
  (forall j, (j < length (VmDiskConfigs vm))%nat ->
             env_CreateVMDiskWithKey env j = Ok (keyf j)) ->
  (forall j, (j < length (VmNicConfigs vm))%nat -> env_CreateVMNic env j = None) ->
  exists st,
    StepVMCreate_Run env state
    = (Returned ActionContinue, st,
       EvCreateVM (VmName vm)
       :: map (fun disk => EvCreateDisk (disk_model m disk)) (VmDiskConfigs vm)
       ++ map (fun nic => EvCreateNic (nic_model m nic)) (VmNicConfigs vm))
    /\ st !! "vm_id" = Some (VString id)
    /\ st !! "machine_id" = Some (VInt m)
    /\ st !! "error" = state !! "error"
    /\ st !! "vm_creation_failed" = state !! "vm_creation_failed".
Proof.
  intros Hcc Hvm Hcreate Hm Hdisks Hnics.
  unfold StepVMCreate_Run, CreateVM. rewrite Hcc, Hvm, Hcreate.
  apply Z.eqb_neq in Hm. rewrite Hm.
  rewrite (create_disks_all_created env m keyf (VmDiskConfigs vm) 0 Hdisks).
  rewrite (create_nics_all_created env m (VmNicConfigs vm) 0 Hnics).
  eexists. split; [reflexivity|].
  destruct (0 <? length _)%nat; by simplify_map_eq.
Qed.

(** Import tracking: after such a run, when some disk has media
    ["import"], the state holds the keys of exactly the import disks, in
    the order of the spec, and their request models; when none has, the
    step leaves both entries as they were. *)
Theorem StepVMCreate_Run_tracks_import_disks
    (env : Env) (state : StateBag) (cc : ClusterConfig) (vm : VmConfig)
    (id : string) (m : Z) (keyf : nat -> string) :
  state !! "cluster_config" = Some (VClusterConfig cc) ->
  state !! "vm_config" = Some (VVmConfig vm) ->
  env_CreateVM env = Ok (id, m) -> m <> 0 ->
  (forall j, (j < length (VmDiskConfigs vm))%nat ->
             env_CreateVMDiskWithKey env j = Ok (keyf j)) ->
  (forall j, (j < length (VmNicConfigs vm))%nat -> env_CreateVMNic env j = None) ->
  let created := zip (VmDiskConfigs vm) (map keyf (seq 0 (length (VmDiskConfigs vm)))) in
  let imports := filter (fun dk => DiskMedia (fst dk) = "import") created in
  let st := snd (fst (StepVMCreate_Run env state)) in
  match imports with
  | [] =>
      st !! "import_disk_keys" = state !! "import_disk_keys"
      /\ st !! "import_disk_configs" = state !! "import_disk_configs"
  | _ :: _ =>
      st !! "import_disk_keys" = Some (VStrings (map snd imports))
      /\ st !! "import_disk_configs"
         = Some (VDiskModels (map (fun dk => disk_model m (fst dk)) imports))
  end.
Proof.
  intros Hcc Hvm Hcreate Hm Hdisks Hnics created imports st. subst st.
  unfold StepVMCreate_Run, CreateVM. rewrite Hcc, Hvm, Hcreate.
  apply Z.eqb_neq in Hm. rewrite Hm.
  rewrite (create_disks_all_created env m keyf (VmDiskConfigs vm) 0 Hdisks).
  rewrite (create_nics_all_created env m (VmNicConfigs vm) 0 Hnics).
  fold created. fold imports.
  destruct imports as [|dk imports']; cbn [map length Nat.ltb Nat.leb fst snd].
  - split; by simplify_map_eq.
  - split; by simplify_map_eq.
Qed.

(** When [CreateVM] fails, or leaves the machine id 0, the step halts
    with an error and stores neither the VM key nor the failure flag; on
    a state that had no VM key, the cleanup that follows makes no
    request, so nothing is rolled back. *)
Theorem StepVMCreate_no_rollback_without_machine_id
    (env : Env) (state : StateBag) (cc : ClusterConfig) (vm : VmConfig) :
  state !! "cluster_config" = Some (VClusterConfig cc) ->
  state !! "vm_config" = Some (VVmConfig vm) ->
  state !! "vm_id" = None ->
  ((exists err, env_CreateVM env = Err err) \/ (exists id, env_CreateVM env = Ok (id, 0))) ->
  exists err,
    StepVMCreate_Run env state
    = (Returned ActionHalt, <["error" := VError err]> state, [EvCreateVM (VmName vm)])
    /\ StepVMCreate_Cleanup env (<["halted" := VBool true]> (<["error" := VError err]> state))
       = (Returned tt, <["halted" := VBool true]> (<["error" := VError err]> state), []).
Proof.
  intros Hcc Hvm Hid Hfail.
  assert (Hclean : forall err,
            StepVMCreate_Cleanup env (<["halted" := VBool true]> (<["error" := VError err]> state))
            = (Returned tt, <["halted" := VBool true]> (<["error" := VError err]> state), [])).
  { intros err. unfold StepVMCreate_Cleanup.
    rewrite !lookup_insert_ne by discriminate. rewrite Hid. reflexivity. }
  unfold StepVMCreate_Run, CreateVM. rewrite Hcc, Hvm.
  destruct Hfail as [[err ->] | [id ->]]; eexists; (split; [reflexivity | apply Hclean]).
Qed.

End CreateMore.

Lemma StepVMCreate_Run_all_created_witness :
  exists st,
    StepVMCreate_Run Samples.env_all_good
      (initial_state (Samples.sample_config true "dhcp4: true"))
    = (Returned ActionContinue, st,
       [EvCreateVM "golden";
        EvCreateDisk {| Machine := 7; Name := "root"; Media := "import"; DiskSize := 20 |};
        EvCreateDisk {| Machine := 7; Name := "data"; Media := "disk"; DiskSize := 50 |};
        EvCreateNic {| NicMachine := 7; NicName := "nic0" |}])
    /\ st !! "vm_id" = Some (VString "vm-7").
Proof.
  destruct (StepVMCreate_Run_all_created Samples.env_all_good
              (initial_state (Samples.sample_config true "dhcp4: true"))
              Samples.cluster (Samples.sample_vm true "dhcp4: true") "vm-7" 7
              (fun i => match i with O => "disk-1" | _ => "disk-2" end))
    as (st & Hrun & Hid & _).
  - reflexivity.
  - reflexivity.
  - reflexivity.
  - discriminate.
  - intros j _. reflexivity.
  - intros j _. reflexivity.
  - exists st. split; [exact Hrun | exact Hid].
Defined.

Lemma StepVMCreate_Run_tracks_import_disks_witness :
  snd (fst (StepVMCreate_Run Samples.env_all_good
              (initial_state (Samples.sample_config true "dhcp4: true"))))
    !! "import_disk_keys" = Some (VStrings ["disk-1"]).
Proof.
  apply (StepVMCreate_Run_tracks_import_disks Samples.env_all_good
           (initial_state (Samples.sample_config true "dhcp4: true"))
           Samples.cluster (Samples.sample_vm true "dhcp4: true") "vm-7" 7
           (fun i => match i with O => "disk-1" | _ => "disk-2" end)).
  - reflexivity.
  - reflexivity.
  - reflexivity.
  - discriminate.
  - intros j _. reflexivity.
  - intros j _. reflexivity.
Defined.

Lemma StepVMCreate_no_rollback_without_machine_id_witness :
  exists err,
    StepVMCreate_Run Samples.env_unreachable
      (initial_state (Samples.sample_config true "dhcp4: true"))
    = (Returned ActionHalt,
       <["error" := VError err]> (initial_state (Samples.sample_config true "dhcp4: true")),
       [EvCreateVM "golden"]).
Proof.
  destruct (StepVMCreate_no_rollback_without_machine_id Samples.env_unreachable
              (initial_state (Samples.sample_config true "dhcp4: true"))
              Samples.cluster (Samples.sample_vm true "dhcp4: true"))
    as (err & Hrun & _).
  - reflexivity.
  - reflexivity.
  - reflexivity.
  - left. exists Samples.unreachable. reflexivity.
  - exists err. exact Hrun.
Defined.

(** ** The disk-import waiter and the size reconciliation *)

Section ImportMore.
Import Measure.
Variable ToLower : string -> string.

Lemma slept_app tr1 tr2 : slept (tr1 ++ tr2) = slept tr1 + slept tr2.
Proof.
  induction tr1 as [|e tr1 IH]; [reflexivity|]. destruct e; simpl; rewrite IH; lia.
Qed.

Lemma wait_one_disk_bounded env key max : forall remaining n,
  let tr := snd (wait_one_disk ToLower env key max remaining n) in
  (status_requests tr <= remaining)%nat
  /\ 0 <= slept tr
  /\ slept tr + 5 * second <= 5 * second * Z.of_nat remaining \/ remaining = O /\ tr = [].
Proof.
  induction remaining as [|r IH]; intros n; [right; split; reflexivity|].
  left. cbn [wait_one_disk].
  assert (Hsec : 0 < second) by reflexivity.
  destruct (env_CheckDiskImportStatus env n) as [status|err]; cbn [snd status_requests slept].
  2:{ split; [lia|]. split; lia. }
  destruct (negb (String.eqb (ToLower status) "importing")); cbn [snd status_requests slept].
  { split; [lia|]. split; lia. }
  destruct r as [|r]; cbn [snd status_requests slept].
  { split; [lia|]. split; lia. }
  specialize (IH (S n)).
  destruct (wait_one_disk ToLower env key max (S r) (S n)) as [[res n'] tr'].
  cbn [snd status_requests slept] in *.
  destruct IH as [(H1 & H2 & H3) | [H _]]; [|discriminate H].
  split; [lia|]. split; lia.
Qed.

Lemma wait_disks_bounded env : forall keys max n,
  let tr := snd (wait_disks ToLower env keys max n) in
  (status_requests tr <= Z.to_nat max * length keys)%nat
  /\ 0 <= slept tr
  /\ slept tr <= 5 * second * Z.of_nat (Z.to_nat max * length keys).
Proof.
  induction keys as [|key keys IH]; intros max n.
  - simpl. rewrite Nat.mul_0_r. split; [lia|]. split; simpl; lia.
  - cbn [wait_disks length].
    pose proof (wait_one_disk_bounded env key max (Z.to_nat max) n) as H1.
    assert (Hsec : 0 < second) by reflexivity.
    destruct (wait_one_disk ToLower env key max (Z.to_nat max) n) as [[res n'] tr1].
    cbn [snd] in H1.
    assert (H1' : (status_requests tr1 <= Z.to_nat max)%nat /\ 0 <= slept tr1
                  /\ slept tr1 <= 5 * second * Z.of_nat (Z.to_nat max)).
    { destruct H1 as [(A & B & C) | [A ->]]; [split; [exact A|]; split; lia|].
      simpl. split; [lia|]. split; lia. }
    destruct H1' as (A & B & C).
    destruct res as [err|].
    + cbn [snd]. split; [lia|]. split; [exact B|]. nia.
    + specialize (IH max n').
      destruct (wait_disks ToLower env keys max n') as [r tr2]. cbn [snd] in *.
      rewrite status_requests_app, slept_app.
      destruct IH as (A2 & B2 & C2). split; [lia|]. split; [lia|]. nia.
Qed.

(** Whatever the remote side answers, waiting for [n] disks with a bound of
    [maxRetries] attempts makes at most [maxRetries * n] status requests
    and sleeps at most 5 s plus 5 s per allowed attempt: the wait always
    ends. *)
Theorem WaitForDiskImportCompletion_bounded
    (env : Env) (keys : list string) (maxRetries : Z) :
  let tr := snd (WaitForDiskImportCompletion ToLower env keys maxRetries) in
  (status_requests tr <= Z.to_nat maxRetries * length keys)%nat
  /\ 0 <= slept tr
  /\ slept tr <= 5 * second * (1 + Z.of_nat (Z.to_nat maxRetries * length keys)).
Proof.
  unfold WaitForDiskImportCompletion.
  assert (Hsec : 0 < second) by reflexivity.
  destruct keys as [|key keys].
  - simpl. split; [lia|]. split; [lia|]. nia.
  - pose proof (wait_disks_bounded env (key :: keys) maxRetries 0) as H.
    destruct (wait_disks ToLower env (key :: keys) maxRetries 0) as [r tr].
    cbn [snd status_requests slept] in *. destruct H as (A & B & C).
    split; [exact A|]. split; lia.
Qed.

(** With a bound that is zero or negative the retry loop is never
    entered: after the initial 5 s the waiter reports every disk as done
    without one status request. Without disks it returns at once and does
    not sleep. *)
Theorem WaitForDiskImportCompletion_without_attempts
    (env : Env) (key : string) (keys : list string) (maxRetries : Z) :
  maxRetries <= 0 ->
  WaitForDiskImportCompletion ToLower env (key :: keys) maxRetries
  = (None, [EvSleep (5 * second)])
  /\ WaitForDiskImportCompletion ToLower env [] maxRetries = (None, []).
Proof.
  intros Hmax. split; [|reflexivity].
  assert (Hloop : forall ks n, wait_disks ToLower env ks maxRetries n = (None, [])).
  { induction ks as [|k ks IH]; intros n; [reflexivity|].
    cbn [wait_disks]. replace (Z.to_nat maxRetries) with O by lia.
    cbn [wait_one_disk]. rewrite IH. reflexivity. }
  unfold WaitForDiskImportCompletion. rewrite Hloop. reflexivity.
Qed.

End ImportMore.

Lemma WaitForDiskImportCompletion_without_attempts_witness :
  WaitForDiskImportCompletion Samples.ascii_ToLower Samples.env_unreachable ["disk-1"] 0
  = (None, [EvSleep (5 * second)]).
Proof.
  apply (WaitForDiskImportCompletion_without_attempts
           Samples.ascii_ToLower Samples.env_unreachable "disk-1" [] 0).
  lia.
Defined.

Section ResizeMore.

Lemma resize_loop_past_configs env configs : forall keys i nr nu,
  (length configs <= i)%nat ->
  resize_loop env configs keys i nr nu = (None, []).
Proof.
  induction keys as [|key keys IH]; intros i nr nu Hi; [reflexivity|].
  cbn [resize_loop]. rewrite (lookup_ge_None_2 configs i Hi). apply IH. lia.
Qed.

Lemma resize_loop_take env configs : forall keys i nr nu,
  resize_loop env configs keys i nr nu
  = resize_loop env configs (take (length configs - i) keys) i nr nu.
Proof.
  induction keys as [|key keys IH]; intros i nr nu.
  - rewrite take_nil. reflexivity.
  - destruct (configs !! i) as [config|] eqn:Hi.
    + pose proof (lookup_lt_Some _ _ _ Hi) as Hlt.
      replace (length configs - i)%nat with (S (length configs - S i)) by lia.
      cbn [take resize_loop]. rewrite Hi.
      destruct (env_ReadDisk env nr) as [current|err]; [|reflexivity].
      destruct (negb (Z.quot (DiskSize current) (1024 * 1024 * 1024) =? DiskSize config)).
      * destruct (UpdateDiskSize (env_UpdateDisk env nu) key (DiskSize config)) as [[e|] tr];
          [reflexivity|].
        rewrite (IH (S i) (S nr) (S nu)). reflexivity.
      * rewrite (IH (S i) (S nr) nu). reflexivity.
    + pose proof (lookup_ge_None_1 _ _ Hi) as Hge.
      replace (length configs - i)%nat with O by lia.
      rewrite take_0. rewrite resize_loop_past_configs by exact Hge. reflexivity.
Qed.

(** Keys beyond the tracked configurations are passed over: the pass
    reads and resizes only the first [length diskConfigs] keys. *)
Theorem CheckAndResizeImportedDisks_ignores_extra_keys
    (env : Env) (diskConfigs : list VMDiskResourceModel) (diskKeys : list string) :
  CheckAndResizeImportedDisks env diskConfigs diskKeys
  = CheckAndResizeImportedDisks env diskConfigs (take (length diskConfigs) diskKeys).
Proof.
  unfold CheckAndResizeImportedDisks.
  destruct diskConfigs as [|config configs]; [reflexivity|].
  destruct diskKeys as [|key keys]; [reflexivity|].
  cbn [length Nat.eqb orb take].
  rewrite (resize_loop_take env (config :: configs) (key :: keys) 0 0 0).
  rewrite Nat.sub_0_r. reflexivity.
Qed.

Lemma resize_loop_nothing_to_do env configs : forall keys i nu,
  length (drop i configs) = length keys ->
  (forall j config, configs !! j = Some config ->
     exists current, env_ReadDisk env j = Ok current
       /\ Z.quot (DiskSize current) (1024 * 1024 * 1024) = DiskSize config) ->
  resize_loop env configs keys i i nu = (None, map EvReadDisk keys).
Proof.
  induction keys as [|key keys IH]; intros i nu Hlen Hsame; [reflexivity|].
  assert (Hi : exists config, configs !! i = Some config).
  { apply lookup_lt_is_Some. rewrite length_drop in Hlen. simpl in Hlen. lia. }
  destruct Hi as [config Hi]. rewrite (drop_S _ _ _ Hi) in Hlen.
  simpl in Hlen. injection Hlen as Hlen.
  cbn [resize_loop map]. rewrite Hi.
  destruct (Hsame i config Hi) as (current & -> & Heq).
  apply Z.eqb_eq in Heq. rewrite Heq. cbn [negb].
  rewrite (IH (S i) nu Hlen Hsame). reflexivity.
Qed.

(** A second pass finds nothing to do: when every tracked disk reports,
    in whole GB, the size that was requested, the pass reads each disk
    once, sends no update, and succeeds. *)
Theorem CheckAndResizeImportedDisks_recheck
    (env : Env) (diskConfigs : list VMDiskResourceModel) (diskKeys : list string) :
  length diskConfigs = length diskKeys ->
  (forall j config, diskConfigs !! j = Some config ->
     exists current, env_ReadDisk env j = Ok current
       /\ Z.quot (DiskSize current) (1024 * 1024 * 1024) = DiskSize config) ->
  CheckAndResizeImportedDisks env diskConfigs diskKeys = (None, map EvReadDisk diskKeys).
Proof.
  intros Hlen Hsame. unfold CheckAndResizeImportedDisks.
  destruct diskConfigs as [|config configs].
  { destruct diskKeys; [reflexivity | discriminate Hlen]. }
  destruct diskKeys as [|key keys]; [discriminate Hlen|].
  cbn [length Nat.eqb orb].
  apply resize_loop_nothing_to_do; [rewrite drop_0; exact Hlen | exact Hsame].
Qed.

Lemma wrap64_small z : - 2 ^ 63 <= z < 2 ^ 63 -> wrap64 z = z.
Proof. intros H. unfold wrap64. rewrite Z.mod_small by lia. lia. Qed.

(** The size an update carries is the requested number of GB in bytes as
    long as the request is below 2^33 GB in absolute value; at 2^33 GB
    the [int64] product wraps around to a negative size. *)
Theorem GB_to_bytes_exact (requestedSizeGB : Z) :
  - 2 ^ 33 <= requestedSizeGB < 2 ^ 33 ->
  GB_to_bytes requestedSizeGB = requestedSizeGB * (1024 * 1024 * 1024)
  /\ GB_to_bytes (2 ^ 33) = - 2 ^ 63.
Proof.
  intros H. split; [|reflexivity].
  unfold GB_to_bytes. rewrite (wrap64_small (requestedSizeGB * 1024)) by lia.
  rewrite (wrap64_small (requestedSizeGB * 1024 * 1024)) by lia.
  rewrite wrap64_small by lia. lia.
Qed.

End ResizeMore.

Lemma CheckAndResizeImportedDisks_recheck_witness :
  CheckAndResizeImportedDisks Samples.env_all_good
    [ {| Machine := 7; Name := "root"; Media := "import"; DiskSize := 20 |} ] ["disk-1"]
  = (None, [EvReadDisk "disk-1"]).
Proof.
  apply (CheckAndResizeImportedDisks_recheck Samples.env_all_good
           [ {| Machine := 7; Name := "root"; Media := "import"; DiskSize := 20 |} ]
           ["disk-1"]).
  - reflexivity.
  - intros j config Hj. exists (Samples.disk_of_size (20 * Samples.GB)).
    split; [reflexivity|]. destruct j; [|discriminate Hj].
    injection Hj as <-. reflexivity.
Defined.

Lemma GB_to_bytes_exact_witness : GB_to_bytes 20 = 20 * (1024 * 1024 * 1024).
Proof. apply (GB_to_bytes_exact 20). lia. Defined.

Section NoImportNoWait.

Lemma filter_imports_none (disks : list VmDiskConfig) : forall (keys : list string),
  Forall (fun disk => DiskMedia disk <> "import") disks ->
  filter (fun dk : VmDiskConfig * string => DiskMedia (fst dk) = "import") (zip disks keys) = [].
Proof.
  induction disks as [|d disks IH]; intros keys Hall; [reflexivity|].
  inversion Hall as [|? ? Hd Hrest]; subst.
  destruct keys as [|k keys]; [reflexivity|].
  cbn [zip zip_with]. rewrite filter_cons_False by exact Hd. apply IH, Hrest.
Qed.

(** When no disk of the spec has media ["import"], a successful
    [StepVMCreate.Run] tracks nothing, and [StepWaitForDiskImport.Run]
    after it continues at once: no sleep, no request, state untouched. *)
Theorem no_import_disk_no_wait
    (ToLower : string -> string) (env env' : Env) (state : StateBag)
    (cc : ClusterConfig) (vm : VmConfig) (id : string) (m : Z) (keyf : nat -> string) :
  state !! "cluster_config" = Some (VClusterConfig cc) ->
  state !! "vm_config" = Some (VVmConfig vm) ->
  state !! "import_disk_keys" = None ->
  env_CreateVM env = Ok (id, m) -> m <> 0 ->
  (forall j, (j < length (VmDiskConfigs vm))%nat ->
             env_CreateVMDiskWithKey env j = Ok (keyf j)) ->
  (forall j, (j < length (VmNicConfigs vm))%nat -> env_CreateVMNic env j = None) ->
  Forall (fun disk => DiskMedia disk <> "import") (VmDiskConfigs vm) ->
  exists st tr,
    StepVMCreate_Run env state = (Returned ActionContinue, st, tr)
    /\ StepWaitForDiskImport_Run ToLower env' st = (Returned ActionContinue, st, []).
Proof.
  intros Hcc Hvm Hkeys Hcreate Hm Hdisks Hnics Hnone.
  unfold StepVMCreate_Run, CreateVM. rewrite Hcc, Hvm, Hcreate.
  apply Z.eqb_neq in Hm. rewrite Hm.
  rewrite (create_disks_all_created env m keyf (VmDiskConfigs vm) 0 Hdisks).
  rewrite (create_nics_all_created env m (VmNicConfigs vm) 0 Hnics).
  rewrite (filter_imports_none _ _ Hnone). cbn [map length Nat.ltb Nat.leb].
  eexists _, _. split; [reflexivity|].
  unfold StepWaitForDiskImport_Run.
  rewrite !lookup_insert_ne by discriminate. rewrite Hkeys. reflexivity.
Qed.

End NoImportNoWait.

Lemma no_import_disk_no_wait_witness :
  exists st tr,
    StepVMCreate_Run Samples.env_all_good
      (<["vm_config" := VVmConfig
           {| VmMachine := 0; VmName := "plain"; GuestAgent := true;
              VmDiskConfigs := [Samples.data_disk]; VmNicConfigs := [];
              CloudInitFiles := [] |}]>
         (<["cluster_config" := VClusterConfig Samples.cluster]> ∅))
    = (Returned ActionContinue, st, tr)
    /\ StepWaitForDiskImport_Run Samples.ascii_ToLower Samples.env_unreachable st
       = (Returned ActionContinue, st, []).
Proof.
  apply (no_import_disk_no_wait Samples.ascii_ToLower Samples.env_all_good
           Samples.env_unreachable _ Samples.cluster
           {| VmMachine := 0; VmName := "plain"; GuestAgent := true;
              VmDiskConfigs := [Samples.data_disk]; VmNicConfigs := [];
              CloudInitFiles := [] |}
           "vm-7" 7 (fun i => match i with O => "disk-1" | _ => "disk-2" end)).
  - reflexivity.
  - reflexivity.
  - reflexivity.
  - reflexivity.
  - discriminate.
  - intros j _. reflexivity.
  - intros j _. reflexivity.
  - repeat constructor. discriminate.
Defined.

(** ** StepPowerOn *)

Section PowerOnMore.
Import Spec.

Lemma first_cidr_contains b s ip : first_cidr b s ip -> contains_cidr s ip.
Proof.
  induction 1 as [b s ip (ws & d & rest & -> & _ & _ & Hip & Hd) | b c s ip _ _ IH].
  - exists ws, d, rest. auto.
  - destruct IH as (pre & d & rest & -> & Hip & Hd).
    exists (c :: pre), d, rest. auto.
Qed.

Lemma extract_from_files_by_name files :
  extract_from_files files
  = extract_from_files (filter (fun file => FileName file = "network-config") files).
Proof.
  induction files as [|file rest IH]; [reflexivity|].
  cbn [extract_from_files]. rewrite filter_cons.
  destruct (String.eqb (FileName file) "network-config") eqn:Hname.
  - apply String.eqb_eq in Hname. rewrite decide_True by exact Hname.
    cbn [extract_from_files]. apply String.eqb_eq in Hname. rewrite Hname, IH. reflexivity.
  - apply String.eqb_neq in Hname. rewrite decide_False by exact Hname. exact IH.
Qed.

(** Whatever [extractIPFromCloudInit] returns stands, in CIDR notation,
    in the contents of a file named exactly [network-config]: four groups
    of one to three digits (the groups are not range-checked) before a
    slash and a digit. Files with other names play no part. *)
Theorem extract_from_files_sound (files : list CloudInitFile) (ip : string) :
  extract_from_files files = Some ip ->
  (exists file,
      In file files /\ FileName file = "network-config"
      /\ contains_cidr (list_ascii_of_string (Contents file)) (list_ascii_of_string ip))
  /\ extract_from_files (filter (fun file => FileName file = "network-config") files)
     = Some ip.
Proof.
  intros H. split; [|rewrite <- extract_from_files_by_name; exact H].
  apply extract_from_files_first in H.
  induction H as [file rest ip Hname Hip | file rest ip Hname _ IH
                  | file rest ip Hname Hnone _ IH].
  - exists file. split; [left; reflexivity|]. split; [exact Hname|].
    apply (first_cidr_contains true), Hip.
  - destruct IH as (f & Hin & Hf). exists f. split; [right; exact Hin | exact Hf].
  - destruct IH as (f & Hin & Hf). exists f. split; [right; exact Hin | exact Hf].
Qed.


End PowerOnMore.

Lemma extract_from_files_sound_witness :
  exists file,
    In file (CloudInitFiles (Samples.sample_vm true Samples.block_style))
    /\ FileName file = "network-config"
    /\ Spec.contains_cidr (list_ascii_of_string (Contents file))
                          (list_ascii_of_string "10.0.0.5").
Proof.
  apply (extract_from_files_sound
           (CloudInitFiles (Samples.sample_vm true Samples.block_style)) "10.0.0.5").
  vm_compute. reflexivity.
Defined.


Section PowerOnFailures.

(** [StepPowerOn.Run] without a VM key in the state halts with an error
    and calls nothing. When the power-on request is refused (an error, or
    a status other than 201) it halts after that one request: it does not
    sleep, does not poll, and does not set ["vm_power_on_failed"]. *)
Theorem StepPowerOn_Run_cannot_start
    (s : StepPowerOn) (env : Env) (state : StateBag) (cc : ClusterConfig) :
  state !! "cluster_config" = Some (VClusterConfig cc) ->
  (state !! "vm_id" = None ->
   StepPowerOn_Run s env state
   = (Returned ActionHalt,
      <["error" := VError (Errorf "vm_id (key) not available in build state" [])]> state,
      []))
  /\ (forall key,
      state !! "vm_id" = Some (VString key) ->
      env_PowerOn env <> HttpStatus 201 ->
      exists cause,
        StepPowerOn_Run s env state
        = (Returned ActionHalt,
           <["error" := VError (Errorf "failed to power on VM: %w" [AErr cause])]> state,
           [EvPowerAction key "poweron"])).
Proof.
  intros Hcc. split.
  - intros Hid. unfold StepPowerOn_Run. rewrite Hcc, Hid. reflexivity.
  - intros key Hid Hrefused. unfold StepPowerOn_Run, PowerOnVM, changeVMPowerState.
    rewrite Hcc, Hid.
    destruct (env_PowerOn env) as [err|code]; [eexists; reflexivity|].
    destruct (code =? 201) eqn:Hc; cbn [negb]; [|eexists; reflexivity].
    apply Z.eqb_eq in Hc. subst. contradiction.
Qed.

(** After a [StepPowerOn.Run] that continues on a state without a host,
    [getHostFunc] returns exactly the static address of the cloud-init
    files, and its no-host error when there is none (the guest agent
    being enabled): the step is the only source of the host. *)
Theorem StepPowerOn_Run_then_getHostFunc
    (s : StepPowerOn) (env : Env) (state st : StateBag) (config : Config) (tr : list Event) :
  state !! "host" = None ->
  state !! "config" = Some (VConfig config) ->
  StepPowerOn_Run s env state = (Returned ActionContinue, st, tr) ->
  getHostFunc st
  = Returned
      match extract_from_files (CloudInitFiles (ConfigVmConfig config)) with
      | Some ip => Ok ip
      | None => Err (Errorf "no host found in state - IP discovery may have failed" [])
      end
  /\ (extract_from_files (CloudInitFiles (ConfigVmConfig config)) = None ->
      GuestAgent (ConfigVmConfig config) = true).
Proof.
  intros Hhost Hcfg. unfold StepPowerOn_Run, extractIPFromCloudInit.
  destruct (state !! "cluster_config") as [[]|]; try discriminate.
  destruct (state !! "vm_id") as [[]|]; try discriminate.
  destruct (PowerOnVM env s0) as [[e|] tr0]; [discriminate|].
  destruct (poll_running (env_RunningPolls env) s0) as [[|] tr1]; [|discriminate].
  rewrite lookup_insert_ne by discriminate. rewrite Hcfg.
  destruct (extract_from_files (CloudInitFiles (ConfigVmConfig config))) as [ip|].
  - intros [= <- _]. split; [|discriminate].
    unfold getHostFunc. by simplify_map_eq.
  - destruct (GuestAgent (ConfigVmConfig config)); [|discriminate].
    intros [= <- _]. split; [|reflexivity].
    unfold getHostFunc. by simplify_map_eq.
Qed.

End PowerOnFailures.

Lemma StepPowerOn_Run_cannot_start_witness :
  StepPowerOn_Run Samples.power_on_step Samples.env_unreachable
    (<["cluster_config" := VClusterConfig Samples.cluster]> ∅)
  = (Returned ActionHalt,
     <["error" := VError (Errorf "vm_id (key) not available in build state" [])]>
       (<["cluster_config" := VClusterConfig Samples.cluster]> ∅),
     []).
Proof.
  apply (StepPowerOn_Run_cannot_start Samples.power_on_step Samples.env_unreachable
           (<["cluster_config" := VClusterConfig Samples.cluster]> ∅) Samples.cluster).
  - reflexivity.
  - reflexivity.
Defined.

Lemma StepPowerOn_Run_then_getHostFunc_witness :
  getHostFunc
    (<["discovered_ips" := VStrings ["10.0.0.5"]]>
       (<["host" := VString "10.0.0.5"]>
          (<["vm_powered_on" := VBool true]>
             (Samples.state_before_power_on
                (Samples.sample_config false Samples.block_style)))))
  = Returned (Ok "10.0.0.5").
Proof.
  apply (StepPowerOn_Run_then_getHostFunc Samples.power_on_step Samples.env_all_good
           (Samples.state_before_power_on (Samples.sample_config false Samples.block_style))
           _ (Samples.sample_config false Samples.block_style)
           [EvPowerAction "vm-7" "poweron"; EvSleep (10 * second);
            EvIsVMRunning "vm-7"; EvIsVMRunning "vm-7"]).
  - reflexivity.
  - reflexivity.
  - vm_compute. reflexivity.
Defined.

(** ** StepWaitForIP *)

Section WaitForIPMore.
Import Measure.

Lemma agent_queries_app tr1 tr2 :
  agent_queries (tr1 ++ tr2) = (agent_queries tr1 + agent_queries tr2)%nat.
Proof.
  induction tr1 as [|e tr1 IH]; [reflexivity|]. destruct e; simpl; rewrite IH; reflexivity.
Qed.

Lemma discover_loop_found ticks vm ips tr :
  discover_loop ticks vm = (Some ips, tr) -> ips <> [] /\ In (Ok ips) ticks.
Proof.
  revert tr. induction ticks as [|answer rest IH]; intros tr; [discriminate|].
  cbn [discover_loop].
  destruct answer as [[|ip l]|e].
  - destruct (discover_loop rest vm) as [r tr'] eqn:Hd. intros [= -> _].
    destruct (IH _ eq_refl) as [H1 H2]. split; [exact H1 | right; exact H2].
  - intros [= <- _]. split; [discriminate | left; reflexivity].
  - destruct (discover_loop rest vm) as [r tr'] eqn:Hd. intros [= -> _].
    destruct (IH _ eq_refl) as [H1 H2]. split; [exact H1 | right; exact H2].
Qed.

Lemma discover_loop_nothing ticks vm :
  Forall (fun answer => answer = Ok [] \/ exists err, answer = Err err) ticks ->
  discover_loop ticks vm = (None, repeat (EvGuestAgentIPs vm) (length ticks)).
Proof.
  induction 1 as [|answer rest Ha _ IH]; [reflexivity|].
  cbn [discover_loop length repeat]. rewrite IH.
  destruct Ha as [->|[err ->]]; reflexivity.
Qed.

Lemma settle_loop_result : forall events vm discovered last restarts r n tr,
  settle_loop events vm discovered last restarts = (r, n, tr) ->
  (restarts <= n)%nat
  /\ length tr = agent_queries tr
  /\ (agent_queries tr <= (n - restarts) + 1)%nat
  /\ (length tr <= length events)%nat
  /\ (forall ips, r = Some ips ->
        ips = discovered \/ In (SettleTick (Ok ips)) events).
Proof.
  induction events as [|event rest IH]; intros vm discovered last restarts r n tr.
  - intros [= <- <- <-]. simpl. repeat split; try lia. intros ips [= <-]. left. reflexivity.
  - cbn [settle_loop]. destruct event as [|[current|err]].
    + intros [= <- <- <-]. simpl. repeat split; try lia. intros ips [= <-]. left. reflexivity.
    + destruct (negb (IPCompare.ipSlicesEqual current last)).
      * destruct (settle_loop rest vm current current (S restarts)) as [[r' n'] tr'] eqn:Hs.
        intros [= <- <- <-].
        destruct (IH _ _ _ _ _ _ _ Hs) as (H1 & H2 & H3 & H4 & H5).
        cbn [length agent_queries]. repeat split; try lia.
        intros ips Hips. destruct (H5 ips Hips) as [->|Hin].
        -- right. left. reflexivity.
        -- right. right. exact Hin.
      * intros [= <- <- <-]. simpl. repeat split; try lia.
        intros ips [= <-]. left. reflexivity.
    + intros [= <- <- <-]. simpl. repeat split; try lia. intros ips H. discriminate H.
Qed.

(** The settle loop never asks twice without a change of addresses in
    between: it makes at most one query more than it restarts, and at
    most one per event it receives. *)
Theorem settle_loop_queries_bounded
    (events : list SettleEvent) (vm : string) (discovered last : list string) (restarts : nat) :
  let '(r, n, tr) := settle_loop events vm discovered last restarts in
  (restarts <= n)%nat
  /\ length tr = agent_queries tr
  /\ (agent_queries tr <= (n - restarts) + 1)%nat
  /\ (length tr <= length events)%nat.
Proof.
  destruct (settle_loop events vm discovered last restarts) as [[r n] tr] eqn:Hs.
  destruct (settle_loop_result _ _ _ _ _ _ _ _ Hs) as (H1 & H2 & H3 & H4 & _).
  auto.
Qed.

(** When [StepWaitForIP.Run] continues, the state holds a non-empty list
    of discovered addresses that the guest agent reported in one of the
    step's queries, the host is the first address of that list, and
    [getHostFunc] returns it. *)
Theorem StepWaitForIP_Run_continue
    (s : StepWaitForIP) (env : Env) (state st : StateBag) (tr : list Event) :
  StepWaitForIP_Run s env state = (Returned ActionContinue, st, tr) ->
  exists ip others,
    st = <["discovered_ips" := VStrings (ip :: others)]> (<["host" := VString ip]> state)
    /\ getHostFunc st = Returned (Ok ip)
    /\ (env_GuestAgentFirst env = Ok (ip :: others)
        \/ In (Ok (ip :: others)) (env_GuestAgentTicks env)
        \/ In (SettleTick (Ok (ip :: others))) (env_SettleEvents env)).
Proof.
  unfold StepWaitForIP_Run, StepWaitForIP_Run_restarts.
  destruct (state !! "cluster_config") as [[]|]; try discriminate.
  destruct (state !! "vm_id") as [[]|]; try discriminate.
  match goal with |- context [match ?f with Ok _ => _ | Err _ => _ end] => set (first := f) end.
  assert (Hfound : forall found tr1,
            match first with
            | Ok (ip :: ips) => (Some (ip :: ips), [])
            | Ok [] | Err _ => discover_loop (env_GuestAgentTicks env) s0
            end = (Some found, tr1) ->
            found <> [] /\ (first = Ok found \/ In (Ok found) (env_GuestAgentTicks env))).
  { intros found tr1. destruct first as [[|ip ips]|e].
    - intros H. apply discover_loop_found in H as [H1 H2]. auto.
    - intros [= <- _]. split; [discriminate | left; reflexivity].
    - intros H. apply discover_loop_found in H as [H1 H2]. auto. }
  destruct (match first with
            | Ok (ip :: ips) => (Some (ip :: ips), [])
            | Ok [] | Err _ => discover_loop (env_GuestAgentTicks env) s0
            end) as [[found|] tr1]; [|discriminate].
  destruct (Hfound found tr1 eq_refl) as [Hne Hfrom].
  destruct (settle_loop (env_SettleEvents env) s0 found found 0) as [[r n] tr2] eqn:Hs.
  destruct (settle_loop_result _ _ _ _ _ _ _ _ Hs) as (_ & _ & _ & _ & Hlast).
  destruct r as [[|ip others]|]; try discriminate.
  cbn [fst]. intros [= <- _]. exists ip, others. split; [reflexivity|].
  split; [unfold getHostFunc; by simplify_map_eq|].
  destruct (Hlast _ eq_refl) as [->|Hin]; [|right; right; exact Hin].
  destruct Hfrom as [H|H]; [left; exact H | right; left; exact H].
Qed.

(** When neither the first check nor any tick before the discovery
    deadline brings an address (each fails or reports none), the step
    asks once per tick after the first check, halts with the discovery
    timeout, and never enters the settle loop. *)
Theorem StepWaitForIP_Run_discovery_timeout
    (s : StepWaitForIP) (env : Env) (state : StateBag) (cc : ClusterConfig) (key : string) :
  state !! "cluster_config" = Some (VClusterConfig cc) ->
  state !! "vm_id" = Some (VString key) ->
  (env_GuestAgentFirst env = Ok [] \/ exists err, env_GuestAgentFirst env = Err err) ->
  Forall (fun answer => answer = Ok [] \/ exists err, answer = Err err)
         (env_GuestAgentTicks env) ->
  StepWaitForIP_Run s env state
  = (Returned ActionHalt,
     <["error" := VError (Errorf "timeout waiting for guest agent IP discovery after %v"
                             [ADuration (if WaitTimeout s =? 0 then 10 * minute
                                         else WaitTimeout s)])]> state,
     repeat (EvGuestAgentIPs key) (S (length (env_GuestAgentTicks env)))).
Proof.
  intros Hcc Hid Hfirst Hticks.
  unfold StepWaitForIP_Run, StepWaitForIP_Run_restarts. rewrite Hcc, Hid.
  rewrite (discover_loop_nothing _ key Hticks).
  destruct Hfirst as [->|[err ->]]; reflexivity.
Qed.

End WaitForIPMore.

Lemma StepWaitForIP_Run_continue_witness :
  exists ip others,
    snd (fst (StepWaitForIP_Run Samples.wait_for_ip_step Samples.env_polls_AABBB
                Samples.state_after_create))
    = <["discovered_ips" := VStrings (ip :: others)]>
        (<["host" := VString ip]> Samples.state_after_create).
Proof.
  destruct (StepWaitForIP_Run_continue Samples.wait_for_ip_step Samples.env_polls_AABBB
              Samples.state_after_create
              (snd (fst (StepWaitForIP_Run Samples.wait_for_ip_step Samples.env_polls_AABBB
                           Samples.state_after_create)))
              [EvGuestAgentIPs "vm-7"; EvGuestAgentIPs "vm-7"])
    as (ip & others & Hst & _).
  - vm_compute. reflexivity.
  - exists ip, others. exact Hst.
Defined.

Lemma StepWaitForIP_Run_discovery_timeout_witness :
  StepWaitForIP_Run Samples.wait_for_ip_step Samples.env_unreachable Samples.state_after_create
  = (Returned ActionHalt,
     <["error" := VError (Errorf "timeout waiting for guest agent IP discovery after %v"
                             [ADuration (10 * minute)])]> Samples.state_after_create,
     [EvGuestAgentIPs "vm-7"; EvGuestAgentIPs "vm-7"]).
Proof.
  apply (StepWaitForIP_Run_discovery_timeout Samples.wait_for_ip_step Samples.env_unreachable
           Samples.state_after_create Samples.cluster "vm-7").
  - reflexivity.
  - reflexivity.
  - right. exists Samples.unreachable. reflexivity.
  - constructor; [|constructor]. right. exists Samples.unreachable. reflexivity.
Defined.

(** ** StepShutdown and StepSimpleShutdown *)

Section ShutdownMore.
Import Measure BuilderSetup.

(** With a command configured and the VM key in the state: when the
    command starts and exits with status 0, the step sends no power
    action; in every other case (the command cannot start, times out, or
    exits with another status) it sends exactly one power action, [kill]
    for the VM's key. ["vm_shutdown_completed"] is set on the first path
    unless the build is cancelled in the wait, and on the second only when
    the API accepts the power action with status 201. *)
Theorem StepShutdown_Run_power_actions
    (s : StepShutdown) (env : Env) (state : StateBag) (cc : ClusterConfig) (key : string) :
  state !! "communicator" = Some VCommunicator ->
  state !! "cluster_config" = Some (VClusterConfig cc) ->
  state !! "vm_id" = Some (VString key) ->
  key <> "" ->
  Command s <> "" ->
  let graceful :=
    match env_CommStart env, env_CommWait env with
    | None, WaitExited status => status =? 0
    | _, _ => false
    end in
  let accepted :=
    match env_PowerOff env with
    | HttpStatus code => code =? 201
    | HttpFail _ => false
    end in
  power_actions (snd (StepShutdown_Run s env state))
  = (if graceful then [] else [(key, "kill")])
  /\ snd (fst (StepShutdown_Run s env state))
     = if (graceful && negb (env_CancelledInDrain env)) || (negb graceful && accepted)
       then <["vm_shutdown_completed" := VBool true]> state
       else state.
Proof.
  intros Hcomm Hcc Hid Hkey Hcmd graceful accepted. subst graceful accepted.
  unfold StepShutdown_Run, performForcedShutdown, PowerOffVM, changeVMPowerState.
  apply String.eqb_neq in Hcmd. apply String.eqb_neq in Hkey.
  rewrite Hcmd, Hcomm, Hcc, Hid, Hkey.
  destruct (env_CommStart env) as [e|].
  { destruct (env_PowerOff env) as [e'|code]; [split; reflexivity|].
    destruct (code =? 201); split; reflexivity. }
  destruct (env_CommWait env) as [|status].
  { destruct (env_PowerOff env) as [e'|code]; [split; reflexivity|].
    destruct (code =? 201); split; reflexivity. }
  destruct (status =? 0); cbn [negb].
  - destruct (env_CancelledInDrain env); [split; reflexivity|].
    destruct (env_RunningAfterShutdown env) as [[[|]|]|e]; split; reflexivity.
  - destruct (env_PowerOff env) as [e'|code]; [split; reflexivity|].
    destruct (code =? 201); split; reflexivity.
Qed.

(** [StepSimpleShutdown.Run] never fails the build: it always continues
    and never writes the build error. Without a VM key it calls nothing;
    with one it sends exactly one [kill] and sets ["vm_powered_off"] only
    when the API accepts it with status 201. *)
Theorem StepSimpleShutdown_Run_spec
    (env : Env) (state : StateBag) (cc : ClusterConfig) :
  state !! "cluster_config" = Some (VClusterConfig cc) ->
  (state !! "vm_id" = None ->
   StepSimpleShutdown_Run env state = (Returned ActionContinue, state, []))
  /\ (forall key,
      state !! "vm_id" = Some (VString key) ->
      exists st tr,
        StepSimpleShutdown_Run env state = (Returned ActionContinue, st, tr)
        /\ power_actions tr = [(key, "kill")]
        /\ st !! "error" = state !! "error"
        /\ st = match env_PowerOff env with
                | HttpStatus code =>
                    if code =? 201 then <["vm_powered_off" := VBool true]> state else state
                | HttpFail _ => state
                end).
Proof.
  intros Hcc. unfold StepSimpleShutdown_Run. rewrite Hcc. split.
  - intros ->. reflexivity.
  - intros key ->. unfold PowerOffVM, changeVMPowerState.
    destruct (env_PowerOff env) as [e|code].
    + eexists _, _. repeat split; reflexivity.
    + destruct (code =? 201); cbn [negb]; eexists _, _; repeat split; try reflexivity.
      by rewrite lookup_insert_ne.
Qed.

End ShutdownMore.

Lemma StepShutdown_Run_power_actions_witness :
  Measure.power_actions
    (snd (StepShutdown_Run Samples.shutdown_step Samples.env_forced_off_fails
            Samples.state_before_shutdown))
  = [("vm-7", "kill")].
Proof.
  apply (StepShutdown_Run_power_actions Samples.shutdown_step Samples.env_forced_off_fails
           Samples.state_before_shutdown Samples.cluster "vm-7").
  - reflexivity.
  - reflexivity.
  - reflexivity.
  - discriminate.
  - discriminate.
Defined.

Lemma StepSimpleShutdown_Run_spec_witness :
  exists st tr,
    BuilderSetup.StepSimpleShutdown_Run Samples.env_all_good Samples.state_before_shutdown
    = (Returned ActionContinue, st, tr)
    /\ Measure.power_actions tr = [("vm-7", "kill")].
Proof.
  destruct (StepSimpleShutdown_Run_spec Samples.env_all_good Samples.state_before_shutdown
              Samples.cluster) as [_ H].
  - reflexivity.
  - destruct (H "vm-7") as (st & tr & Hrun & Hact & _); [reflexivity|].
    exists st, tr. split; assumption.
Defined.

(** ** The request layer *)

Section DoFacts.
Import ClientHttp.
Variable unmarshal_err : string -> option string.

(** [Client.Do] hands a response to its caller exactly for the statuses
    200 to 399; for any other status whose body can be read it returns the
    API fault with the status, the endpoint and the [err] field of the
    body (the whole body when it does not decode). On what [Do] returns,
    [DeleteVM] succeeds exactly for 200 and 204, a power action exactly for
    201 and a disk update exactly for 200. *)
Theorem Do_accepted_statuses
    (endpoint : string) (status : Z) (body : Result string)
    (env : Env) (key action : string) (size : Z) :
  env_DeleteVM env = answer_of (Do unmarshal_err endpoint (Responds status body)) ->
  let answer := answer_of (Do unmarshal_err endpoint (Responds status body)) in
  (Do unmarshal_err endpoint (Responds status body) = Ok status <-> 200 <= status < 400)
  /\ (forall text,
        body = Ok text -> ~ 200 <= status < 400 ->
        Do unmarshal_err endpoint (Responds status body)
        = Err (apiError status endpoint (default text (unmarshal_err text))))
  /\ (fst (DeleteVM env key) = None <-> status = 200 \/ status = 204)
  /\ (fst (changeVMPowerState answer key action) = None <-> status = 201)
  /\ (fst (UpdateDiskSize answer key size) = None <-> status = 200).
Proof.
  intros Henv answer. subst answer.
  unfold DeleteVM. rewrite Henv. clear Henv.
  unfold changeVMPowerState, UpdateDiskSize, Do.
  destruct ((400 <=? status) || (status <? 200)) eqn:Hout.
  - assert (Hrange : ~ 200 <= status < 400).
    { apply orb_true_iff in Hout as [H|H]; [apply Z.leb_le in H | apply Z.ltb_lt in H]; lia. }
    split; [split; [|lia]|].
    { destruct body as [text|e]; [destruct (unmarshal_err text)|]; discriminate. }
    split.
    { intros text -> _. destruct (unmarshal_err text); reflexivity. }
    destruct body as [text|e]; [destruct (unmarshal_err text)|]; cbn [answer_of fst];
      (split; [split; [discriminate|lia]|]); (split; (split; [discriminate|lia])).
  - assert (Hrange : 200 <= status < 400).
    { apply orb_false_iff in Hout as [H1 H2].
      apply Z.leb_gt in H1. apply Z.ltb_ge in H2. lia. }
    split; [split; [intros _; exact Hrange | reflexivity]|].
    split; [intros text _ H; contradiction|].
    cbn [answer_of].
    split; [|split].
    + destruct (status =? 200) eqn:H200; [apply Z.eqb_eq in H200; cbn; split; auto|].
      destruct (status =? 204) eqn:H204; [apply Z.eqb_eq in H204; cbn; split; auto|].
      apply Z.eqb_neq in H200, H204. cbn. split; [discriminate | lia].
    + destruct (status =? 201) eqn:H; cbn;
        [apply Z.eqb_eq in H; split; auto | apply Z.eqb_neq in H; split; [discriminate|lia]].
    + destruct (status =? 200) eqn:H; cbn;
        [apply Z.eqb_eq in H; split; auto | apply Z.eqb_neq in H; split; [discriminate|lia]].
Qed.

End DoFacts.

Lemma Do_accepted_statuses_witness :
  fst (DeleteVM Samples.env_all_good "vm-7") = None.
Proof.
  destruct (Do_accepted_statuses (fun _ => None) "api/v4/vms/vm-7" 204 (Ok "")
              Samples.env_all_good "vm-7" "kill" 20) as (_ & _ & Hdel & _).
  - reflexivity.
  - apply Hdel. right. reflexivity.
Defined.

Section QueryFacts.
Import ClientHttp.

(** Only GET requests get a query. A GET request always asks for fields,
    ["most"] unless the options name some; the other options are sent
    only when they are not empty, so no parameter is ever sent empty. *)
Theorem request_query_spec (method : string) (params : option Options) :
  (method <> "GET" -> request_query method params = ∅)
  /\ request_query "GET" params !! "fields"
     = Some match params with
            | Some p => if String.eqb (Fields p) "" then "most" else Fields p
            | None => "most"
            end
  /\ (forall k v, request_query method params !! k = Some v ->
        v <> ""
        /\ (k = "fields" \/ k = "filter" \/ k = "sort" \/ k = "limit" \/ k = "offset"))
  /\ (forall p, params = Some p ->
        request_query "GET" params !! "filter"
          = (if String.eqb (Filter p) "" then None else Some (Filter p))
        /\ request_query "GET" params !! "sort"
          = (if String.eqb (Sort p) "" then None else Some (Sort p))
        /\ request_query "GET" params !! "limit"
          = (if String.eqb (Limit p) "" then None else Some (Limit p))
        /\ request_query "GET" params !! "offset"
          = (if String.eqb (Offset p) "" then None else Some (Offset p))).
Proof.
  split; [|split; [|split]].
  - intros Hne. unfold request_query. apply String.eqb_neq in Hne. rewrite Hne. reflexivity.
  - unfold request_query, get_query. cbn [String.eqb Ascii.eqb Bool.eqb].
    destruct params as [p|]; [|reflexivity].
    destruct (String.eqb (Fields p) ""), (String.eqb (Filter p) ""),
      (String.eqb (Sort p) ""), (String.eqb (Limit p) ""), (String.eqb (Offset p) "");
      by simplify_map_eq.
  - intros k v. unfold request_query, get_query.
    destruct (String.eqb method "GET"); [|rewrite lookup_empty; discriminate].
    destruct params as [p|].
    + destruct (String.eqb (Fields p) "") eqn:H1, (String.eqb (Filter p) "") eqn:H2,
        (String.eqb (Sort p) "") eqn:H3, (String.eqb (Limit p) "") eqn:H4,
        (String.eqb (Offset p) "") eqn:H5;
        try apply String.eqb_neq in H1; try apply String.eqb_neq in H2;
        try apply String.eqb_neq in H3; try apply String.eqb_neq in H4;
        try apply String.eqb_neq in H5;
        intros Hk;
        repeat (apply lookup_insert_Some in Hk as [[<- <-]|[_ Hk]];
                [split; [assumption || discriminate | tauto]|]);
        rewrite lookup_empty in Hk; discriminate Hk.
    + intros Hk. apply lookup_insert_Some in Hk as [[<- <-]|[_ Hk]];
        [split; [discriminate | tauto] | rewrite lookup_empty in Hk; discriminate Hk].
  - intros p ->. unfold request_query, get_query. cbn [String.eqb Ascii.eqb Bool.eqb].
    destruct (String.eqb (Fields p) ""), (String.eqb (Filter p) ""),
      (String.eqb (Sort p) ""), (String.eqb (Limit p) ""), (String.eqb (Offset p) "");
      repeat split; by simplify_map_eq.
Qed.

End QueryFacts.

Lemma request_query_spec_witness :
  ClientHttp.request_query "DELETE" None = ∅.
Proof.
  apply (request_query_spec "DELETE" None). discriminate.
Defined.

(** ** The guest agent *)

Section GuestAgentFacts.
Import ClientHttp.
Variable isLoopbackIP : string -> bool.

Lemma collect_ips_debug_eq ips :
  collect_ips_debug isLoopbackIP ips = collect_ips isLoopbackIP ips.
Proof.
  induction ips as [|[ip|] rest IH]; [reflexivity| |reflexivity].
  cbn [collect_ips_debug collect_ips]. rewrite IH.
  destruct (collect_ips isLoopbackIP rest) as [found|]; [|reflexivity].
  destruct (String.eqb (IPAddressType ip) "ipv4"); [|reflexivity].
  destruct (String.eqb (IPAddress ip) ""); [reflexivity|].
  destruct (isLoopbackIP (IPAddress ip)); reflexivity.
Qed.

Lemma collect_networks_debug_eq networks :
  collect_networks_debug isLoopbackIP networks = collect_networks isLoopbackIP networks.
Proof.
  induction networks as [|[network|] rest IH]; [reflexivity| |reflexivity].
  cbn [collect_networks_debug collect_networks].
  rewrite collect_ips_debug_eq, IH. reflexivity.
Qed.

(** [GetGuestAgentIPsWithDebug] and [GetGuestAgentIPs] give the same
    addresses and the same error on every answer of the remote side, and
    fail alike on a nil entry; the raw response is handed out exactly when
    there is no error. *)
Theorem GetGuestAgentIPsWithDebug_agrees (answer : DashboardAnswer) :
  GetGuestAgentIPs isLoopbackIP answer
  = match GetGuestAgentIPsWithDebug isLoopbackIP answer with
    | Panicked => Panicked
    | Returned (ips, _, None) => Returned (Ok ips)
    | Returned (_, _, Some err) => Returned (Err err)
    end
  /\ (forall ips raw err,
        GetGuestAgentIPsWithDebug isLoopbackIP answer = Returned (ips, raw, Some err) ->
        ips = [] /\ raw = "")
  /\ (forall ips raw,
        GetGuestAgentIPsWithDebug isLoopbackIP answer = Returned (ips, raw, None) ->
        exists decoded, answer = DashboardResponse 200 (BodyText raw decoded)).
Proof.
  split; [|split].
  - destruct answer as [err|status body]; [reflexivity|].
    cbn [GetGuestAgentIPs GetGuestAgentIPsWithDebug].
    destruct (negb (status =? 200)); [reflexivity|].
    destruct body as [|err|raw [[networks|]|]]; try reflexivity.
    rewrite collect_networks_debug_eq.
    destruct (collect_networks isLoopbackIP networks); reflexivity.
  - intros ips raw err. destruct answer as [e|status body]; cbn [GetGuestAgentIPsWithDebug].
    + intros [= <- <- _]. split; reflexivity.
    + destruct (negb (status =? 200)); [intros [= <- <- _]; split; reflexivity|].
      destruct body as [|e|raw' [[networks|]|]]; try (intros [= <- <- _]; split; reflexivity);
        try discriminate.
      destruct (collect_networks_debug isLoopbackIP networks); discriminate.
  - intros ips raw. destruct answer as [e|status body]; cbn [GetGuestAgentIPsWithDebug];
      [discriminate|].
    destruct (status =? 200) eqn:Hs; cbn [negb]; [|discriminate].
    apply Z.eqb_eq in Hs. subst status.
    destruct body as [|e|raw' [[networks|]|]]; try discriminate.
    + destruct (collect_networks_debug isLoopbackIP networks); [|discriminate].
      intros [= _ <-]. eexists. reflexivity.
    + intros [= _ <-]. eexists. reflexivity.
    + intros [= _ <-]. eexists. reflexivity.
Qed.





End GuestAgentFacts.



(** ** Prepare and the cloud-init files *)

Section PrepareFacts.
Import BuilderSetup.

Lemma processCloudInitFiles_ok fs : forall files i files',
  processCloudInitFiles fs files i = (files', None) ->
  Forall2 (fun file file' =>
             SourceName file' = SourceName file
             /\ SourceFiles file' = []
             /\ (SourceFiles file = [] -> file' = file)
             /\ (SourceFiles file <> [] ->
                 SourceContents file = "" /\ SourceContents file' <> ""
                 /\ exists k allContents,
                      load_files fs k (SourceName file) (SourceFiles file) 0 = Ok allContents
                      /\ SourceContents file' = join_contents allContents))
          files files'
  /\ (forall fs' i', processCloudInitFiles fs' files' i' = (files', None)).
Proof.
  induction files as [|file rest IH]; intros i files'.
  - intros [= <-]. split; [constructor | reflexivity].
  - cbn [processCloudInitFiles].
    destruct (String.eqb (SourceContents file) "") eqn:Hc;
      destruct (SourceFiles file) as [|path paths] eqn:Hf; cbn [negb andb length Nat.ltb Nat.leb].
    + (* neither contents nor files *)
      destruct (processCloudInitFiles fs rest (i + 1)) as [rest' err] eqn:Hrest.
      intros [= <- ->]. destruct (IH _ _ Hrest) as [IH1 IH2]. split.
      * constructor; [|exact IH1]. split; [reflexivity|]. split; [exact Hf|].
        split; [reflexivity|]. intros Hne. contradiction.
      * intros fs' i'. cbn [processCloudInitFiles]. rewrite Hc, Hf.
        cbn [negb andb length Nat.ltb Nat.leb]. rewrite IH2. reflexivity.
    + (* files *)
      destruct (load_files fs i (SourceName file) (path :: paths) 0) as [allContents|err]
        eqn:Hload; [|discriminate].
      cbn [SourceContents].
      destruct (String.eqb (join_contents allContents) "") eqn:Hj; [discriminate|].
      destruct (processCloudInitFiles fs rest (i + 1)) as [rest' err] eqn:Hrest.
      intros [= <- ->]. destruct (IH _ _ Hrest) as [IH1 IH2]. split.
      * constructor; [|exact IH1]. cbn [SourceName SourceFiles SourceContents].
        split; [reflexivity|]. split; [reflexivity|].
        split; [intros Hnil; rewrite Hf in Hnil; discriminate Hnil|].
        intros _. split; [apply String.eqb_eq, Hc|]. split; [apply String.eqb_neq, Hj|].
        exists i, allContents. rewrite Hf. split; [exact Hload | reflexivity].
      * intros fs' i'. cbn [processCloudInitFiles SourceContents SourceFiles].
        rewrite Hj. cbn [negb andb length Nat.ltb Nat.leb]. rewrite IH2. reflexivity.
    + (* inline contents *)
      destruct (processCloudInitFiles fs rest (i + 1)) as [rest' err] eqn:Hrest.
      intros [= <- ->]. destruct (IH _ _ Hrest) as [IH1 IH2]. split.
      * constructor; [|exact IH1]. split; [reflexivity|]. split; [exact Hf|].
        split; [reflexivity|]. intros Hne. contradiction.
      * intros fs' i'. cbn [processCloudInitFiles]. rewrite Hc, Hf.
        cbn [negb andb length Nat.ltb Nat.leb]. rewrite IH2. reflexivity.
    + (* both *)
      discriminate.
Qed.

(** [processCloudInitFiles] that succeeds keeps the entries, their order
    and their names; an entry without files is left as it is; an entry with
    files had no inline contents and now holds, instead of the paths, the
    contents of its files joined by newlines, which are not empty. No entry
    carries a path afterwards, so that processing the result again changes
    nothing and reads no file. *)
Theorem processCloudInitFiles_success
    (fs : FileSystem) (files files' : list CloudInitSource) (i : Z) :
  processCloudInitFiles fs files i = (files', None) ->
  Forall2 (fun file file' =>
             SourceName file' = SourceName file
             /\ SourceFiles file' = []
             /\ (SourceFiles file = [] -> file' = file)
             /\ (SourceFiles file <> [] ->
                 SourceContents file = "" /\ SourceContents file' <> ""
                 /\ exists k allContents,
                      load_files fs k (SourceName file) (SourceFiles file) 0 = Ok allContents
                      /\ SourceContents file' = join_contents allContents))
          files files'
  /\ (forall fs' i', processCloudInitFiles fs' files' i' = (files', None)).
Proof. apply processCloudInitFiles_ok. Qed.

(** A configuration that has its defaults is left as it is by
    [set_defaults]. *)
Lemma set_defaults_fixed c :
  PPort c <> 0 ->
  CommType (PComm c) <> "" ->
  (CommType (PComm c) = "ssh" -> SSHPort (PComm c) <> 0) ->
  SSHTimeout (PComm c) <> 0 ->
  (CommType (PComm c) = "winrm" ->
   WinRMPort (PComm c) <> 0 /\ WinRMTimeout (PComm c) <> 0) ->
  PShutdownTimeout c <> 0 ->
  set_defaults c = c.
Proof.
  destruct c as [endpoint username password port comm shutdown nics files].
  destruct comm as [type sshPort sshTimeout sshUser sshPass sshKey sshAgent
                    winrmPort winrmSSL winrmTimeout winrmUser winrmPass].
  cbn [PPort PComm CommType SSHPort SSHTimeout WinRMPort WinRMTimeout PShutdownTimeout].
  intros Hport Htype Hssh Hst Hwinrm Hshutdown.
  unfold set_defaults.
  cbn [PPort PComm CommType SSHPort SSHTimeout WinRMPort WinRMTimeout PShutdownTimeout
       PEndpoint PUsername PPassword PVmNicConfigs PCloudInitFiles SSHUsername SSHPassword
       SSHPrivateKeyFile SSHAgentAuth WinRMUseSSL WinRMUser WinRMPassword].
  apply Z.eqb_neq in Hport, Hst, Hshutdown. apply String.eqb_neq in Htype.
  rewrite Hport, Hst, Hshutdown, Htype.
  assert (H1 : (if String.eqb type "ssh" && (sshPort =? 0) then 22 else sshPort) = sshPort).
  { destruct (String.eqb type "ssh") eqn:Ht; [|reflexivity].
    apply String.eqb_eq in Ht. apply Hssh, Z.eqb_neq in Ht. rewrite Ht. reflexivity. }
  assert (H2 : (if String.eqb type "winrm" && (winrmPort =? 0)
                then (if winrmSSL then 5986 else 5985) else winrmPort) = winrmPort
               /\ (if String.eqb type "winrm" && (winrmTimeout =? 0)
                   then 20 * minute else winrmTimeout) = winrmTimeout).
  { destruct (String.eqb type "winrm") eqn:Ht; [|split; reflexivity].
    apply String.eqb_eq in Ht. destruct (Hwinrm Ht) as [Hp Hto].
    apply Z.eqb_neq in Hp, Hto. rewrite Hp, Hto. split; reflexivity. }
  destruct H2 as [H2 H3]. rewrite H1, H2, H3. reflexivity.
Qed.

(** What [set_defaults] guarantees. *)
Lemma set_defaults_set c :
  let d := set_defaults c in
  PPort d <> 0
  /\ CommType (PComm d) <> ""
  /\ (CommType (PComm d) = "ssh" -> SSHPort (PComm d) <> 0)
  /\ SSHTimeout (PComm d) <> 0
  /\ (CommType (PComm d) = "winrm" ->
      WinRMPort (PComm d) <> 0 /\ WinRMTimeout (PComm d) <> 0)
  /\ PShutdownTimeout d <> 0.
Proof.
  destruct c as [endpoint username password port comm shutdown nics files].
  destruct comm as [type sshPort sshTimeout sshUser sshPass sshKey sshAgent
                    winrmPort winrmSSL winrmTimeout winrmUser winrmPass].
  unfold set_defaults.
  cbn [PPort PComm CommType SSHPort SSHTimeout WinRMPort WinRMTimeout PShutdownTimeout
       PEndpoint PUsername PPassword PVmNicConfigs PCloudInitFiles SSHUsername SSHPassword
       SSHPrivateKeyFile SSHAgentAuth WinRMUseSSL WinRMUser WinRMPassword].
  assert (Hmin : 20 * minute <> 0) by (vm_compute; discriminate).
  assert (Hmin5 : 5 * minute <> 0) by (vm_compute; discriminate).
  split; [destruct (port =? 0) eqn:H; [discriminate | apply Z.eqb_neq, H]|].
  split; [destruct (String.eqb type "") eqn:H; [discriminate | apply String.eqb_neq, H]|].
  split.
  { intros Ht. apply String.eqb_eq in Ht. rewrite Ht. cbn [andb].
    destruct (sshPort =? 0) eqn:H; [discriminate | apply Z.eqb_neq, H]. }
  split; [destruct (sshTimeout =? 0) eqn:H; [exact Hmin | apply Z.eqb_neq, H]|].
  split.
  { intros Ht. apply String.eqb_eq in Ht. rewrite Ht. cbn [andb]. split.
    - destruct (winrmPort =? 0) eqn:H; [destruct winrmSSL; discriminate | apply Z.eqb_neq, H].
    - destruct (winrmTimeout =? 0) eqn:H; [exact Hmin | apply Z.eqb_neq, H]. }
  destruct (shutdown =? 0) eqn:H; [exact Hmin5 | apply Z.eqb_neq, H].
Qed.

(** No validation error means every required field is there. *)
Lemma validation_errors_nil c :
  validation_errors c = [] ->
  PEndpoint c <> "" /\ PUsername c <> "" /\ PPassword c <> ""
  /\ (CommType (PComm c) = "ssh" ->
      SSHUsername (PComm c) <> ""
      /\ (SSHPassword (PComm c) <> "" \/ SSHPrivateKeyFile (PComm c) <> ""
          \/ SSHAgentAuth (PComm c) = true))
  /\ (CommType (PComm c) = "winrm" ->
      WinRMUser (PComm c) <> "" /\ WinRMPassword (PComm c) <> "").
Proof.
  unfold validation_errors.
  destruct (String.eqb (PEndpoint c) "") eqn:He; [discriminate|].
  destruct (String.eqb (PUsername c) "") eqn:Hu; [discriminate|].
  destruct (String.eqb (PPassword c) "") eqn:Hp; [discriminate|].
  cbn [app]. intros H. apply app_eq_nil in H. destruct H as [Hssh Hwinrm].
  apply String.eqb_neq in He, Hu, Hp.
  split; [exact He|]. split; [exact Hu|]. split; [exact Hp|]. split.
  - intros Ht. apply String.eqb_eq in Ht. rewrite Ht in Hssh.
    apply app_eq_nil in Hssh. destruct Hssh as [H1 H2].
    destruct (String.eqb (SSHUsername (PComm c)) "") eqn:Hn; [discriminate|].
    split; [apply String.eqb_neq, Hn|].
    destruct (String.eqb (SSHPassword (PComm c)) "") eqn:Hpw;
      [|left; apply String.eqb_neq, Hpw].
    destruct (String.eqb (SSHPrivateKeyFile (PComm c)) "") eqn:Hk;
      [|right; left; apply String.eqb_neq, Hk].
    destruct (SSHAgentAuth (PComm c)); [right; right; reflexivity | discriminate].
  - intros Ht. apply String.eqb_eq in Ht. rewrite Ht in Hwinrm.
    apply app_eq_nil in Hwinrm. destruct Hwinrm as [H1 H2].
    destruct (String.eqb (WinRMUser (PComm c)) "") eqn:Hn; [discriminate|].
    destruct (String.eqb (WinRMPassword (PComm c)) "") eqn:Hpw; [discriminate|].
    split; [apply String.eqb_neq, Hn | apply String.eqb_neq, Hpw].
Qed.

(** [Prepare] that succeeds leaves a configuration with an endpoint, a user
    name and a password, a port, a communicator type with its port, its
    timeout and its credentials, a shutdown timeout, and cloud-init entries
    that carry no file paths any more. Preparing that configuration again
    changes nothing and reads no file. *)
Theorem Prepare_success
    (fs : FileSystem) (c c' : PrepareConfig) (warnings : list string) :
  Prepare fs c = (c', warnings, []) ->
  (PEndpoint c' = PEndpoint c /\ PEndpoint c <> "")
  /\ (PUsername c' = PUsername c /\ PUsername c <> "")
  /\ (PPassword c' = PPassword c /\ PPassword c <> "")
  /\ PPort c' <> 0
  /\ CommType (PComm c') <> ""
  /\ SSHTimeout (PComm c') <> 0
  /\ PShutdownTimeout c' <> 0
  /\ (CommType (PComm c') = "ssh" ->
      SSHPort (PComm c') <> 0 /\ SSHUsername (PComm c') <> ""
      /\ (SSHPassword (PComm c') <> "" \/ SSHPrivateKeyFile (PComm c') <> ""
          \/ SSHAgentAuth (PComm c') = true))
  /\ (CommType (PComm c') = "winrm" ->
      WinRMPort (PComm c') <> 0 /\ WinRMTimeout (PComm c') <> 0
      /\ WinRMUser (PComm c') <> "" /\ WinRMPassword (PComm c') <> "")
  /\ Forall (fun file => SourceFiles file = []) (PCloudInitFiles c')
  /\ (forall fs', Prepare fs' c' = (c', warnings, [])).
Proof.
  unfold Prepare.
  pose proof (set_defaults_set c) as Hset. cbv zeta in Hset.
  remember (set_defaults c) as d eqn:Hdef.
  destruct (validation_errors d) as [|e es] eqn:Hv; [|discriminate].
  destruct (processCloudInitFiles fs (PCloudInitFiles d) 0) as [files err] eqn:Hfiles.
  destruct err as [err|]; [discriminate|].
  intros [= <- <-].
  destruct (validation_errors_nil d Hv) as (He & Hu & Hp & Hssh & Hwinrm).
  destruct Hset as (Hport & Htype & Hsshport & Hst & Hwp & Hshutdown).
  destruct (processCloudInitFiles_ok fs _ _ _ Hfiles) as [Hall Hagain].
  assert (Hd : PEndpoint d = PEndpoint c /\ PUsername d = PUsername c
               /\ PPassword d = PPassword c /\ PVmNicConfigs d = PVmNicConfigs c).
  { subst d. destruct c. repeat split. }
  destruct Hd as (Hde & Hdu & Hdp & Hdn).
  cbn [PEndpoint PUsername PPassword PPort PComm PShutdownTimeout PVmNicConfigs
       PCloudInitFiles].
  split; [split; [exact Hde | rewrite <- Hde; exact He]|].
  split; [split; [exact Hdu | rewrite <- Hdu; exact Hu]|].
  split; [split; [exact Hdp | rewrite <- Hdp; exact Hp]|].
  split; [exact Hport|]. split; [exact Htype|]. split; [exact Hst|].
  split; [exact Hshutdown|].
  split; [intros Ht; destruct (Hssh Ht) as [H1 H2]; auto|].
  split; [intros Ht; destruct (Hwinrm Ht) as [H1 H2]; destruct (Hwp Ht) as [H3 H4]; auto|].
  split.
  { clear -Hall. induction Hall as [|file file' files files' (_ & Hnil & _) _ IH];
      constructor; assumption. }
  intros fs'.
  rewrite set_defaults_fixed
    by (cbn [PPort PComm PShutdownTimeout]; assumption).
  cbn [PEndpoint PUsername PPassword PPort PComm PShutdownTimeout PVmNicConfigs
       PCloudInitFiles].
  change (validation_errors
            {| PEndpoint := PEndpoint d; PUsername := PUsername d; PPassword := PPassword d;
               PPort := PPort d; PComm := PComm d; PShutdownTimeout := PShutdownTimeout d;
               PVmNicConfigs := PVmNicConfigs d; PCloudInitFiles := files |})
    with (validation_errors d).
  rewrite Hv, Hagain. reflexivity.
Qed.

End PrepareFacts.

Lemma processCloudInitFiles_success_witness :
  BuilderSetup.processCloudInitFiles Samples.empty_fs
    (fst (BuilderSetup.processCloudInitFiles Samples.sample_fs Samples.sample_sources 0)) 0
  = (fst (BuilderSetup.processCloudInitFiles Samples.sample_fs Samples.sample_sources 0),
     None).
Proof.
  destruct (processCloudInitFiles_success Samples.sample_fs Samples.sample_sources
              (fst (BuilderSetup.processCloudInitFiles Samples.sample_fs
                      Samples.sample_sources 0))
              0) as [_ Hagain].
  - vm_compute. reflexivity.
  - apply Hagain.
Defined.

Lemma Prepare_success_witness :
  BuilderSetup.PPort
    (fst (fst (BuilderSetup.Prepare Samples.sample_fs Samples.sample_prepare_config))) <> 0
  /\ BuilderSetup.Prepare Samples.empty_fs
       (fst (fst (BuilderSetup.Prepare Samples.sample_fs Samples.sample_prepare_config)))
     = (fst (fst (BuilderSetup.Prepare Samples.sample_fs Samples.sample_prepare_config)),
        [BuilderSetup.noNicsWarning], []).
Proof.
  destruct (Prepare_success Samples.sample_fs Samples.sample_prepare_config
              (fst (fst (BuilderSetup.Prepare Samples.sample_fs Samples.sample_prepare_config)))
              [BuilderSetup.noNicsWarning])
    as (_ & _ & _ & Hport & _ & _ & _ & _ & _ & _ & Hagain).
  - vm_compute. reflexivity.
  - split; [exact Hport | apply Hagain].
Defined.
